(** * Cluster and machine scopes of the IBM Cloud infrastructure provider

    A shallow embedding of the two scope files of the provider:
    - the VPC cluster scope ([ClusterScope]: CreateVPC, ReserveFIP,
      DeleteFloatingIP, CreateSubnet, DeleteSubnet and their helpers);
    - the Power VS machine scope ([PowerVSMachineScope]: CreateMachine,
      GetBootstrapData, getImageID, getNetworkID and their helpers).

    Conventions of the embedding:
    - a Go pointer is an [option]; dereferencing [None] is a run-time panic,
      the [Fault] outcome;
    - a Go [error] is an [option error], [None] being [nil];
    - a method returning [(value, error)] returns the pair, as in Go;
    - the cloud SDK clients are opaque stubs: a record of handlers over an
      abstract remote state [R].  Every call made through a stub is appended,
      with its reply, to the transcript of the world;
    - the [*core.DetailedResponse] that the VPC SDK returns next to each
      result is dropped by every caller ([_]) and is not modelled; logger
      calls are not modelled either. *)

From Stdlib Require Import String Ascii List Bool ZArith NArith Lia.
From Stdlib Require Import Strings.Byte.
From Stdlib Require Import Floats.PrimFloat.
From Stdlib Require Import DecimalString.
Import ListNotations.
Local Open Scope string_scope.
Local Open Scope list_scope.

(** ** Errors: [errors.New], [fmt.Errorf], [errors.Wrap] *)

Inductive error : Type :=
| errors_New (msg : string)
| errors_Wrapped (cause : error) (msg : string).

(** The [Error()] method: a wrapped error prints [msg: cause]. *)
Fixpoint Error (e : error) : string :=
  match e with
  | errors_New msg => msg
  | errors_Wrapped cause msg => (msg ++ ": " ++ Error cause)%string
  end.

(** [fmt.Errorf] with the format already expanded. *)
Definition fmt_Errorf (msg : string) : error := errors_New msg.

(** [errors.Wrap(err, msg)]: [nil] stays [nil]. *)
Definition errors_Wrap (err : option error) (msg : string) : option error :=
  match err with
  | None => None
  | Some e => Some (errors_Wrapped e msg)
  end.

(** ** The monad of scope methods: remote state, transcript, panics *)

Inductive outcome (A : Type) : Type :=
| Done (a : A)
| Fault.
Arguments Done {A} a.
Arguments Fault {A}.

Record World (R Ev : Type) : Type := mkWorld {
  remote : R;
  transcript : list Ev
}.
Arguments mkWorld {R Ev} remote transcript.
Arguments remote {R Ev} w.
Arguments transcript {R Ev} w.

Definition M (R Ev A : Type) : Type := World R Ev -> outcome A * World R Ev.

Definition ret {R Ev A} (a : A) : M R Ev A := fun w => (Done a, w).

Definition bind {R Ev A B} (m : M R Ev A) (k : A -> M R Ev B) : M R Ev B :=
  fun w =>
    match m w with
    | (Done a, w') => k a w'
    | (Fault, w') => (Fault, w')
    end.

(** [*p]: a nil pointer panics. *)
Definition deref {R Ev A} (p : option A) : M R Ev A :=
  fun w =>
    match p with
    | Some a => (Done a, w)
    | None => (Fault, w)
    end.

(** A computation that makes no call: its outcome, in any world. *)
Definition lift {R Ev A} (o : outcome A) : M R Ev A := fun w => (o, w).

(** One call through a client stub: the handler runs on the remote state and
    the call with its reply is appended to the transcript. *)
Definition rpc {R Ev A} (h : R -> A * R) (ev : A -> Ev) : M R Ev A :=
  fun w =>
    let (a, r') := h (remote w) in
    (Done a, mkWorld r' (transcript w ++ [ev a])).

Declare Scope go_scope.
Delimit Scope go_scope with go.
Notation "x <- m ;; k" := (bind m (fun x => k))
  (at level 61, m at next level, right associativity) : go_scope.
Notation "' p <- m ;; k" := (bind m (fun x => match x with p => k end))
  (at level 61, p pattern, m at next level, right associativity) : go_scope.
Local Open Scope go_scope.

(** ** The VPC SDK ([vpcv1]): the types and calls the cluster scope uses *)

Module vpcv1.

Record SecurityGroupReference := { SecurityGroupReference_ID : option string }.

Record VPC := {
  VPC_ID : option string;
  VPC_Name : option string;
  VPC_DefaultSecurityGroup : option SecurityGroupReference
}.

Record VPCCollection := { Vpcs : list VPC }.

Record FloatingIP := {
  FloatingIP_ID : option string;
  FloatingIP_Name : option string;
  FloatingIP_Address : option string
}.

Record FloatingIPCollection := { FloatingIps : list FloatingIP }.

Record Subnet := {
  Subnet_ID : option string;
  Subnet_Name : option string;
  Subnet_Ipv4CIDRBlock : option string
}.

Record SubnetCollection := { Subnets : list Subnet }.

Record ZoneReference := { ZoneReference_Name : option string }.

Record AddressPrefix := {
  AddressPrefix_CIDR : option string;
  AddressPrefix_Zone : option ZoneReference
}.

Record AddressPrefixCollection := { AddressPrefixes : list AddressPrefix }.

Record PublicGateway := { PublicGateway_ID : option string }.

(** Identities used in request prototypes. *)
Record ResourceGroupIdentity := { ResourceGroupIdentity_ID : option string }.
Record VPCIdentity := { VPCIdentity_ID : option string }.
Record ZoneIdentity := { ZoneIdentity_Name : option string }.
Record PublicGatewayIdentity := { PublicGatewayIdentity_ID : option string }.

(** Request options, with the fields the scope sets. *)
Record ListVpcsOptions := { }.
Record ListFloatingIpsOptions := { }.
Record ListSubnetsOptions := { }.

Record CreateVPCOptions := {
  CreateVPCOptions_ResourceGroup : option ResourceGroupIdentity;
  CreateVPCOptions_Name : option string
}.

Record DeleteVPCOptions := { DeleteVPCOptions_ID : option string }.

Record SecurityGroupRulePrototype := {
  Direction : option string;
  Protocol : option string;
  IPVersion : option string
}.

Record CreateSecurityGroupRuleOptions := {
  SecurityGroupID : option string;
  SecurityGroupRulePrototype_ : option SecurityGroupRulePrototype
}.

Record SecurityGroupRule := { SecurityGroupRule_ID : option string }.

Record FloatingIPPrototype := {
  FloatingIPPrototype_Name : option string;
  FloatingIPPrototype_ResourceGroup : option ResourceGroupIdentity;
  FloatingIPPrototype_Zone : option ZoneIdentity
}.

Record CreateFloatingIPOptions := {
  FloatingIPPrototype_ : option FloatingIPPrototype
}.

Record DeleteFloatingIPOptions := { DeleteFloatingIPOptions_ID : option string }.

Record SubnetPrototype := {
  SubnetPrototype_Ipv4CIDRBlock : option string;
  SubnetPrototype_Name : option string;
  SubnetPrototype_VPC : option VPCIdentity;
  SubnetPrototype_Zone : option ZoneIdentity
}.

Record CreateSubnetOptions := { SubnetPrototype_ : option SubnetPrototype }.

Record ListVPCAddressPrefixesOptions := { VPCID : option string }.

Record CreatePublicGatewayOptions := {
  CreatePublicGatewayOptions_VPC : option VPCIdentity;
  CreatePublicGatewayOptions_Zone : option ZoneIdentity
}.

Record SetSubnetPublicGatewayOptions := {
  SetSubnetPublicGatewayOptions_ID : option string;
  PublicGatewayIdentity_ : option PublicGatewayIdentity
}.

Record GetSubnetPublicGatewayOptions := {
  GetSubnetPublicGatewayOptions_ID : option string
}.

Record UnsetSubnetPublicGatewayOptions := {
  UnsetSubnetPublicGatewayOptions_ID : option string
}.

Record DeletePublicGatewayOptions := {
  DeletePublicGatewayOptions_ID : option string
}.

Record DeleteSubnetOptions := { DeleteSubnetOptions_ID : option string }.

(** The service stub [*vpcv1.VpcV1]: one handler per SDK method, each a
    transition of the remote state that yields the method's results. *)
Record VpcV1 (R : Type) : Type := {
  ListVpcs : ListVpcsOptions -> R -> (option VPCCollection * option error) * R;
  CreateVPC : CreateVPCOptions -> R -> (option VPC * option error) * R;
  DeleteVPC : DeleteVPCOptions -> R -> option error * R;
  CreateSecurityGroupRule :
    CreateSecurityGroupRuleOptions -> R -> (option SecurityGroupRule * option error) * R;
  ListFloatingIps :
    ListFloatingIpsOptions -> R -> (option FloatingIPCollection * option error) * R;
  CreateFloatingIP :
    CreateFloatingIPOptions -> R -> (option FloatingIP * option error) * R;
  DeleteFloatingIP : DeleteFloatingIPOptions -> R -> option error * R;
  ListSubnets : ListSubnetsOptions -> R -> (option SubnetCollection * option error) * R;
  ListVPCAddressPrefixes :
    ListVPCAddressPrefixesOptions -> R ->
    (option AddressPrefixCollection * option error) * R;
  CreateSubnet : CreateSubnetOptions -> R -> (option Subnet * option error) * R;
  CreatePublicGateway :
    CreatePublicGatewayOptions -> R -> (option PublicGateway * option error) * R;
  SetSubnetPublicGateway :
    SetSubnetPublicGatewayOptions -> R -> (option PublicGateway * option error) * R;
  GetSubnetPublicGateway :
    GetSubnetPublicGatewayOptions -> R -> (option PublicGateway * option error) * R;
  UnsetSubnetPublicGateway : UnsetSubnetPublicGatewayOptions -> R -> option error * R;
  DeletePublicGateway : DeletePublicGatewayOptions -> R -> option error * R;
  DeleteSubnet : DeleteSubnetOptions -> R -> option error * R
}.
Arguments ListVpcs {R} v _ _.
Arguments CreateVPC {R} v _ _.
Arguments DeleteVPC {R} v _ _.
Arguments CreateSecurityGroupRule {R} v _ _.
Arguments ListFloatingIps {R} v _ _.
Arguments CreateFloatingIP {R} v _ _.
Arguments DeleteFloatingIP {R} v _ _.
Arguments ListSubnets {R} v _ _.
Arguments ListVPCAddressPrefixes {R} v _ _.
Arguments CreateSubnet {R} v _ _.
Arguments CreatePublicGateway {R} v _ _.
Arguments SetSubnetPublicGateway {R} v _ _.
Arguments GetSubnetPublicGateway {R} v _ _.
Arguments UnsetSubnetPublicGateway {R} v _ _.
Arguments DeletePublicGateway {R} v _ _.
Arguments DeleteSubnet {R} v _ _.

(** A call of the service together with its reply. *)
Inductive Call : Type :=
| CallListVpcs (o : ListVpcsOptions) (r : option VPCCollection * option error)
| CallCreateVPC (o : CreateVPCOptions) (r : option VPC * option error)
| CallDeleteVPC (o : DeleteVPCOptions) (r : option error)
| CallCreateSecurityGroupRule (o : CreateSecurityGroupRuleOptions)
    (r : option SecurityGroupRule * option error)
| CallListFloatingIps (o : ListFloatingIpsOptions)
    (r : option FloatingIPCollection * option error)
| CallCreateFloatingIP (o : CreateFloatingIPOptions) (r : option FloatingIP * option error)
| CallDeleteFloatingIP (o : DeleteFloatingIPOptions) (r : option error)
| CallListSubnets (o : ListSubnetsOptions) (r : option SubnetCollection * option error)
| CallListVPCAddressPrefixes (o : ListVPCAddressPrefixesOptions)
    (r : option AddressPrefixCollection * option error)
| CallCreateSubnet (o : CreateSubnetOptions) (r : option Subnet * option error)
| CallCreatePublicGateway (o : CreatePublicGatewayOptions)
    (r : option PublicGateway * option error)
| CallSetSubnetPublicGateway (o : SetSubnetPublicGatewayOptions)
    (r : option PublicGateway * option error)
| CallGetSubnetPublicGateway (o : GetSubnetPublicGatewayOptions)
    (r : option PublicGateway * option error)
| CallUnsetSubnetPublicGateway (o : UnsetSubnetPublicGatewayOptions) (r : option error)
| CallDeletePublicGateway (o : DeletePublicGatewayOptions) (r : option error)
| CallDeleteSubnet (o : DeleteSubnetOptions) (r : option error).

End vpcv1.

(** ** The cluster object ([infrav1.IBMVPCCluster])

    The API types are declared outside the scope files; the fields below are
    the ones the cluster scope reads, typed by the way it reads them
    ([Status.VPC.ID] is passed as a string, [Status.Subnet.ID] and
    [Status.APIEndpoint.FIPID] are dereferenced). *)

Module infrav1.

Record IBMVPCClusterSpec := {
  Spec_VPC : string;
  Spec_Zone : string;
  Spec_ResourceGroup : string
}.

Record VPC := { VPC_ID : string; VPC_Name : string }.

Record Subnet := { Subnet_ID : option string; Subnet_Name : option string }.

Record APIEndpoint := { Address : option string; FIPID : option string }.

Record IBMVPCClusterStatus := {
  Status_VPC : VPC;
  Status_Subnet : Subnet;
  Status_APIEndpoint : APIEndpoint
}.

Record IBMVPCCluster := {
  Name : string;
  Spec : IBMVPCClusterSpec;
  Status : IBMVPCClusterStatus
}.

End infrav1.

(** ** Package [scope], first file: the cluster scope *)

Module ClusterScope.
Import vpcv1.

(** The receiver: the service handle and the cluster object.  Both pointers
    are non-nil in every scope that [NewClusterScope] returns. *)
Record ClusterScope (R : Type) : Type := {
  VPCService : VpcV1 R;
  IBMVPCCluster : infrav1.IBMVPCCluster
}.
Arguments VPCService {R} _.
Arguments IBMVPCCluster {R} _.

Section Methods.
Context {R : Type}.
Abbreviation M := (M R Call).

(** The loop of [ensureVPCUnique]. *)
Fixpoint ensureVPCUnique_range (vpcs : list VPC) (vpcName : string)
  : outcome (option VPC * option error) :=
  match vpcs with
  | [] => Done (None, None)
  | vpc :: rest =>
      match VPC_Name vpc with
      | None => Fault
      | Some name =>
          if String.eqb name vpcName then Done (Some vpc, None)
          else ensureVPCUnique_range rest vpcName
      end
  end.

Definition ensureVPCUnique (s : ClusterScope R) (vpcName : string)
  : M (option VPC * option error) :=
  let listVpcsOptions := Build_ListVpcsOptions in
  '(vpcs, err) <- rpc (ListVpcs (VPCService s) listVpcsOptions)
                      (CallListVpcs listVpcsOptions) ;;
  match err with
  | Some _ => ret (None, err)
  | None =>
      vpcs <- deref vpcs ;;
      lift (ensureVPCUnique_range (Vpcs vpcs) vpcName)
  end.

Definition updateDefaultSG (s : ClusterScope R) (sgID : string) : M (option error) :=
  let options := {|
    SecurityGroupID := Some sgID;
    SecurityGroupRulePrototype_ := Some {|
      Direction := Some "inbound";
      Protocol := Some "all";
      IPVersion := Some "ipv4" |} |} in
  '(_, err) <- rpc (CreateSecurityGroupRule (VPCService s) options)
                   (CallCreateSecurityGroupRule options) ;;
  ret err.

Definition CreateVPC (s : ClusterScope R) : M (option VPC * option error) :=
  '(vpcReply, err) <-
    ensureVPCUnique s (infrav1.Spec_VPC (infrav1.Spec (IBMVPCCluster s))) ;;
  match err, vpcReply with
  | Some _, _ => ret (None, err)
  | None, Some _ => ret (vpcReply, None)
  | None, None =>
      let options := {|
        CreateVPCOptions_ResourceGroup := Some {|
          ResourceGroupIdentity_ID :=
            Some (infrav1.Spec_ResourceGroup (infrav1.Spec (IBMVPCCluster s))) |};
        CreateVPCOptions_Name :=
          Some (infrav1.Spec_VPC (infrav1.Spec (IBMVPCCluster s))) |} in
      '(vpc, err) <- rpc (vpcv1.CreateVPC (VPCService s) options)
                         (CallCreateVPC options) ;;
      match err with
      | Some _ => ret (None, err)
      | None =>
          v <- deref vpc ;;
          sg <- deref (VPC_DefaultSecurityGroup v) ;;
          sgID <- deref (SecurityGroupReference_ID sg) ;;
          err <- updateDefaultSG s sgID ;;
          match err with
          | Some _ => ret (None, err)
          | None => ret (vpc, None)
          end
      end
  end.

Definition DeleteVPC (s : ClusterScope R) : M (option error) :=
  let deleteVpcOptions := {|
    DeleteVPCOptions_ID :=
      Some (infrav1.VPC_ID (infrav1.Status_VPC (infrav1.Status (IBMVPCCluster s)))) |} in
  rpc (vpcv1.DeleteVPC (VPCService s) deleteVpcOptions) (CallDeleteVPC deleteVpcOptions).

(** The loop of [ensureFIPUnique]. *)
Fixpoint ensureFIPUnique_range (fips : list FloatingIP) (fipName : string)
  : outcome (option FloatingIP * option error) :=
  match fips with
  | [] => Done (None, None)
  | fip :: rest =>
      match FloatingIP_Name fip with
      | None => Fault
      | Some name =>
          if String.eqb name fipName then Done (Some fip, None)
          else ensureFIPUnique_range rest fipName
      end
  end.

Definition ensureFIPUnique (s : ClusterScope R) (fipName : string)
  : M (option FloatingIP * option error) :=
  let listFloatingIpsOptions := Build_ListFloatingIpsOptions in
  '(floatingIPs, err) <- rpc (ListFloatingIps (VPCService s) listFloatingIpsOptions)
                             (CallListFloatingIps listFloatingIpsOptions) ;;
  match err with
  | Some _ => ret (None, err)
  | None =>
      floatingIPs <- deref floatingIPs ;;
      lift (ensureFIPUnique_range (FloatingIps floatingIPs) fipName)
  end.

Definition ReserveFIP (s : ClusterScope R) : M (option FloatingIP * option error) :=
  let fipName := (infrav1.Name (IBMVPCCluster s) ++ "-control-plane")%string in
  '(fipReply, err) <- ensureFIPUnique s fipName ;;
  match err, fipReply with
  | Some _, _ => ret (None, err)
  | None, Some _ => ret (fipReply, None)
  | None, None =>
      let options := {|
        FloatingIPPrototype_ := Some {|
          FloatingIPPrototype_Name := Some fipName;
          FloatingIPPrototype_ResourceGroup := Some {|
            ResourceGroupIdentity_ID :=
              Some (infrav1.Spec_ResourceGroup (infrav1.Spec (IBMVPCCluster s))) |};
          FloatingIPPrototype_Zone := Some {|
            ZoneIdentity_Name :=
              Some (infrav1.Spec_Zone (infrav1.Spec (IBMVPCCluster s))) |} |} |} in
      rpc (CreateFloatingIP (VPCService s) options) (CallCreateFloatingIP options)
  end.

Definition DeleteFloatingIP (s : ClusterScope R) : M (option error) :=
  fipID <- deref (infrav1.FIPID
                    (infrav1.Status_APIEndpoint (infrav1.Status (IBMVPCCluster s)))) ;;
  if negb (String.eqb fipID "") then
    let deleteFIPOption := {| DeleteFloatingIPOptions_ID := Some fipID |} in
    rpc (vpcv1.DeleteFloatingIP (VPCService s) deleteFIPOption)
        (CallDeleteFloatingIP deleteFIPOption)
  else ret None.

(** The loop of [getSubnetAddrPrefix]. *)
Fixpoint getSubnetAddrPrefix_range (prefixes : list AddressPrefix) (vpcID zone : string)
  : outcome (string * option error) :=
  match prefixes with
  | [] =>
      Done ("", Some (fmt_Errorf
             ("not found a valid CIDR for VPC " ++ vpcID ++ " in zone " ++ zone)%string))
  | addrPrefix :: rest =>
      match AddressPrefix_Zone addrPrefix with
      | None => Fault
      | Some z =>
          match ZoneReference_Name z with
          | None => Fault
          | Some name =>
              if String.eqb name zone then
                match AddressPrefix_CIDR addrPrefix with
                | None => Fault
                | Some cidr => Done (cidr, None)
                end
              else getSubnetAddrPrefix_range rest vpcID zone
          end
      end
  end.

Definition getSubnetAddrPrefix (s : ClusterScope R) (vpcID zone : string)
  : M (string * option error) :=
  let options := {| VPCID := Some vpcID |} in
  '(addrCollection, err) <- rpc (ListVPCAddressPrefixes (VPCService s) options)
                                (CallListVPCAddressPrefixes options) ;;
  match err with
  | Some _ => ret ("", err)
  | None =>
      addrCollection <- deref addrCollection ;;
      lift (getSubnetAddrPrefix_range (AddressPrefixes addrCollection) vpcID zone)
  end.

(** The loop of [ensureSubnetUnique]. *)
Fixpoint ensureSubnetUnique_range (subnets : list Subnet) (subnetName : string)
  : outcome (option Subnet * option error) :=
  match subnets with
  | [] => Done (None, None)
  | subnet :: rest =>
      match Subnet_Name subnet with
      | None => Fault
      | Some name =>
          if String.eqb name subnetName then Done (Some subnet, None)
          else ensureSubnetUnique_range rest subnetName
      end
  end.

Definition ensureSubnetUnique (s : ClusterScope R) (subnetName : string)
  : M (option Subnet * option error) :=
  let options := Build_ListSubnetsOptions in
  '(subnets, err) <- rpc (ListSubnets (VPCService s) options) (CallListSubnets options) ;;
  match err with
  | Some _ => ret (None, err)
  | None =>
      subnets <- deref subnets ;;
      lift (ensureSubnetUnique_range (Subnets subnets) subnetName)
  end.

Definition createPublicGateWay (s : ClusterScope R) (vpcID zoneName : string)
  : M (option PublicGateway * option error) :=
  let options := {|
    CreatePublicGatewayOptions_VPC := Some {| VPCIdentity_ID := Some vpcID |};
    CreatePublicGatewayOptions_Zone := Some {| ZoneIdentity_Name := Some zoneName |} |} in
  rpc (CreatePublicGateway (VPCService s) options) (CallCreatePublicGateway options).

Definition attachPublicGateWay (s : ClusterScope R) (subnetID pgwID : string)
  : M (option PublicGateway * option error) :=
  let options := {|
    SetSubnetPublicGatewayOptions_ID := Some subnetID;
    PublicGatewayIdentity_ := Some {| PublicGatewayIdentity_ID := Some pgwID |} |} in
  rpc (SetSubnetPublicGateway (VPCService s) options) (CallSetSubnetPublicGateway options).

Definition CreateSubnet (s : ClusterScope R) : M (option Subnet * option error) :=
  let cluster := IBMVPCCluster s in
  let vpcID := infrav1.VPC_ID (infrav1.Status_VPC (infrav1.Status cluster)) in
  let zone := infrav1.Spec_Zone (infrav1.Spec cluster) in
  let subnetName := (infrav1.Name cluster ++ "-subnet")%string in
  '(subnetReply, err) <- ensureSubnetUnique s subnetName ;;
  match err, subnetReply with
  | Some _, _ => ret (None, err)
  | None, Some _ => ret (subnetReply, None)
  | None, None =>
      '(cidrBlock, err) <- getSubnetAddrPrefix s vpcID zone ;;
      match err with
      | Some _ => ret (None, err)
      | None =>
          let subnetName := (infrav1.Name cluster ++ "-subnet")%string in
          let options := {|
            SubnetPrototype_ := Some {|
              SubnetPrototype_Ipv4CIDRBlock := Some cidrBlock;
              SubnetPrototype_Name := Some subnetName;
              SubnetPrototype_VPC := Some {| VPCIdentity_ID := Some vpcID |};
              SubnetPrototype_Zone := Some {| ZoneIdentity_Name := Some zone |} |} |} in
          '(subnet, err) <- rpc (vpcv1.CreateSubnet (VPCService s) options)
                                (CallCreateSubnet options) ;;
          match subnet with
          | Some sn =>
              '(pgw, err') <- createPublicGateWay s vpcID zone ;;
              match err', pgw with
              | Some _, _ => ret (subnet, err')
              | None, Some gw =>
                  subnetID <- deref (Subnet_ID sn) ;;
                  pgwID <- deref (PublicGateway_ID gw) ;;
                  '(_, err'') <- attachPublicGateWay s subnetID pgwID ;;
                  match err'' with
                  | Some _ => ret (None, err'')
                  | None => ret (subnet, err)
                  end
              | None, None => ret (subnet, err)
              end
          | None => ret (subnet, err)
          end
      end
  end.

Definition detachPublicGateway (s : ClusterScope R) (subnetID pgwID : string)
  : M (option error) :=
  let unsetPGWOption := {| UnsetSubnetPublicGatewayOptions_ID := Some subnetID |} in
  err <- rpc (UnsetSubnetPublicGateway (VPCService s) unsetPGWOption)
             (CallUnsetSubnetPublicGateway unsetPGWOption) ;;
  match err with
  | Some _ =>
      ret (errors_Wrap err ("Error when unsetting publicgateway for subnet " ++ subnetID)%string)
  | None =>
      let deletePGWOption := {| DeletePublicGatewayOptions_ID := Some pgwID |} in
      err <- rpc (DeletePublicGateway (VPCService s) deletePGWOption)
                 (CallDeletePublicGateway deletePGWOption) ;;
      match err with
      | Some _ =>
          ret (errors_Wrap err
                 ("Error when deleting publicgateway for subnet " ++ subnetID)%string)
      | None => ret err
      end
  end.

(** The tail of [DeleteSubnet], from the [// Delete subnet] comment on. *)
Definition DeleteSubnet_delete (s : ClusterScope R) (subnetID : string) : M (option error) :=
  let deleteSubnetOption := {| DeleteSubnetOptions_ID := Some subnetID |} in
  err <- rpc (vpcv1.DeleteSubnet (VPCService s) deleteSubnetOption)
             (CallDeleteSubnet deleteSubnetOption) ;;
  match err with
  | Some _ => ret (errors_Wrap err "Error when deleting subnet ")
  | None => ret err
  end.

Definition DeleteSubnet (s : ClusterScope R) : M (option error) :=
  subnetID <- deref (infrav1.Subnet_ID
                       (infrav1.Status_Subnet (infrav1.Status (IBMVPCCluster s)))) ;;
  let getPGWOptions := {| GetSubnetPublicGatewayOptions_ID := Some subnetID |} in
  '(pgw, err) <- rpc (GetSubnetPublicGateway (VPCService s) getPGWOptions)
                     (CallGetSubnetPublicGateway getPGWOptions) ;;
  match pgw, err with
  | Some gw, None =>
      pgwID <- deref (PublicGateway_ID gw) ;;
      err <- detachPublicGateway s subnetID pgwID ;;
      match err with
      | Some _ =>
          ret (errors_Wrap err
                 ("Error when detaching publicgateway for subnet " ++ subnetID)%string)
      | None => DeleteSubnet_delete s subnetID
      end
  | _, _ => DeleteSubnet_delete s subnetID
  end.

End Methods.

End ClusterScope.

(** ** The Power VS SDK models, the machine objects and the client stubs *)

(** [time.Duration], in nanoseconds. *)
Definition time_Second : Z := 1000000000.
Definition time_Minute : Z := 60 * time_Second.
Definition time_Hour : Z := 60 * time_Minute.

(** [float64] is IEEE binary64, the primitive float of the prover. *)
Definition float64 : Type := PrimFloat.float.

Module models.

Record PVMInstanceReference := {
  PvmInstanceID : option string;
  ServerName : option string
}.

Record PVMInstances := { PvmInstances : list (option PVMInstanceReference) }.

Record PVMInstance := { PVMInstance_PvmInstanceID : option string }.

Definition PVMInstanceList : Type := list (option PVMInstance).

Record ImageReference := {
  ImageID : option string;
  ImageReference_Name : option string
}.

Record Images := { Images_ : list (option ImageReference) }.

Record NetworkReference := {
  NetworkReference_NetworkID : option string;
  NetworkReference_Name : option string
}.

Record Networks := { Networks_ : list (option NetworkReference) }.

Record PVMInstanceAddNetwork := { NetworkID : option string }.

Record PVMInstanceCreate := {
  PVMInstanceCreate_ImageID : option string;
  KeyPairName : string;
  PVMInstanceCreate_Networks : list (option PVMInstanceAddNetwork);
  PVMInstanceCreate_ServerName : option string;
  Memory : option float64;
  Processors : option float64;
  ProcType : option string;
  SysType : string;
  UserData : string
}.

End models.

Module v1alpha4.

Record IBMPowerVSResourceReference := { ID : option string; Name : option string }.

Record IBMPowerVSMachineSpec := {
  ServiceInstanceID : string;
  SSHKey : string;
  Image : IBMPowerVSResourceReference;
  SysType : string;
  ProcType : string;
  Processors : string;
  Memory : string;
  Network : IBMPowerVSResourceReference
}.

Record IBMPowerVSMachineStatus := { InstanceID : string }.

Record IBMPowerVSMachine := {
  IBMPowerVSMachine_Name : string;
  Spec : IBMPowerVSMachineSpec;
  Status : IBMPowerVSMachineStatus
}.

End v1alpha4.

Module clusterv1.

Record Bootstrap := { DataSecretName : option string }.
Record MachineSpec := { Bootstrap_ : Bootstrap }.
Record Machine := { Namespace : string; Name : string; Spec : MachineSpec }.

End clusterv1.

Module corev1.

(** [Secret.Data], a [map[string][]byte], as an association list read by
    its first binding of a key. *)
Record Secret := { Data : list (string * list byte) }.

Fixpoint lookup (d : list (string * list byte)) (k : string) : option (list byte) :=
  match d with
  | [] => None
  | (k', v) :: rest => if String.eqb k' k then Some v else lookup rest k
  end.

End corev1.

Module types.
Record NamespacedName := { Namespace : string; Name : string }.
End types.

Module powervs.

Record PcloudPvminstancesPostParams := { Body : option models.PVMInstanceCreate }.

Record PcloudNetworksGetallParams := {
  timeout : Z;
  CloudInstanceID : string
}.

Record PcloudNetworksGetallOK := { Payload : option models.Networks }.

(** The clients a machine scope talks to: the instance and image clients
    and the session of [IBMPowerVSClient], and the controller-runtime
    client used for the bootstrap secret. *)
Record Clients (R : Type) : Type := {
  InstanceClient_GetAll :
    string -> Z -> R -> (option models.PVMInstances * option error) * R;
  InstanceClient_Create :
    PcloudPvminstancesPostParams -> string -> Z -> R ->
    (option models.PVMInstanceList * option error) * R;
  InstanceClient_Delete : string -> string -> Z -> R -> option error * R;
  ImageClient_GetAll : string -> R -> (option models.Images * option error) * R;
  PcloudNetworksGetall :
    PcloudNetworksGetallParams -> string -> R ->
    (option PcloudNetworksGetallOK * option error) * R;
  client_Get : types.NamespacedName -> R -> (corev1.Secret * option error) * R
}.
Arguments InstanceClient_GetAll {R} c _ _ _.
Arguments InstanceClient_Create {R} c _ _ _ _.
Arguments InstanceClient_Delete {R} c _ _ _ _.
Arguments ImageClient_GetAll {R} c _ _.
Arguments PcloudNetworksGetall {R} c _ _ _.
Arguments client_Get {R} c _ _.

Inductive Call : Type :=
| CallInstanceGetAll (id : string) (t : Z)
    (r : option models.PVMInstances * option error)
| CallInstanceCreate (p : PcloudPvminstancesPostParams) (id : string) (t : Z)
    (r : option models.PVMInstanceList * option error)
| CallInstanceDelete (id cloud : string) (t : Z) (r : option error)
| CallImageGetAll (id : string) (r : option models.Images * option error)
| CallPcloudNetworksGetall (p : PcloudNetworksGetallParams) (auth : string)
    (r : option PcloudNetworksGetallOK * option error)
| CallClientGet (key : types.NamespacedName) (r : corev1.Secret * option error).

End powervs.

(** ** Package [scope], second file: the Power VS machine scope *)

Module PowerVSMachineScope.
Import models powervs.

Record PowerVSMachineScope (R : Type) : Type := {
  Clients_ : Clients R;
  Machine : clusterv1.Machine;
  IBMPowerVSMachine : v1alpha4.IBMPowerVSMachine
}.
Arguments Clients_ {R} _.
Arguments Machine {R} _.
Arguments IBMPowerVSMachine {R} _.

Section Methods.
Context {R : Type}.
Abbreviation M := (M R Call).

(** Library functions and a package constant that the file uses and
    does not define: [strconv.ParseFloat],
    [base64.StdEncoding.EncodeToString] and [TIMEOUT]. *)
Variable strconv_ParseFloat : string -> Z -> float64 * option error.
Variable base64_EncodeToString : list byte -> string.
Variable TIMEOUT : Z.

Fixpoint ensureInstanceUnique_range (instances : list (option PVMInstanceReference))
  (instanceName : string) : outcome (option PVMInstanceReference * option error) :=
  match instances with
  | [] => Done (None, None)
  | ins :: rest =>
      match ins with
      | None => Fault
      | Some i =>
          match ServerName i with
          | None => Fault
          | Some name =>
              if String.eqb name instanceName then Done (ins, None)
              else ensureInstanceUnique_range rest instanceName
          end
      end
  end.

Definition ensureInstanceUnique (m : PowerVSMachineScope R) (instanceName : string)
  : M (option PVMInstanceReference * option error) :=
  let id := v1alpha4.ServiceInstanceID (v1alpha4.Spec (IBMPowerVSMachine m)) in
  '(instances, err) <- rpc (InstanceClient_GetAll (Clients_ m) id (60 * time_Minute))
                           (CallInstanceGetAll id (60 * time_Minute)) ;;
  match err with
  | Some _ => ret (None, err)
  | None =>
      instances <- deref instances ;;
      lift (ensureInstanceUnique_range (PvmInstances instances) instanceName)
  end.

Definition GetBootstrapData (m : PowerVSMachineScope R) : M (string * option error) :=
  let machine := Machine m in
  match clusterv1.DataSecretName (clusterv1.Bootstrap_ (clusterv1.Spec machine)) with
  | None =>
      ret ("", Some (errors_New
        "error retrieving bootstrap data: linked Machine's bootstrap.dataSecretName is nil"))
  | Some secretName =>
      let key := {| types.Namespace := clusterv1.Namespace machine;
                    types.Name := secretName |} in
      '(secret, err) <- rpc (client_Get (Clients_ m) key) (CallClientGet key) ;;
      match err with
      | Some _ =>
          ret ("", errors_Wrap err
                 ("failed to retrieve bootstrap data secret for IBMVPCMachine "
                  ++ clusterv1.Namespace machine ++ "/" ++ clusterv1.Name machine)%string)
      | None =>
          match corev1.lookup (corev1.Data secret) "value" with
          | None =>
              ret ("", Some (errors_New
                "error retrieving bootstrap data: secret value key is missing"))
          | Some value => ret (base64_EncodeToString value, None)
          end
      end
  end.

Definition GetImages (m : PowerVSMachineScope R) : M (option Images * option error) :=
  let id := v1alpha4.ServiceInstanceID (v1alpha4.Spec (IBMPowerVSMachine m)) in
  rpc (ImageClient_GetAll (Clients_ m) id) (CallImageGetAll id).

(** The loop of [getImageID]; falling out of it reaches the last
    [return] of the function. *)
Fixpoint getImageID_range (images : list (option ImageReference)) (name : string)
  : outcome (option string * option error) :=
  match images with
  | [] => Done (None, Some (fmt_Errorf "failed to find an image ID"))
  | img :: rest =>
      match img with
      | None => Fault
      | Some i =>
          match ImageReference_Name i with
          | None => Fault
          | Some imgName =>
              if String.eqb name imgName then
                (* the log line dereferences the identifier *)
                match ImageID i with
                | None => Fault
                | Some _ => Done (ImageID i, None)
                end
              else getImageID_range rest name
          end
      end
  end.

Definition getImageID (image : v1alpha4.IBMPowerVSResourceReference)
  (m : PowerVSMachineScope R) : M (option string * option error) :=
  match v1alpha4.ID image, v1alpha4.Name image with
  | Some _, _ => ret (v1alpha4.ID image, None)
  | None, Some name =>
      '(images, err) <- GetImages m ;;
      match err with
      | Some _ => ret (None, err)
      | None =>
          images <- deref images ;;
          lift (getImageID_range (Images_ images) name)
      end
  | None, None => ret (None, Some (fmt_Errorf "both ID and Name can't be nil"))
  end.

Definition GetNetworks (m : PowerVSMachineScope R) : M (option Networks * option error) :=
  let id := v1alpha4.ServiceInstanceID (v1alpha4.Spec (IBMPowerVSMachine m)) in
  let params := {| timeout := TIMEOUT; CloudInstanceID := id |} in
  '(resp, err) <- rpc (PcloudNetworksGetall (Clients_ m) params id)
                      (CallPcloudNetworksGetall params id) ;;
  match err with
  | Some _ => ret (None, err)
  | None =>
      resp <- deref resp ;;
      match Payload resp with
      | None => ret (None, err)
      | Some _ => ret (Payload resp, None)
      end
  end.

(** The loop of [getNetworkID]. *)
Fixpoint getNetworkID_range (networks : list (option NetworkReference)) (name : string)
  : outcome (option string * option error) :=
  match networks with
  | [] => Done (None, Some (fmt_Errorf "failed to find a network ID"))
  | nw :: rest =>
      match nw with
      | None => Fault
      | Some n =>
          match NetworkReference_Name n with
          | None => Fault
          | Some nwName =>
              if String.eqb name nwName then
                (* the log line dereferences the identifier *)
                match NetworkReference_NetworkID n with
                | None => Fault
                | Some _ => Done (NetworkReference_NetworkID n, None)
                end
              else getNetworkID_range rest name
          end
      end
  end.

Definition getNetworkID (network : v1alpha4.IBMPowerVSResourceReference)
  (m : PowerVSMachineScope R) : M (option string * option error) :=
  match v1alpha4.ID network, v1alpha4.Name network with
  | Some _, _ => ret (v1alpha4.ID network, None)
  | None, Some name =>
      '(networks, err) <- GetNetworks m ;;
      match err with
      | Some _ => ret (None, err)
      | None =>
          networks <- deref networks ;;
          lift (getNetworkID_range (Networks_ networks) name)
      end
  | None, None => ret (None, Some (fmt_Errorf "both ID and Name can't be nil"))
  end.

(** The request that [CreateMachine] sends. *)
Definition CreateMachine_params (m : PowerVSMachineScope R)
  (imageID networkID : option string) (memory cores : float64) (cloudInitData : string)
  : PcloudPvminstancesPostParams :=
  let s := v1alpha4.Spec (IBMPowerVSMachine m) in
  {| Body := Some {|
       PVMInstanceCreate_ImageID := imageID;
       KeyPairName := v1alpha4.SSHKey s;
       PVMInstanceCreate_Networks := [Some {| NetworkID := networkID |}];
       PVMInstanceCreate_ServerName :=
         Some (v1alpha4.IBMPowerVSMachine_Name (IBMPowerVSMachine m));
       Memory := Some memory;
       Processors := Some cores;
       ProcType := Some (v1alpha4.ProcType s);
       SysType := v1alpha4.SysType s;
       UserData := cloudInitData |} |}.

Definition CreateMachine (m : PowerVSMachineScope R)
  : M (option PVMInstanceReference * option error) :=
  let s := v1alpha4.Spec (IBMPowerVSMachine m) in
  '(instanceReply, err) <-
    ensureInstanceUnique m (v1alpha4.IBMPowerVSMachine_Name (IBMPowerVSMachine m)) ;;
  match err, instanceReply with
  | Some _, _ => ret (None, err)
  | None, Some _ => ret (instanceReply, None)
  | None, None =>
  '(cloudInitData, err) <- GetBootstrapData m ;;
  match err with
  | Some _ => ret (None, err)
  | None =>
  let '(memory, err) := strconv_ParseFloat (v1alpha4.Memory s) 64 in
  match err with
  | Some _ =>
      ret (None, Some (fmt_Errorf
        ("failed to convert memory(" ++ v1alpha4.Memory s ++ ") to float64")%string))
  | None =>
  let '(cores, err) := strconv_ParseFloat (v1alpha4.Processors s) 64 in
  match err with
  | Some _ =>
      ret (None, Some (fmt_Errorf
        ("failed to convert Processors(" ++ v1alpha4.Processors s ++ ") to float64")%string))
  | None =>
  '(imageID, err) <- getImageID (v1alpha4.Image s) m ;;
  match err with
  | Some e =>
      ret (None, Some (fmt_Errorf ("error getting image ID: " ++ Error e)%string))
  | None =>
  '(networkID, err) <- getNetworkID (v1alpha4.Network s) m ;;
  match err with
  | Some e =>
      ret (None, Some (fmt_Errorf ("error getting network ID: " ++ Error e)%string))
  | None =>
  let params := CreateMachine_params m imageID networkID memory cores cloudInitData in
  '(_, err) <- rpc (InstanceClient_Create (Clients_ m) params
                      (v1alpha4.ServiceInstanceID s) time_Hour)
                   (CallInstanceCreate params (v1alpha4.ServiceInstanceID s) time_Hour) ;;
  match err with
  | Some _ => ret (None, err)
  | None => ret (None, None)
  end end end end end end
  end.

Definition DeleteMachine (m : PowerVSMachineScope R) : M (option error) :=
  let id := v1alpha4.InstanceID (v1alpha4.Status (IBMPowerVSMachine m)) in
  let cloud := v1alpha4.ServiceInstanceID (v1alpha4.Spec (IBMPowerVSMachine m)) in
  rpc (InstanceClient_Delete (Clients_ m) id cloud time_Hour)
      (CallInstanceDelete id cloud time_Hour).

End Methods.

End PowerVSMachineScope.

(** ** Test doubles

    In-memory stand-ins for the remote services, used to run the scopes on
    concrete inputs.  Each keeps the resources it was asked to create and
    can be told to fail an operation. *)

Module FakeVPC.
Import vpcv1.

Record state := {
  vpcs : list VPC;
  fips : list FloatingIP;
  subnets : list Subnet;
  prefixes : list AddressPrefix;
  gateway : option PublicGateway;   (* the gateway attached to the subnet *)
  failing : string -> option error  (* the operations that are made to fail *)
}.

Definition empty : state := {|
  vpcs := []; fips := []; subnets := []; prefixes := []; gateway := None;
  failing := fun _ => None |}.

Definition with_vpcs (l : list VPC) (st : state) : state := {|
  vpcs := l; fips := fips st; subnets := subnets st; prefixes := prefixes st;
  gateway := gateway st; failing := failing st |}.

Definition with_fips (l : list FloatingIP) (st : state) : state := {|
  vpcs := vpcs st; fips := l; subnets := subnets st; prefixes := prefixes st;
  gateway := gateway st; failing := failing st |}.

Definition with_subnets (l : list Subnet) (st : state) : state := {|
  vpcs := vpcs st; fips := fips st; subnets := l; prefixes := prefixes st;
  gateway := gateway st; failing := failing st |}.

Definition with_prefixes (l : list AddressPrefix) (st : state) : state := {|
  vpcs := vpcs st; fips := fips st; subnets := subnets st; prefixes := l;
  gateway := gateway st; failing := failing st |}.

Definition with_gateway (g : option PublicGateway) (st : state) : state := {|
  vpcs := vpcs st; fips := fips st; subnets := subnets st; prefixes := prefixes st;
  gateway := g; failing := failing st |}.

Definition fail_on (op : string) (e : error) (st : state) : state := {|
  vpcs := vpcs st; fips := fips st; subnets := subnets st; prefixes := prefixes st;
  gateway := gateway st;
  failing := fun o => if String.eqb o op then Some e else failing st o |}.

Definition id_of (o : option string) : string :=
  match o with Some x => x | None => "" end.

Definition new_vpc (name : string) : VPC := {|
  VPC_ID := Some ("r006-" ++ name)%string;
  VPC_Name := Some name;
  VPC_DefaultSecurityGroup :=
    Some {| SecurityGroupReference_ID := Some ("sg-" ++ name)%string |} |}.

Definition new_fip (name : string) : FloatingIP := {|
  FloatingIP_ID := Some ("fip-" ++ name)%string;
  FloatingIP_Name := Some name;
  FloatingIP_Address := Some "192.0.2.10" |}.

Definition new_subnet (name cidr : string) : Subnet := {|
  Subnet_ID := Some ("subnet-" ++ name)%string;
  Subnet_Name := Some name;
  Subnet_Ipv4CIDRBlock := Some cidr |}.

Definition new_gateway : PublicGateway := {| PublicGateway_ID := Some "pgw-1" |}.

Definition service : VpcV1 state := {|
  ListVpcs := fun _ st =>
    match failing st "ListVpcs" with
    | Some e => ((None, Some e), st)
    | None => ((Some {| Vpcs := vpcs st |}, None), st)
    end;
  CreateVPC := fun o st =>
    match failing st "CreateVPC" with
    | Some e => ((None, Some e), st)
    | None =>
        let v := new_vpc (id_of (CreateVPCOptions_Name o)) in
        ((Some v, None), with_vpcs (vpcs st ++ [v]) st)
    end;
  DeleteVPC := fun o st =>
    match failing st "DeleteVPC" with
    | Some e => (Some e, st)
    | None =>
        (None, with_vpcs (filter (fun v => negb (String.eqb (id_of (VPC_ID v))
                                                   (id_of (DeleteVPCOptions_ID o))))
                                 (vpcs st)) st)
    end;
  CreateSecurityGroupRule := fun o st =>
    match failing st "CreateSecurityGroupRule" with
    | Some e => ((None, Some e), st)
    | None => ((Some {| SecurityGroupRule_ID := Some "rule-1" |}, None), st)
    end;
  ListFloatingIps := fun _ st =>
    match failing st "ListFloatingIps" with
    | Some e => ((None, Some e), st)
    | None => ((Some {| FloatingIps := fips st |}, None), st)
    end;
  CreateFloatingIP := fun o st =>
    match failing st "CreateFloatingIP" with
    | Some e => ((None, Some e), st)
    | None =>
        let name := match FloatingIPPrototype_ o with
                    | Some p => id_of (FloatingIPPrototype_Name p)
                    | None => ""
                    end in
        ((Some (new_fip name), None), with_fips (fips st ++ [new_fip name]) st)
    end;
  DeleteFloatingIP := fun o st =>
    match failing st "DeleteFloatingIP" with
    | Some e => (Some e, st)
    | None =>
        (None, with_fips (filter (fun f => negb (String.eqb (id_of (FloatingIP_ID f))
                                                   (id_of (DeleteFloatingIPOptions_ID o))))
                                 (fips st)) st)
    end;
  ListSubnets := fun _ st =>
    match failing st "ListSubnets" with
    | Some e => ((None, Some e), st)
    | None => ((Some {| Subnets := subnets st |}, None), st)
    end;
  ListVPCAddressPrefixes := fun _ st =>
    match failing st "ListVPCAddressPrefixes" with
    | Some e => ((None, Some e), st)
    | None => ((Some {| AddressPrefixes := prefixes st |}, None), st)
    end;
  CreateSubnet := fun o st =>
    match failing st "CreateSubnet" with
    | Some e => ((None, Some e), st)
    | None =>
        let sn := match SubnetPrototype_ o with
                  | Some p => new_subnet (id_of (SubnetPrototype_Name p))
                                         (id_of (SubnetPrototype_Ipv4CIDRBlock p))
                  | None => new_subnet "" ""
                  end in
        ((Some sn, None), with_subnets (subnets st ++ [sn]) st)
    end;
  CreatePublicGateway := fun _ st =>
    match failing st "CreatePublicGateway" with
    | Some e => ((None, Some e), st)
    | None => ((Some new_gateway, None), st)
    end;
  SetSubnetPublicGateway := fun o st =>
    match failing st "SetSubnetPublicGateway" with
    | Some e => ((None, Some e), st)
    | None =>
        let g := {| PublicGateway_ID :=
                      match PublicGatewayIdentity_ o with
                      | Some i => PublicGatewayIdentity_ID i
                      | None => None
                      end |} in
        ((Some g, None), with_gateway (Some g) st)
    end;
  GetSubnetPublicGateway := fun _ st =>
    match failing st "GetSubnetPublicGateway", gateway st with
    | Some e, _ => ((None, Some e), st)
    | None, Some g => ((Some g, None), st)
    | None, None => ((None, Some (errors_New "Public gateway not found")), st)
    end;
  UnsetSubnetPublicGateway := fun _ st =>
    match failing st "UnsetSubnetPublicGateway" with
    | Some e => (Some e, st)
    | None => (None, with_gateway None st)
    end;
  DeletePublicGateway := fun _ st => (failing st "DeletePublicGateway", st);
  DeleteSubnet := fun o st =>
    match failing st "DeleteSubnet" with
    | Some e => (Some e, st)
    | None =>
        (None, with_subnets (filter (fun f => negb (String.eqb (id_of (Subnet_ID f))
                                                      (id_of (DeleteSubnetOptions_ID o))))
                                    (subnets st)) st)
    end
|}.

(** A cluster named [demo] that asks for the network [demo-vpc]. *)
Definition cluster (fipID subnetID : option string) : infrav1.IBMVPCCluster := {|
  infrav1.Name := "demo";
  infrav1.Spec := {|
    infrav1.Spec_VPC := "demo-vpc";
    infrav1.Spec_Zone := "us-south-1";
    infrav1.Spec_ResourceGroup := "rg-1" |};
  infrav1.Status := {|
    infrav1.Status_VPC := {| infrav1.VPC_ID := "r006-demo-vpc";
                             infrav1.VPC_Name := "demo-vpc" |};
    infrav1.Status_Subnet := {| infrav1.Subnet_ID := subnetID;
                                infrav1.Subnet_Name := Some "demo-subnet" |};
    infrav1.Status_APIEndpoint := {| infrav1.Address := None;
                                     infrav1.FIPID := fipID |} |} |}.

Definition scope (fipID subnetID : option string) : ClusterScope.ClusterScope state := {|
  ClusterScope.VPCService := service;
  ClusterScope.IBMVPCCluster := cluster fipID subnetID |}.

Definition world (st : state) : World state Call := mkWorld st [].

Definition prefix (zone cidr : string) : AddressPrefix := {|
  AddressPrefix_CIDR := Some cidr;
  AddressPrefix_Zone := Some {| ZoneReference_Name := Some zone |} |}.

Definition vpc (id name : string) : VPC := {|
  VPC_ID := Some id;
  VPC_Name := Some name;
  VPC_DefaultSecurityGroup := Some {| SecurityGroupReference_ID := Some ("sg-" ++ id)%string |} |}.

Definition fip (id name : string) : FloatingIP := {|
  FloatingIP_ID := Some id;
  FloatingIP_Name := Some name;
  FloatingIP_Address := Some "192.0.2.10" |}.

(** The address prefix of the cluster's zone is known. *)
Definition ready : state := with_prefixes [prefix "us-south-1" "10.240.0.0/18"] empty.

(** As [ready], with public-gateway creation refused. *)
Definition gateway_quota : state :=
  fail_on "CreatePublicGateway" (errors_New "quota exceeded") ready.

(** As [ready], with gateway creation answering with no gateway and no error. *)
Definition no_gateway_service : VpcV1 state := {|
  ListVpcs := ListVpcs service;
  CreateVPC := CreateVPC service;
  DeleteVPC := DeleteVPC service;
  CreateSecurityGroupRule := CreateSecurityGroupRule service;
  ListFloatingIps := ListFloatingIps service;
  CreateFloatingIP := CreateFloatingIP service;
  DeleteFloatingIP := DeleteFloatingIP service;
  ListSubnets := ListSubnets service;
  ListVPCAddressPrefixes := ListVPCAddressPrefixes service;
  CreateSubnet := CreateSubnet service;
  CreatePublicGateway := fun _ st => ((None, None), st);
  SetSubnetPublicGateway := SetSubnetPublicGateway service;
  GetSubnetPublicGateway := GetSubnetPublicGateway service;
  UnsetSubnetPublicGateway := UnsetSubnetPublicGateway service;
  DeletePublicGateway := DeletePublicGateway service;
  DeleteSubnet := DeleteSubnet service
|}.

Definition no_gateway_scope : ClusterScope.ClusterScope state := {|
  ClusterScope.VPCService := no_gateway_service;
  ClusterScope.IBMVPCCluster := cluster None None |}.

(** The requests that the cluster's [CreateSubnet] sends in [ready]. *)
Definition subnet_request : CreateSubnetOptions := {|
  SubnetPrototype_ := Some {|
    SubnetPrototype_Ipv4CIDRBlock := Some "10.240.0.0/18";
    SubnetPrototype_Name := Some "demo-subnet";
    SubnetPrototype_VPC := Some {| VPCIdentity_ID := Some "r006-demo-vpc" |};
    SubnetPrototype_Zone := Some {| ZoneIdentity_Name := Some "us-south-1" |} |} |}.

Definition gateway_request : CreatePublicGatewayOptions := {|
  CreatePublicGatewayOptions_VPC := Some {| VPCIdentity_ID := Some "r006-demo-vpc" |};
  CreatePublicGatewayOptions_Zone := Some {| ZoneIdentity_Name := Some "us-south-1" |} |}.

(** The subnet of the cluster exists and has a gateway attached. *)
Definition attached : state :=
  with_gateway (Some new_gateway)
    (with_subnets [new_subnet "demo-subnet" "10.240.0.0/18"] ready).



(** A listing in which two networks share the name [demo-vpc], after one
    whose name differs from it by case only. *)
Definition crowded : state :=
  with_fips [fip "fip-a" "Demo-control-plane"; fip "fip-b" "demo-control-plane";
             fip "fip-c" "demo-control-plane"]
    (with_vpcs [vpc "r006-a" "Demo-VPC"; vpc "r006-b" "demo-vpc"; vpc "r006-c" "demo-vpc"]
       empty).

End FakeVPC.

Module FakePowerVS.
Import models powervs.
Local Open Scope float_scope.

(** The value of a decimal digit, by its character code. *)
Definition digit (c : ascii) : option float64 :=
  let code := nat_of_ascii c in
  if Nat.leb 48 code then nth_error [0; 1; 2; 3; 4; 5; 6; 7; 8; 9] (code - 48)
  else None.

(** Reads a run of decimal digits into [acc]; yields the value, the number
    of digits read and the rest of the string. *)
Fixpoint read_digits (s : string) (acc : float64) (n : nat) : float64 * nat * string :=
  match s with
  | EmptyString => (acc, n, EmptyString)
  | String c rest =>
      match digit c with
      | Some d => read_digits rest (acc * 10 + d) (S n)
      | None => (acc, n, s)
      end
  end.

Fixpoint pow10 (k : nat) : float64 :=
  match k with
  | O => 1
  | S k' => 10 * pow10 k'
  end.

Definition syntax_error (s : string) : float64 * option error :=
  (0, Some (errors_New ("strconv.ParseFloat: parsing " ++ String "034" (s ++ String "034" "")
                        ++ ": invalid syntax")%string)).

(** A stand-in for [strconv.ParseFloat], exact on the plain decimal numerals
    it accepts: digits with an optional fraction, fifteen digits at most,
    for which the quotient of the digits by the power of ten is the nearest
    float64.  It rejects every other string, among them numerals that Go
    accepts (signs, exponents, hexadecimal, infinities). *)
Definition ParseFloat (s : string) (bitSize : Z) : float64 * option error :=
  let '(ip, n, rest) := read_digits s 0 O in
  match rest with
  | EmptyString =>
      if (Nat.ltb 0 n && Nat.leb n 15)%bool then (ip, None) else syntax_error s
  | String "." frac =>
      let '(m, k, rest') := read_digits frac ip O in
      match rest' with
      | EmptyString =>
          if (Nat.ltb 0 (n + k) && Nat.leb (n + k) 15)%bool then (m / pow10 k, None)
          else syntax_error s
      | _ => syntax_error s
      end
  | _ => syntax_error s
  end.

Definition alphabet : string :=
  "ABCDEFGHIJKLMNOPQRSTUVWXYZabcdefghijklmnopqrstuvwxyz0123456789+/".

Definition sextet (n : N) : ascii :=
  match String.get (N.to_nat n) alphabet with
  | Some c => c
  | None => "="%char
  end.

(** [base64.StdEncoding.EncodeToString]: the standard alphabet, padded. *)
Fixpoint EncodeToString (src : list byte) : string :=
  match src with
  | [] => EmptyString
  | [a] =>
      let x := Byte.to_N a in
      String (sextet (x / 4)) (String (sextet ((x mod 4) * 16)) "==")
  | [a; b] =>
      let x := Byte.to_N a in
      let y := Byte.to_N b in
      String (sextet (x / 4))
        (String (sextet ((x mod 4) * 16 + y / 16))
           (String (sextet ((y mod 16) * 4)) "="))
  | a :: b :: c :: rest =>
      let x := Byte.to_N a in
      let y := Byte.to_N b in
      let z := Byte.to_N c in
      String (sextet (x / 4))
        (String (sextet ((x mod 4) * 16 + y / 16))
           (String (sextet ((y mod 16) * 4 + z / 64))
              (String (sextet (z mod 64)) (EncodeToString rest))))
  end%N.

Definition TIMEOUT : Z := time_Hour.

Record state := {
  instances : list (option PVMInstanceReference);
  images : list (option ImageReference);
  networks : list (option NetworkReference);
  secret : option corev1.Secret;
  failing : string -> option error
}.

Definition with_instances (l : list (option PVMInstanceReference)) (st : state) : state := {|
  instances := l; images := images st; networks := networks st; secret := secret st;
  failing := failing st |}.

Definition fail_on (op : string) (e : error) (st : state) : state := {|
  instances := instances st; images := images st; networks := networks st;
  secret := secret st;
  failing := fun o => if String.eqb o op then Some e else failing st o |}.

Definition new_instance (name : option string) : PVMInstanceReference := {|
  PvmInstanceID := Some "pvm-1";
  ServerName := name |}.

Definition clients : Clients state := {|
  InstanceClient_GetAll := fun _ _ st =>
    match failing st "InstanceClient.GetAll" with
    | Some e => ((None, Some e), st)
    | None => ((Some {| PvmInstances := instances st |}, None), st)
    end;
  InstanceClient_Create := fun p _ _ st =>
    match failing st "InstanceClient.Create" with
    | Some e => ((None, Some e), st)
    | None =>
        let name := match Body p with
                    | Some b => PVMInstanceCreate_ServerName b
                    | None => None
                    end in
        ((Some [Some {| PVMInstance_PvmInstanceID := Some "pvm-1" |}], None),
         with_instances (instances st ++ [Some (new_instance name)]) st)
    end;
  InstanceClient_Delete := fun _ _ _ st => (failing st "InstanceClient.Delete", st);
  ImageClient_GetAll := fun _ st =>
    match failing st "ImageClient.GetAll" with
    | Some e => ((None, Some e), st)
    | None => ((Some {| Images_ := images st |}, None), st)
    end;
  PcloudNetworksGetall := fun _ _ st =>
    match failing st "PcloudNetworksGetall" with
    | Some e => ((None, Some e), st)
    | None => ((Some {| Payload := Some {| Networks_ := networks st |} |}, None), st)
    end;
  client_Get := fun _ st =>
    match failing st "client.Get", secret st with
    | Some e, _ => (({| corev1.Data := [] |}, Some e), st)
    | None, Some sec => ((sec, None), st)
    | None, None => (({| corev1.Data := [] |}, Some (errors_New "secret not found")), st)
    end
|}.

Definition ubuntu : ImageReference := {|
  ImageID := Some "img-42";
  ImageReference_Name := Some "ubuntu-20.04" |}.

Definition capi_net : NetworkReference := {|
  NetworkReference_NetworkID := Some "net-7";
  NetworkReference_Name := Some "capi-net" |}.

Definition bootstrap_secret : corev1.Secret :=
  {| corev1.Data := [("value", [x68; x65; x6c; x6c; x6f])] |}.

(** A remote with one image, one network, the bootstrap secret and the
    given instances. *)
Definition remote_with (l : list (option PVMInstanceReference)) : state := {|
  instances := l;
  images := [Some ubuntu];
  networks := [Some capi_net];
  secret := Some bootstrap_secret;
  failing := fun _ => None |}.

Definition by_name (n : string) : v1alpha4.IBMPowerVSResourceReference :=
  {| v1alpha4.ID := None; v1alpha4.Name := Some n |}.

Definition by_id (i : string) : v1alpha4.IBMPowerVSResourceReference :=
  {| v1alpha4.ID := Some i; v1alpha4.Name := None |}.

(** The machine [demo-0], of the given shape and references. *)
Definition scope_of (memory processors : string)
  (image network : v1alpha4.IBMPowerVSResourceReference)
  : PowerVSMachineScope.PowerVSMachineScope state := {|
  PowerVSMachineScope.Clients_ := clients;
  PowerVSMachineScope.Machine := {|
    clusterv1.Namespace := "default";
    clusterv1.Name := "demo-0";
    clusterv1.Spec := {| clusterv1.Bootstrap_ :=
                           {| clusterv1.DataSecretName := Some "demo-0-bootstrap" |} |} |};
  PowerVSMachineScope.IBMPowerVSMachine := {|
    v1alpha4.IBMPowerVSMachine_Name := "demo-0";
    v1alpha4.Spec := {|
      v1alpha4.ServiceInstanceID := "svc-1";
      v1alpha4.SSHKey := "key-1";
      v1alpha4.Image := image;
      v1alpha4.SysType := "s922";
      v1alpha4.ProcType := "shared";
      v1alpha4.Processors := processors;
      v1alpha4.Memory := memory;
      v1alpha4.Network := network |};
    v1alpha4.Status := {| v1alpha4.InstanceID := "" |} |} |}.

Definition scope (memory processors : string) :=
  scope_of memory processors (by_name "ubuntu-20.04") (by_name "capi-net").

Definition world (st : state) : World state Call := mkWorld st [].

Definition CreateMachine := PowerVSMachineScope.CreateMachine (R := state)
                              ParseFloat EncodeToString TIMEOUT.

End FakePowerVS.

(** ** Vocabulary of the statements *)

(** The name of a listed resource is the target, exactly. *)
Definition names (target : string) (name : option string) : bool :=
  match name with
  | Some n => String.eqb n target
  | None => false
  end.

(** A listed resource carries a name, and it is not the target. *)
Definition named_otherwise (target : string) (name : option string) : bool :=
  match name with
  | Some n => negb (String.eqb n target)
  | None => false
  end.

(** A listed resource carries a name. *)
Definition named (name : option string) : bool :=
  match name with
  | Some _ => true
  | None => false
  end.

(** The name under an element pointer of an instance listing. *)
Definition ServerName_of (ins : option models.PVMInstanceReference) : option string :=
  match ins with
  | Some i => models.ServerName i
  | None => None
  end.

(** The names under the element pointers of an image or network listing. *)
Definition ImageName_of (img : option models.ImageReference) : option string :=
  match img with
  | Some i => models.ImageReference_Name i
  | None => None
  end.

Definition NetworkName_of (nw : option models.NetworkReference) : option string :=
  match nw with
  | Some n => models.NetworkReference_Name n
  | None => None
  end.


Definition is_InstanceCreate (c : powervs.Call) : bool :=
  match c with
  | powervs.CallInstanceCreate _ _ _ _ => true
  | _ => false
  end.

Definition created_instances (tr : list powervs.Call) : nat :=
  length (filter is_InstanceCreate tr).

(** ** The admission webhook of [IBMPowerVSCluster] (package [v1beta2])

    The API types and [validateIBMPowerVSNetworkReference] are declared in
    other files of the package; the fields below are the ones the webhook
    reads, typed by the way it reads them.  Of the library packages the
    webhook uses, [field] errors are kept as the record of what the
    constructors were given, and [strconv.ParseBool] is a parameter. *)

Module v1beta2.

Record IBMPowerVSResourceReference := {
  IBMPowerVSResourceReference_ID : option string;
  IBMPowerVSResourceReference_Name : option string
}.

Record VPCResourceReference := { Region : option string }.

Record Subnet := { Subnet_Name : option string }.

Record VPCLoadBalancerSpec := { VPCLoadBalancerSpec_Name : string }.

Record IBMPowerVSClusterSpec := {
  Network : IBMPowerVSResourceReference;
  Zone : option string;
  VPC : option VPCResourceReference;
  ResourceGroup : option IBMPowerVSResourceReference;
  VPCSubnets : list Subnet;
  LoadBalancers : list VPCLoadBalancerSpec
}.

Record IBMPowerVSCluster := {
  Name : string;
  Annotations : list (string * string);
  Spec : IBMPowerVSClusterSpec
}.

(** A read of a [map[string]string]: the first binding of the key. *)
Fixpoint map_lookup (m : list (string * string)) (k : string) : option string :=
  match m with
  | [] => None
  | (k', v) :: rest => if String.eqb k' k then Some v else map_lookup rest k
  end.

(** The values the webhook reports as [BadValue]. *)
Inductive BadValue : Type :=
| BadName (name : string)   (* map[string]interface{}{"Name": name} *)
| BadAnnotations (a : list (string * string))
| BadZone (z : option string)
| BadVPC (v : option VPCResourceReference)
| BadRegion (r : option string)
| BadResourceGroup (g : option IBMPowerVSResourceReference)
| BadNetwork (n : IBMPowerVSResourceReference).

Inductive ErrorType : Type := ErrorTypeInvalid | ErrorTypeDuplicate.

(** [field.Error], with the path already printed. *)
Record Error := {
  Type_ : ErrorType;
  Field : string;
  BadValue_ : BadValue;
  Detail : string
}.

(** [field.NewPath(name, moreNames...).String()]. *)
Definition Path_String (names : list string) : string := String.concat "." names.

Definition field_Duplicate (path : list string) (value : BadValue) : Error :=
  {| Type_ := ErrorTypeDuplicate; Field := Path_String path;
     BadValue_ := value; Detail := "" |}.

Definition field_Invalid (path : list string) (value : BadValue) (detail : string) : Error :=
  {| Type_ := ErrorTypeInvalid; Field := Path_String path;
     BadValue_ := value; Detail := detail |}.

(** [fmt.Sprintf("name[%d]", i)] for an index. *)
Definition Sprintf_index (name : string) (i : nat) : string :=
  (name ++ "[" ++ NilEmpty.string_of_uint (Nat.to_uint i) ++ "]")%string.

(** [found[name]] on the set of keys stored so far. *)
Definition found_get (found : list string) (name : string) : bool :=
  existsb (String.eqb name) found.

(** The loop of [validateIBMPowerVSClusterLoadBalancerNames], from index [i]. *)
Fixpoint validateIBMPowerVSClusterLoadBalancerNames_range
  (lbs : list VPCLoadBalancerSpec) (i : nat) (found : list string) (allErrs : list Error)
  : list Error :=
  match lbs with
  | [] => allErrs
  | loadbalancer :: rest =>
      let name := VPCLoadBalancerSpec_Name loadbalancer in
      let allErrs :=
        if found_get found name
        then allErrs ++ [field_Duplicate ["spec"; Sprintf_index "loadbalancers" i]
                           (BadName name)]
        else allErrs in
      validateIBMPowerVSClusterLoadBalancerNames_range rest (S i) (name :: found) allErrs
  end.

Definition validateIBMPowerVSClusterLoadBalancerNames (r : IBMPowerVSCluster) : list Error :=
  validateIBMPowerVSClusterLoadBalancerNames_range (LoadBalancers (Spec r)) 0 [] [].

(** The loop of [validateIBMPowerVSClusterVPCSubnetNames], from index [i]. *)
Fixpoint validateIBMPowerVSClusterVPCSubnetNames_range
  (subnets : list Subnet) (i : nat) (found : list string) (allErrs : list Error)
  : outcome (list Error) :=
  match subnets with
  | [] => Done allErrs
  | subnet :: rest =>
      match Subnet_Name subnet with
      | None => Fault
      | Some name =>
          let allErrs :=
            if found_get found name
            then allErrs ++ [field_Duplicate ["spec"; Sprintf_index "vpcSubnets" i]
                               (BadName name)]
            else allErrs in
          validateIBMPowerVSClusterVPCSubnetNames_range rest (S i) (name :: found) allErrs
      end
  end.

Definition validateIBMPowerVSClusterVPCSubnetNames (r : IBMPowerVSCluster)
  : outcome (list Error) :=
  validateIBMPowerVSClusterVPCSubnetNames_range (VPCSubnets (Spec r)) 0 [] [].

(** [schema.GroupKind] and the error of [apierrors.NewInvalid]. *)
Record GroupKind := { Group : string; Kind : string }.

Inductive StatusError : Type :=
| NewInvalid (qualifiedKind : GroupKind) (name : string) (errs : list Error).

Section Webhook.

(** [strconv.ParseBool], the name of the annotation and the validation of
    the network reference, which this file uses and does not define. *)
Variable strconv_ParseBool : string -> bool * option error.
Variable CreateInfrastructureAnnotation : string.
Variable validateIBMPowerVSNetworkReference :
  IBMPowerVSResourceReference -> bool * option Error.

Definition validateIBMPowerVSClusterNetwork (r : IBMPowerVSCluster) : option Error :=
  let '(res, err) := validateIBMPowerVSNetworkReference (Network (Spec r)) in
  if negb res then err else None.

Definition validateIBMPowerVSClusterCreateInfraPrereq (r : IBMPowerVSCluster)
  : outcome (list Error) :=
  let annotations := Annotations r in
  if Nat.eqb (length annotations) 0 then Done []
  else
    match map_lookup annotations CreateInfrastructureAnnotation with
    | None => Done []
    | Some value =>
        let '(createInfra, err) := strconv_ParseBool value in
        let allErrs :=
          match err with
          | Some _ =>
              [field_Invalid ["annotations"] (BadAnnotations (Annotations r))
                 "value of powervs.cluster.x-k8s.io/create-infra should be boolean"]
          | None => []
          end in
        if negb createInfra then Done []
        else
          let allErrs :=
            match Zone (Spec r) with
            | None => allErrs ++ [field_Invalid ["spec.zone"] (BadZone (Zone (Spec r)))
                                    "value of zone is empty"]
            | Some _ => allErrs
            end in
          let allErrs :=
            match VPC (Spec r) with
            | None => allErrs ++ [field_Invalid ["spec.vpc"] (BadVPC (VPC (Spec r)))
                                    "value of VPC is empty"]
            | Some _ => allErrs
            end in
          match VPC (Spec r) with
          | None => Fault
          | Some vpc =>
              let allErrs :=
                match Region vpc with
                | None => allErrs ++ [field_Invalid ["spec.vpc.region"] (BadRegion (Region vpc))
                                        "value of VPC region is empty"]
                | Some _ => allErrs
                end in
              let allErrs :=
                match ResourceGroup (Spec r) with
                | None =>
                    allErrs ++ [field_Invalid ["spec.resourceGroup"]
                                  (BadResourceGroup (ResourceGroup (Spec r)))
                                  "value of resource group is empty"]
                | Some _ => allErrs
                end in
              match validateIBMPowerVSClusterVPCSubnetNames r with
              | Fault => Fault
              | Done errs =>
                  Done ((allErrs ++ errs) ++ validateIBMPowerVSClusterLoadBalancerNames r)
              end
          end
    end.

Definition validateIBMPowerVSCluster (r : IBMPowerVSCluster)
  : outcome (list string * option StatusError) :=
  let allErrs :=
    match validateIBMPowerVSClusterNetwork r with
    | Some err => [err]
    | None => []
    end in
  match validateIBMPowerVSClusterCreateInfraPrereq r with
  | Fault => Fault
  | Done errs =>
      let allErrs := allErrs ++ errs in
      if Nat.eqb (length allErrs) 0 then Done ([], None)
      else Done ([], Some (NewInvalid
                   {| Group := "infrastructure.cluster.x-k8s.io"; Kind := "IBMPowerVSCluster" |}
                   (Name r) allErrs))
  end.

Definition ValidateCreate (r : IBMPowerVSCluster) : outcome (list string * option StatusError) :=
  validateIBMPowerVSCluster r.

(** The old object is not looked at. *)
Definition ValidateUpdate {Object : Type} (r : IBMPowerVSCluster) (old : Object)
  : outcome (list string * option StatusError) :=
  validateIBMPowerVSCluster r.

Definition ValidateDelete (r : IBMPowerVSCluster) : outcome (list string * option StatusError) :=
  Done ([], None).

End Webhook.

End v1beta2.


(** ** Package [pkg]: the user details read from the access token

    The session, the token parser and the claims are library types; they are
    kept to what [fetchUserDetails] reads.  A value of type [interface{}] is
    a string, a map of such values, or anything else. *)

Module pkg.

Record Config := { IAMAccessToken : string; BluemixAPIKey : string }.

Record Session := { Session_Config : option Config }.

#[warnings="-register-all"]
Inductive iface : Type :=
| iface_string (s : string)
| iface_map (m : list (string * iface))
| iface_other.

(** A read of a [map[string]interface{}]: the first binding of the key. *)
Fixpoint claims_lookup (m : list (string * iface)) (k : string) : option iface :=
  match m with
  | [] => None
  | (k', v) :: rest => if String.eqb k' k then Some v else claims_lookup rest k
  end.

(** [jwt.Claims]: the map claims that [jwt.Parse] fills in, or another
    implementation of the interface. *)
Inductive Claims : Type :=
| MapClaims (m : list (string * iface))
| OtherClaims.

Record Token := { Token_Claims : Claims }.

Record User := {
  ID : string;
  Email : string;
  Account : string;
  cloudName : string;
  cloudType : string;
  generation : Z
}.

(** [strings.HasPrefix] and [strings.Contains]. *)
Definition strings_HasPrefix (s prefix : string) : bool := String.prefix prefix s.

Fixpoint strings_Contains (s substr : string) : bool :=
  String.prefix substr s ||
  match s with
  | EmptyString => false
  | String _ rest => strings_Contains rest substr
  end.

(** [s[lo:len(s)]]: out of range when [lo] exceeds the length. *)
Definition slice_from (s : string) (lo : nat) : outcome string :=
  if Nat.ltb (String.length s) lo then Fault
  else Done (String.substring lo (String.length s - lo) s).

(** [v.(string)] and [v.(map[string]interface{})] on the result of a map
    read: a missing key reads as nil, and the assertion panics on it. *)
Definition assert_string (v : option iface) : outcome string :=
  match v with
  | Some (iface_string s) => Done s
  | _ => Fault
  end.

Definition assert_map (v : option iface) : outcome (list (string * iface)) :=
  match v with
  | Some (iface_map m) => Done m
  | _ => Fault
  end.

Section FetchUserDetails.

(** [jwt.Parse] with the key function of [fetchUserDetails]. *)
Variable jwt_Parse : string -> option Token * option error.

(** The token without its [Bearer] prefix: the first block of
    [fetchUserDetails]. *)
Definition bluemixToken (config : Config) : outcome string :=
  if strings_HasPrefix (IAMAccessToken config) "Bearer"
  then slice_from (IAMAccessToken config) 7
  else Done (IAMAccessToken config).

(** The zero value [User{}]. *)
Definition User_zero : User :=
  {| ID := ""; Email := ""; Account := ""; cloudName := ""; cloudType := "";
     generation := 0 |}.

Definition fetchUserDetails (sess : option Session) (generation : Z)
  : outcome (option User * option error) :=
  match sess with
  | None => Fault
  | Some sess =>
  match Session_Config sess with
  | None => Fault
  | Some config =>
  match bluemixToken config with
  | Fault => Fault
  | Done bluemixToken =>
  let '(token, err) := jwt_Parse bluemixToken in
  let rejected :=
    match err with
    | Some e => negb (strings_Contains (Error e) "key is of invalid type")
    | None => false
    end in
  if rejected then Done (Some User_zero, err)
  else
  match token with
  | None => Fault
  | Some token =>
  match Token_Claims token with
  | OtherClaims => Fault
  | MapClaims claims =>
  let email :=
    match claims_lookup claims "email" with
    | Some v => assert_string (Some v)
    | None => Done ""
    end in
  match email with
  | Fault => Fault
  | Done email =>
  match assert_string (claims_lookup claims "id") with
  | Fault => Fault
  | Done id =>
  match assert_map (claims_lookup claims "account") with
  | Fault => Fault
  | Done account =>
  match assert_string (claims_lookup account "bss") with
  | Fault => Fault
  | Done bss =>
  match assert_string (claims_lookup claims "iss") with
  | Fault => Fault
  | Done iss =>
  let cloudName :=
    if strings_Contains iss "https://iam.cloud.ibm.com" then "bluemix" else "staging" in
  Done (Some {| ID := id; Email := email; Account := bss; cloudName := cloudName;
                cloudType := "public"; generation := generation |},
        None)
  end end end end end end end end end end.

End FetchUserDetails.

End pkg.


(** ** Package [scope]: the two constructors

    What the constructors are given and what they build is kept as in the
    source; the collaborators they call ([klogr.New], [patch.NewHelper],
    [setIBMVPCService], [pkg.NewClient], [utils.GetRegion],
    [NewIBMPowerVSClient]) are parameters.  An interface value or a pointer
    that may be nil is an [option]. *)

Module NewScope.

(** How a call that may end the process comes back: [pkg.NewClient] ends it
    with [klog.Fatal] when a step of its set-up fails. *)
Inductive process (A : Type) : Type :=
| Returned (a : A)
| Panicked
| Exited.
Arguments Returned {A} a.
Arguments Panicked {A}.
Arguments Exited {A}.

(** [models.ServiceInstanceV2], as far as it is read. *)
Record ServiceInstance := { RegionID : string }.

(** [pkg.Client]: the embedded session, the user and the resource client,
    an interface whose [GetInstance] is the function held. *)
Record Client := {
  Client_Session : option pkg.Session;
  Client_User : option pkg.User;
  ResourceClient : option (string -> ServiceInstance * option error)
}.

Section Constructors.

Context {client_Client logr_Logger patch_Helper clusterv1_Cluster : Type}.
Context {IBMVPCClients core_Authenticator IBMPowerVSCluster IBMPowerVSClient : Type}.

Variable klogr_New : logr_Logger.
Variable patch_NewHelper_cluster :
  infrav1.IBMVPCCluster -> option client_Client -> option patch_Helper * option error.
Variable patch_NewHelper_machine :
  v1alpha4.IBMPowerVSMachine -> option client_Client -> option patch_Helper * option error.
Variable setIBMVPCService :
  IBMVPCClients -> core_Authenticator -> string -> IBMVPCClients * option error.
Variable pkg_NewClient : process Client.
Variable utils_GetRegion : string -> string * option error.
Variable NewIBMPowerVSClient :
  string -> string -> string -> string -> string -> bool ->
  option IBMPowerVSClient * option error.


Record ClusterScope := {
  ClusterScope_Logger : option logr_Logger;
  ClusterScope_client : option client_Client;
  ClusterScope_patchHelper : option patch_Helper;
  ClusterScope_IBMVPCClients : IBMVPCClients;
  ClusterScope_Cluster : option clusterv1_Cluster;
  ClusterScope_IBMVPCCluster : option infrav1.IBMVPCCluster
}.


Record PowerVSMachineScopeParams := {
  Params_Logger : option logr_Logger;
  Params_Client : option client_Client;
  Params_Cluster : option clusterv1_Cluster;
  Params_Machine : option clusterv1.Machine;
  Params_IBMPowerVSCluster : option IBMPowerVSCluster;
  Params_IBMPowerVSMachine : option v1alpha4.IBMPowerVSMachine
}.

Record PowerVSMachineScope := {
  Scope_Logger : option logr_Logger;
  Scope_client : option client_Client;
  Scope_patchHelper : option patch_Helper;
  Scope_IBMPowerVSClient : option IBMPowerVSClient;
  Scope_Cluster : option clusterv1_Cluster;
  Scope_Machine : option clusterv1.Machine;
  Scope_IBMPowerVSCluster : option IBMPowerVSCluster;
  Scope_IBMPowerVSMachine : option v1alpha4.IBMPowerVSMachine
}.

Definition NewPowerVSMachineScope (params : PowerVSMachineScopeParams)
  : process (option PowerVSMachineScope * option error) :=
  match Params_Client params with
  | None =>
      Returned (None, Some (errors_New "client is required when creating a MachineScope"))
  | Some _ =>
  match Params_Machine params with
  | None =>
      Returned (None, Some (errors_New "machine is required when creating a MachineScope"))
  | Some _ =>
  match Params_Cluster params with
  | None =>
      Returned (None, Some (errors_New "cluster is required when creating a MachineScope"))
  | Some _ =>
  match Params_IBMPowerVSMachine params with
  | None =>
      Returned (None, Some (errors_New "aws machine is required when creating a MachineScope"))
  | Some m =>
  let logger :=
    match Params_Logger params with
    | None => Some klogr_New
    | Some l => Some l
    end in
  let id := v1alpha4.ServiceInstanceID (v1alpha4.Spec m) in
  match pkg_NewClient with
  | Exited => Exited
  | Panicked => Panicked
  | Returned client =>
  match ResourceClient client with
  | None => Panicked
  | Some GetInstance =>
  let '(resource, err) := GetInstance id in
  match err with
  | Some _ => Returned (None, err)
  | None =>
  let '(region, err) := utils_GetRegion (RegionID resource) in
  match err with
  | Some _ => Returned (None, err)
  | None =>
  let zone := RegionID resource in
  match Client_Session client with
  | None => Panicked
  | Some session =>
  match pkg.Session_Config session with
  | None => Panicked
  | Some config =>
  match Client_User client with
  | None => Panicked
  | Some user =>
  let '(c, err) :=
    NewIBMPowerVSClient (pkg.IAMAccessToken config) (pkg.Account user) id region zone true in
  match err with
  | Some _ => Returned (None, Some (fmt_Errorf "failed to create NewIBMPowerVSClient"))
  | None =>
  let '(helper, err) := patch_NewHelper_machine m (Params_Client params) in
  match err with
  | Some _ => Returned (None, errors_Wrap err "failed to init patch helper")
  | None =>
      Returned
        (Some {| Scope_Logger := logger;
                 Scope_client := Params_Client params;
                 Scope_patchHelper := helper;
                 Scope_IBMPowerVSClient := c;
                 Scope_Cluster := Params_Cluster params;
                 Scope_Machine := Params_Machine params;
                 Scope_IBMPowerVSCluster := Params_IBMPowerVSCluster params;
                 Scope_IBMPowerVSMachine := Params_IBMPowerVSMachine params |},
         None)
  end end end end end end end end end end end end end.

End Constructors.

End NewScope.


(** ** More vocabulary: which method a call is *)

Inductive vpcv1_method : Type :=
| M_ListVpcs | M_CreateVPC | M_DeleteVPC | M_CreateSecurityGroupRule
| M_ListFloatingIps | M_CreateFloatingIP | M_DeleteFloatingIP
| M_ListSubnets | M_ListVPCAddressPrefixes | M_CreateSubnet
| M_CreatePublicGateway | M_SetSubnetPublicGateway | M_GetSubnetPublicGateway
| M_UnsetSubnetPublicGateway | M_DeletePublicGateway | M_DeleteSubnet.

Definition vpcv1_method_of (c : vpcv1.Call) : vpcv1_method :=
  match c with
  | vpcv1.CallListVpcs _ _ => M_ListVpcs
  | vpcv1.CallCreateVPC _ _ => M_CreateVPC
  | vpcv1.CallDeleteVPC _ _ => M_DeleteVPC
  | vpcv1.CallCreateSecurityGroupRule _ _ => M_CreateSecurityGroupRule
  | vpcv1.CallListFloatingIps _ _ => M_ListFloatingIps
  | vpcv1.CallCreateFloatingIP _ _ => M_CreateFloatingIP
  | vpcv1.CallDeleteFloatingIP _ _ => M_DeleteFloatingIP
  | vpcv1.CallListSubnets _ _ => M_ListSubnets
  | vpcv1.CallListVPCAddressPrefixes _ _ => M_ListVPCAddressPrefixes
  | vpcv1.CallCreateSubnet _ _ => M_CreateSubnet
  | vpcv1.CallCreatePublicGateway _ _ => M_CreatePublicGateway
  | vpcv1.CallSetSubnetPublicGateway _ _ => M_SetSubnetPublicGateway
  | vpcv1.CallGetSubnetPublicGateway _ _ => M_GetSubnetPublicGateway
  | vpcv1.CallUnsetSubnetPublicGateway _ _ => M_UnsetSubnetPublicGateway
  | vpcv1.CallDeletePublicGateway _ _ => M_DeletePublicGateway
  | vpcv1.CallDeleteSubnet _ _ => M_DeleteSubnet
  end.

Inductive powervs_method : Type :=
| M_InstanceGetAll | M_InstanceCreate | M_InstanceDelete
| M_ImageGetAll | M_PcloudNetworksGetall | M_ClientGet.

Definition powervs_method_of (c : powervs.Call) : powervs_method :=
  match c with
  | powervs.CallInstanceGetAll _ _ _ => M_InstanceGetAll
  | powervs.CallInstanceCreate _ _ _ _ => M_InstanceCreate
  | powervs.CallInstanceDelete _ _ _ _ => M_InstanceDelete
  | powervs.CallImageGetAll _ _ => M_ImageGetAll
  | powervs.CallPcloudNetworksGetall _ _ _ => M_PcloudNetworksGetall
  | powervs.CallClientGet _ _ => M_ClientGet
  end.

(** The calls of a [CreateSubnet] that runs to its end. *)
Definition CreateSubnet_calls : list vpcv1_method :=
  [M_ListSubnets; M_ListVPCAddressPrefixes; M_CreateSubnet; M_CreatePublicGateway;
   M_SetSubnetPublicGateway].

(** The listing call that resolving a reference may need: none with an ID,
    the listing with a name only; with neither there is nothing to resolve
    and [None] is returned. *)
Definition resolution_calls (ref : v1alpha4.IBMPowerVSResourceReference)
  (listing : powervs_method) : option (list powervs_method) :=
  match v1alpha4.ID ref, v1alpha4.Name ref with
  | Some _, _ => Some []
  | None, Some _ => Some [listing]
  | None, None => None
  end.

(** The calls of a [CreateMachine] that runs to its end, for the references
    of the machine. *)
Definition CreateMachine_calls (m : v1alpha4.IBMPowerVSMachine) : list powervs_method :=
  [M_InstanceGetAll; M_ClientGet] ++
  match resolution_calls (v1alpha4.Image (v1alpha4.Spec m)) M_ImageGetAll with
  | None => []
  | Some image =>
      image ++
      match resolution_calls (v1alpha4.Network (v1alpha4.Spec m)) M_PcloudNetworksGetall with
      | None => []
      | Some network => network ++ [M_InstanceCreate]
      end
  end.

(** The zone name under an address prefix. *)
Definition ZoneName_of (p : vpcv1.AddressPrefix) : option string :=
  match vpcv1.AddressPrefix_Zone p with
  | Some z => vpcv1.ZoneReference_Name z
  | None => None
  end.

(** An answer of the token parser after which [fetchUserDetails] goes on:
    no error, or one that mentions an invalid key type. *)
Definition tolerated (err : option error) : bool :=
  match err with
  | None => true
  | Some e => pkg.strings_Contains (Error e) "key is of invalid type"
  end.


(** ** More test doubles *)

Module Samples.
Import vpcv1 models powervs.

(** A service whose create call answers with a network that carries no
    default security group. *)
Definition bare_vpc_service : VpcV1 FakeVPC.state := {|
  ListVpcs := ListVpcs FakeVPC.service;
  CreateVPC := fun o st =>
    ((Some {| VPC_ID := Some "r006-bare"; VPC_Name := CreateVPCOptions_Name o;
              VPC_DefaultSecurityGroup := None |}, None), st);
  DeleteVPC := DeleteVPC FakeVPC.service;
  CreateSecurityGroupRule := CreateSecurityGroupRule FakeVPC.service;
  ListFloatingIps := ListFloatingIps FakeVPC.service;
  CreateFloatingIP := CreateFloatingIP FakeVPC.service;
  DeleteFloatingIP := DeleteFloatingIP FakeVPC.service;
  ListSubnets := ListSubnets FakeVPC.service;
  ListVPCAddressPrefixes := ListVPCAddressPrefixes FakeVPC.service;
  CreateSubnet := CreateSubnet FakeVPC.service;
  CreatePublicGateway := CreatePublicGateway FakeVPC.service;
  SetSubnetPublicGateway := SetSubnetPublicGateway FakeVPC.service;
  GetSubnetPublicGateway := GetSubnetPublicGateway FakeVPC.service;
  UnsetSubnetPublicGateway := UnsetSubnetPublicGateway FakeVPC.service;
  DeletePublicGateway := DeletePublicGateway FakeVPC.service;
  DeleteSubnet := DeleteSubnet FakeVPC.service
|}.

Definition bare_vpc_scope : ClusterScope.ClusterScope FakeVPC.state := {|
  ClusterScope.VPCService := bare_vpc_service;
  ClusterScope.IBMVPCCluster := FakeVPC.cluster None None |}.

(** The subnet has a gateway attached that carries no identifier. *)
Definition anonymous_gateway : FakeVPC.state :=
  FakeVPC.with_gateway (Some {| PublicGateway_ID := None |}) FakeVPC.attached.

Definition unavailable : error := errors_New "service unavailable".

(** Clients whose image listing answers nil and nil and whose networks
    reply has no payload. *)
Definition empty_reply_clients : Clients FakePowerVS.state := {|
  InstanceClient_GetAll := InstanceClient_GetAll FakePowerVS.clients;
  InstanceClient_Create := InstanceClient_Create FakePowerVS.clients;
  InstanceClient_Delete := InstanceClient_Delete FakePowerVS.clients;
  ImageClient_GetAll := fun _ st => ((None, None), st);
  PcloudNetworksGetall := fun _ _ st => ((Some {| Payload := None |}, None), st);
  client_Get := client_Get FakePowerVS.clients
|}.

Definition empty_reply_scope : PowerVSMachineScope.PowerVSMachineScope FakePowerVS.state := {|
  PowerVSMachineScope.Clients_ := empty_reply_clients;
  PowerVSMachineScope.Machine :=
    PowerVSMachineScope.Machine (FakePowerVS.scope "8" "0.25");
  PowerVSMachineScope.IBMPowerVSMachine :=
    PowerVSMachineScope.IBMPowerVSMachine (FakePowerVS.scope "8" "0.25") |}.

(** The machine [demo-0] with no bootstrap secret named. *)
Definition secretless_scope : PowerVSMachineScope.PowerVSMachineScope FakePowerVS.state := {|
  PowerVSMachineScope.Clients_ := FakePowerVS.clients;
  PowerVSMachineScope.Machine := {|
    clusterv1.Namespace := "default";
    clusterv1.Name := "demo-0";
    clusterv1.Spec := {| clusterv1.Bootstrap_ := {| clusterv1.DataSecretName := None |} |} |};
  PowerVSMachineScope.IBMPowerVSMachine :=
    PowerVSMachineScope.IBMPowerVSMachine (FakePowerVS.scope "8" "0.25") |}.

(** [strconv.ParseBool]: the strings Go accepts. *)
Definition ParseBool (str : string) : bool * option error :=
  if existsb (String.eqb str) ["1"; "t"; "T"; "true"; "TRUE"; "True"] then (true, None)
  else if existsb (String.eqb str) ["0"; "f"; "F"; "false"; "FALSE"; "False"]
       then (false, None)
       else (false, Some (errors_New
               ("strconv.ParseBool: parsing " ++ String "034" (str ++ String "034" "")
                ++ ": invalid syntax")%string)).

Definition create_infra : string := "powervs.cluster.x-k8s.io/create-infra".

(** A stand-in for the validation of the network reference: an ID and a
    name together are refused. *)
Definition validateNetwork (n : v1beta2.IBMPowerVSResourceReference)
  : bool * option v1beta2.Error :=
  match v1beta2.IBMPowerVSResourceReference_ID n,
        v1beta2.IBMPowerVSResourceReference_Name n with
  | Some _, Some _ =>
      (false, Some (v1beta2.field_Invalid ["spec.Network"] (v1beta2.BadNetwork n)
                      "Only one of Network - ID or Name may be specified"))
  | _, _ => (true, None)
  end.

Definition network_by_name : v1beta2.IBMPowerVSResourceReference := {|
  v1beta2.IBMPowerVSResourceReference_ID := None;
  v1beta2.IBMPowerVSResourceReference_Name := Some "capi-net" |}.

Definition lb (name : string) : v1beta2.VPCLoadBalancerSpec :=
  {| v1beta2.VPCLoadBalancerSpec_Name := name |}.

Definition subnet (name : string) : v1beta2.Subnet :=
  {| v1beta2.Subnet_Name := Some name |}.

(** A cluster with the given annotations, VPC reference, subnets and load
    balancers; zone and resource group are set. *)
Definition powervs_cluster (annotations : list (string * string))
  (vpc : option v1beta2.VPCResourceReference)
  (subnets : list v1beta2.Subnet) (lbs : list v1beta2.VPCLoadBalancerSpec)
  : v1beta2.IBMPowerVSCluster := {|
  v1beta2.Name := "demo";
  v1beta2.Annotations := annotations;
  v1beta2.Spec := {|
    v1beta2.Network := network_by_name;
    v1beta2.Zone := Some "dal10";
    v1beta2.VPC := vpc;
    v1beta2.ResourceGroup := Some {|
      v1beta2.IBMPowerVSResourceReference_ID := Some "rg-1";
      v1beta2.IBMPowerVSResourceReference_Name := None |};
    v1beta2.VPCSubnets := subnets;
    v1beta2.LoadBalancers := lbs |} |}.

Definition us_south : option v1beta2.VPCResourceReference :=
  Some {| v1beta2.Region := Some "us-south" |}.

(** The claims of a user of the public cloud. *)
Definition claims : list (string * pkg.iface) :=
  [("id", pkg.iface_string "IBMid-1");
   ("email", pkg.iface_string "user@example.com");
   ("account", pkg.iface_map [("bss", pkg.iface_string "acct-9")]);
   ("iss", pkg.iface_string "https://iam.cloud.ibm.com/identity")].

(** A stand-in for the token parser: the token [header.claims.sig] carries
    [claims] and comes with the key error that the key function of
    [fetchUserDetails] provokes, [quiet] carries them with no error, and
    anything else is malformed. *)
Definition parse (token : string) : option pkg.Token * option error :=
  if String.eqb token "header.claims.sig"
  then (Some {| pkg.Token_Claims := pkg.MapClaims claims |},
        Some (errors_New "key is of invalid type"))
  else if String.eqb token "quiet"
       then (Some {| pkg.Token_Claims := pkg.MapClaims claims |}, None)
       else (None, Some (errors_New "token contains an invalid number of segments")).

(** The same parser without the key errors. *)
Definition parse_quietly (token : string) : option pkg.Token * option error :=
  if String.eqb token "header.claims.sig" || String.eqb token "quiet"
  then (Some {| pkg.Token_Claims := pkg.MapClaims claims |}, None)
  else (None, None).

(** The parser restricted to what it accepts. *)
Definition parse_accepted (token : string) : option pkg.Token * option error :=
  if String.eqb token "header.claims.sig"
  then (Some {| pkg.Token_Claims := pkg.MapClaims claims |},
        Some (errors_New "key is of invalid type"))
  else if String.eqb token "quiet"
       then (Some {| pkg.Token_Claims := pkg.MapClaims claims |}, None)
       else (None, None).

Definition session (token : string) : option pkg.Session :=
  Some {| pkg.Session_Config :=
            Some {| pkg.IAMAccessToken := token; pkg.BluemixAPIKey := "key" |} |}.


Definition helper_for_machine (m : v1alpha4.IBMPowerVSMachine) (client : option string)
  : option string * option error := (Some "helper", None).


Definition pkg_client : NewScope.Client := {|
  NewScope.Client_Session :=
    Some {| pkg.Session_Config :=
              Some {| pkg.IAMAccessToken := "token"; pkg.BluemixAPIKey := "key" |} |};
  NewScope.Client_User :=
    Some {| pkg.ID := "IBMid-1"; pkg.Email := ""; pkg.Account := "acct-9";
            pkg.cloudName := "bluemix"; pkg.cloudType := "public"; pkg.generation := 2 |};
  NewScope.ResourceClient :=
    Some (fun _ => ({| NewScope.RegionID := "dal10" |}, None)) |}.

Definition region_of (zone : string) : string * option error := ("dal", None).

Definition powervs_client (token account id region zone : string) (debug : bool)
  : option string * option error := (Some "powervs", None).

Definition refused_powervs_client (token account id region zone : string) (debug : bool)
  : option string * option error := (None, Some (errors_New "bad credentials")).


Definition machine_params (client : option string) (machine : option clusterv1.Machine)
  (cluster : option string) (m : option v1alpha4.IBMPowerVSMachine)
  : NewScope.PowerVSMachineScopeParams (client_Client := string) (logr_Logger := string)
      (clusterv1_Cluster := string) (IBMPowerVSCluster := string) := {|
  NewScope.Params_Logger := None;
  NewScope.Params_Client := client;
  NewScope.Params_Cluster := cluster;
  NewScope.Params_Machine := machine;
  NewScope.Params_IBMPowerVSCluster := None;
  NewScope.Params_IBMPowerVSMachine := m |}.

Definition demo_machine : clusterv1.Machine :=
  PowerVSMachineScope.Machine (FakePowerVS.scope "8" "0.25").

Definition demo_powervs_machine : v1alpha4.IBMPowerVSMachine :=
  PowerVSMachineScope.IBMPowerVSMachine (FakePowerVS.scope "8" "0.25").

End Samples.

(** * Properties of the scans *)

Ltac simp := cbn [remote transcript fst snd].

Ltac run :=
  unfold bind, ret, deref, rpc, lift in *; cbn [remote transcript fst snd] in *.

(** An invocation that made no call extends the transcript by nothing. *)
Lemma transcript_unchanged : forall (Ev : Type) (tr ext : list Ev),
  tr = tr ++ ext -> ext = [].
Proof.
  intros Ev tr ext H. apply (app_inv_head tr). now rewrite app_nil_r.
Qed.

Section Scans.
Context {A : Type} (name_of : A -> option string).

(** In a listing whose entries all carry a name, a match has a first
    occurrence: every entry before it carries another name. *)
Lemma first_match_split : forall (target : string) (l : list A),
  forallb (fun x => named (name_of x)) l = true ->
  existsb (fun x => names target (name_of x)) l = true ->
  exists pre v post,
    l = pre ++ v :: post /\
    forallb (fun x => named_otherwise target (name_of x)) pre = true /\
    name_of v = Some target.
Proof.
  intros target; induction l as [|x l IH]; cbn; intros Hall Hex.
  - discriminate.
  - apply andb_true_iff in Hall as [Hx Hall].
    destruct (names target (name_of x)) eqn:Hn.
    + exists [], x, l. repeat split.
      unfold names in Hn. destruct (name_of x) as [n|]; [|discriminate].
      apply String.eqb_eq in Hn. now subst.
    + cbn in Hex. destruct (IH Hall Hex) as (pre & v & post & -> & Hpre & Hv).
      exists (x :: pre), v, post. repeat split; trivial.
      cbn. rewrite Hpre, andb_true_r.
      unfold names in Hn. unfold named in Hx. unfold named_otherwise.
      destruct (name_of x); [now rewrite Hn | discriminate].
Qed.

Lemma no_match_all_otherwise : forall (target : string) (l : list A),
  forallb (fun x => named (name_of x)) l = true ->
  existsb (fun x => names target (name_of x)) l = false ->
  forallb (fun x => named_otherwise target (name_of x)) l = true.
Proof.
  intros target; induction l as [|x l IH]; cbn; intros Hall Hex; trivial.
  apply andb_true_iff in Hall as [Hx Hall].
  apply orb_false_iff in Hex as [Hn Hex].
  rewrite (IH Hall Hex), andb_true_r.
  unfold names in Hn. unfold named in Hx. unfold named_otherwise.
  destruct (name_of x); [now rewrite Hn | discriminate].
Qed.

End Scans.

Section ScanLoops.
Import vpcv1 ClusterScope.

Lemma ensureVPCUnique_range_first : forall pre v post name,
  forallb (fun x => named_otherwise name (VPC_Name x)) pre = true ->
  VPC_Name v = Some name ->
  ensureVPCUnique_range (pre ++ v :: post) name = Done (Some v, None).
Proof.
  induction pre as [|x pre IH]; intros v post name Hpre Hv; cbn.
  - rewrite Hv, String.eqb_refl. reflexivity.
  - cbn in Hpre. apply andb_true_iff in Hpre as [Hx Hpre].
    unfold named_otherwise in Hx.
    destruct (VPC_Name x) as [n|]; [|discriminate].
    apply negb_true_iff in Hx. rewrite Hx. now apply IH.
Qed.

Lemma ensureVPCUnique_range_absent : forall l name,
  forallb (fun x => named_otherwise name (VPC_Name x)) l = true ->
  ensureVPCUnique_range l name = Done (None, None).
Proof.
  induction l as [|x l IH]; intros name Hl; cbn.
  - reflexivity.
  - cbn in Hl. apply andb_true_iff in Hl as [Hx Hl].
    unfold named_otherwise in Hx.
    destruct (VPC_Name x) as [n|]; [|discriminate].
    apply negb_true_iff in Hx. rewrite Hx. now apply IH.
Qed.

Lemma ensureFIPUnique_range_first : forall pre v post name,
  forallb (fun x => named_otherwise name (FloatingIP_Name x)) pre = true ->
  FloatingIP_Name v = Some name ->
  ensureFIPUnique_range (pre ++ v :: post) name = Done (Some v, None).
Proof.
  induction pre as [|x pre IH]; intros v post name Hpre Hv; cbn.
  - rewrite Hv, String.eqb_refl. reflexivity.
  - cbn in Hpre. apply andb_true_iff in Hpre as [Hx Hpre].
    unfold named_otherwise in Hx.
    destruct (FloatingIP_Name x) as [n|]; [|discriminate].
    apply negb_true_iff in Hx. rewrite Hx. now apply IH.
Qed.

Lemma ensureFIPUnique_range_absent : forall l name,
  forallb (fun x => named_otherwise name (FloatingIP_Name x)) l = true ->
  ensureFIPUnique_range l name = Done (None, None).
Proof.
  induction l as [|x l IH]; intros name Hl; cbn.
  - reflexivity.
  - cbn in Hl. apply andb_true_iff in Hl as [Hx Hl].
    unfold named_otherwise in Hx.
    destruct (FloatingIP_Name x) as [n|]; [|discriminate].
    apply negb_true_iff in Hx. rewrite Hx. now apply IH.
Qed.

(** Whatever a scan returns was found in the listing under the target
    name, and comes with no error. *)
Lemma ensureVPCUnique_range_found : forall l name v e,
  ensureVPCUnique_range l name = Done (Some v, e) ->
  In v l /\ VPC_Name v = Some name /\ e = None.
Proof.
  induction l as [|x l IH]; intros name v e H; cbn in H.
  - discriminate.
  - destruct (VPC_Name x) as [n|] eqn:Hn; [|discriminate].
    destruct (String.eqb n name) eqn:Heq.
    + injection H as <- <-. apply String.eqb_eq in Heq. subst. auto with datatypes.
    + destruct (IH _ _ _ H) as (? & ? & ?). auto with datatypes.
Qed.

Lemma ensureVPCUnique_range_error : forall l name e,
  ensureVPCUnique_range l name <> Done (None, Some e).
Proof.
  induction l as [|x l IH]; intros name e; cbn.
  - discriminate.
  - destruct (VPC_Name x) as [n|]; [|discriminate].
    destruct (String.eqb n name); [discriminate | apply IH].
Qed.

End ScanLoops.

(** * Properties of the cluster scope *)

Section ClusterScopeFacts.
Import vpcv1 ClusterScope.
Context {R : Type}.
Implicit Types (s : ClusterScope R) (w : World R Call) (name : string).

(** What [ensureVPCUnique] does once the listing call has answered. *)
Lemma ensureVPCUnique_listed : forall s name w coll r',
  ListVpcs (VPCService s) Build_ListVpcsOptions (remote w) = ((Some coll, None), r') ->
  ensureVPCUnique s name w =
  (ensureVPCUnique_range (Vpcs coll) name,
   mkWorld r' (transcript w ++ [CallListVpcs Build_ListVpcsOptions (Some coll, None)])).
Proof.
  intros s name w coll r' Hlist. unfold ensureVPCUnique. run.
  rewrite Hlist. reflexivity.
Qed.

Lemma ensureFIPUnique_listed : forall s name w coll r',
  ListFloatingIps (VPCService s) Build_ListFloatingIpsOptions (remote w)
    = ((Some coll, None), r') ->
  ensureFIPUnique s name w =
  (ensureFIPUnique_range (FloatingIps coll) name,
   mkWorld r' (transcript w ++
       [CallListFloatingIps Build_ListFloatingIpsOptions (Some coll, None)])).
Proof.
  intros s name w coll r' Hlist. unfold ensureFIPUnique. run.
  rewrite Hlist. reflexivity.
Qed.

(** C8. Once the listing call has answered, [ensureVPCUnique] and
    [ensureFIPUnique] return the first listed resource whose name is
    exactly the target (the entries before it carrying other names), with
    no error; when every entry carries another name they return no resource
    and no error.  The listing is the only call made. *)
Theorem C8_scan_returns_first_match_or_absent : forall s name w,
  (forall coll r',
     ListVpcs (VPCService s) Build_ListVpcsOptions (remote w) = ((Some coll, None), r') ->
     let w' := mkWorld r' (transcript w ++
                 [CallListVpcs Build_ListVpcsOptions (Some coll, None)]) in
     (forall pre v post,
        Vpcs coll = pre ++ v :: post ->
        forallb (fun x => named_otherwise name (VPC_Name x)) pre = true ->
        VPC_Name v = Some name ->
        ensureVPCUnique s name w = (Done (Some v, None), w')) /\
     (forallb (fun x => named_otherwise name (VPC_Name x)) (Vpcs coll) = true ->
      ensureVPCUnique s name w = (Done (None, None), w'))) /\
  (forall coll r',
     ListFloatingIps (VPCService s) Build_ListFloatingIpsOptions (remote w)
       = ((Some coll, None), r') ->
     let w' := mkWorld r' (transcript w ++
                 [CallListFloatingIps Build_ListFloatingIpsOptions (Some coll, None)]) in
     (forall pre v post,
        FloatingIps coll = pre ++ v :: post ->
        forallb (fun x => named_otherwise name (FloatingIP_Name x)) pre = true ->
        FloatingIP_Name v = Some name ->
        ensureFIPUnique s name w = (Done (Some v, None), w')) /\
     (forallb (fun x => named_otherwise name (FloatingIP_Name x)) (FloatingIps coll) = true ->
      ensureFIPUnique s name w = (Done (None, None), w'))).
Proof.
  intros s name w; split; intros coll r' Hlist w'; subst w'.
  - rewrite (ensureVPCUnique_listed _ _ _ _ _ Hlist). split.
    + intros pre v post -> Hpre Hv.
      now rewrite (ensureVPCUnique_range_first _ _ _ _ Hpre Hv).
    + intros Hall. now rewrite (ensureVPCUnique_range_absent _ _ Hall).
  - rewrite (ensureFIPUnique_listed _ _ _ _ _ Hlist). split.
    + intros pre v post -> Hpre Hv.
      now rewrite (ensureFIPUnique_range_first _ _ _ _ Hpre Hv).
    + intros Hall. now rewrite (ensureFIPUnique_range_absent _ _ Hall).
Qed.

(** C6. With a recorded floating-IP identifier that is the empty string,
    [DeleteFloatingIP] makes no call and returns nil; with a non-empty one
    it makes exactly one call, the deletion of that identifier, and returns
    what the call returned. *)
Theorem C6_DeleteFloatingIP_by_recorded_id : forall s w fipID,
  infrav1.FIPID (infrav1.Status_APIEndpoint (infrav1.Status (IBMVPCCluster s)))
    = Some fipID ->
  (fipID = "" -> DeleteFloatingIP s w = (Done None, w)) /\
  (fipID <> "" ->
   let o := {| DeleteFloatingIPOptions_ID := Some fipID |} in
   DeleteFloatingIP s w =
   (Done (fst (vpcv1.DeleteFloatingIP (VPCService s) o (remote w))),
    mkWorld (snd (vpcv1.DeleteFloatingIP (VPCService s) o (remote w)))
            (transcript w ++
               [CallDeleteFloatingIP o
                  (fst (vpcv1.DeleteFloatingIP (VPCService s) o (remote w)))]))).
Proof.
  intros s w fipID Hid. unfold DeleteFloatingIP. run. rewrite Hid. split.
  - intros ->. reflexivity.
  - intros Hne. apply String.eqb_neq in Hne. rewrite Hne. cbn.
    now destruct (vpcv1.DeleteFloatingIP _ _ _).
Qed.

(** C9. [DeleteFloatingIP] dereferences the recorded identifier first:
    with a nil pointer it panics before any call; it returns exactly when
    the pointer is not nil, and returns nil for the empty string. *)
Theorem C9_DeleteFloatingIP_dereferences_FIPID : forall s w,
  let FIPID :=
    infrav1.FIPID (infrav1.Status_APIEndpoint (infrav1.Status (IBMVPCCluster s))) in
  (FIPID = None -> DeleteFloatingIP s w = (Fault, w)) /\
  ((exists err w', DeleteFloatingIP s w = (Done err, w')) <-> FIPID <> None) /\
  (FIPID = Some "" -> DeleteFloatingIP s w = (Done None, w)).
Proof.
  intros s w FIPID; subst FIPID. unfold DeleteFloatingIP. run.
  destruct (infrav1.FIPID _) as [id|].
  - split; [discriminate|]. split.
    + split; [discriminate|]. intros _.
      destruct (negb (String.eqb id "")); [|now eauto].
      destruct (vpcv1.DeleteFloatingIP _ _ _). eauto.
    + intros [= ->]. reflexivity.
  - split; [reflexivity|]. split; [|discriminate].
    split; [|congruence]. intros (err & w' & H). discriminate.
Qed.






(** C4. [DeleteSubnet] first asks for the public gateway of the subnet.
    When one is found it unsets it, deletes it once the unset succeeded, and
    deletes the subnet once the gateway is deleted; a failed unset, gateway
    deletion or subnet deletion ends the invocation there, with the error
    wrapped under the message of that step.  When none is found the subnet
    deletion is the next call. *)
Theorem C4_DeleteSubnet_order : forall s w subnetID,
  let get := {| GetSubnetPublicGatewayOptions_ID := Some subnetID |} in
  let unset := {| UnsetSubnetPublicGatewayOptions_ID := Some subnetID |} in
  let delete := {| DeleteSubnetOptions_ID := Some subnetID |} in
  let detaching := ("Error when detaching publicgateway for subnet " ++ subnetID)%string in
  infrav1.Subnet_ID (infrav1.Status_Subnet (infrav1.Status (IBMVPCCluster s)))
    = Some subnetID ->
  (forall gw e r, GetSubnetPublicGateway (VPCService s) get (remote w) = ((Some gw, e), r) ->
                  PublicGateway_ID gw <> None) ->
  exists tr,
    transcript (snd (DeleteSubnet s w)) = transcript w ++ tr /\
    ((exists gw e,
        tr = [CallGetSubnetPublicGateway get (Some gw, None);
              CallUnsetSubnetPublicGateway unset (Some e)] /\
        fst (DeleteSubnet s w) =
        Done (Some (errors_Wrapped
                      (errors_Wrapped e
                         ("Error when unsetting publicgateway for subnet " ++ subnetID)%string)
                      detaching))) \/
     (exists gw pgwID e,
        PublicGateway_ID gw = Some pgwID /\
        tr = [CallGetSubnetPublicGateway get (Some gw, None);
              CallUnsetSubnetPublicGateway unset None;
              CallDeletePublicGateway {| DeletePublicGatewayOptions_ID := Some pgwID |}
                (Some e)] /\
        fst (DeleteSubnet s w) =
        Done (Some (errors_Wrapped
                      (errors_Wrapped e
                         ("Error when deleting publicgateway for subnet " ++ subnetID)%string)
                      detaching))) \/
     (exists gw pgwID err,
        PublicGateway_ID gw = Some pgwID /\
        tr = [CallGetSubnetPublicGateway get (Some gw, None);
              CallUnsetSubnetPublicGateway unset None;
              CallDeletePublicGateway {| DeletePublicGatewayOptions_ID := Some pgwID |} None;
              CallDeleteSubnet delete err] /\
        fst (DeleteSubnet s w) = Done (errors_Wrap err "Error when deleting subnet ")) \/
     (exists pgw gerr err,
        (pgw = None \/ gerr <> None) /\
        tr = [CallGetSubnetPublicGateway get (pgw, gerr); CallDeleteSubnet delete err] /\
        fst (DeleteSubnet s w) = Done (errors_Wrap err "Error when deleting subnet "))).
Proof.
  intros s w subnetID get unset delete detaching Hid Hgw.
  unfold DeleteSubnet, detachPublicGateway, DeleteSubnet_delete. run.
  rewrite Hid. fold get unset delete.
  destruct (GetSubnetPublicGateway (VPCService s) get (remote w)) as [[pgw gerr] r1] eqn:Hget.
  destruct pgw as [gw|], gerr as [ge|]; simp.
  - (* a gateway and an error: treated as no gateway *)
    destruct (vpcv1.DeleteSubnet (VPCService s) delete r1) as [err r2]; simp.
    exists [CallGetSubnetPublicGateway get (Some gw, Some ge); CallDeleteSubnet delete err].
    split; [destruct err; cbn; now rewrite <- app_assoc|].
    do 3 right. exists (Some gw), (Some ge), err.
    split; [right; discriminate|]. split; [reflexivity|]. now destruct err.
  - (* a gateway found *)
    destruct (PublicGateway_ID gw) as [pgwID|] eqn:Hpgw;
      [|now destruct (Hgw _ _ _ eq_refl)].
    simp.
    destruct (UnsetSubnetPublicGateway (VPCService s) unset r1) as [[ue|] r2]; simp.
    + eexists; split; [now rewrite <- app_assoc|].
      left. exists gw, ue. split; reflexivity.
    + destruct (DeletePublicGateway (VPCService s) _ r2) as [[de|] r3]; simp.
      * eexists; split; [now repeat rewrite <- app_assoc|].
        right; left. exists gw, pgwID, de. split; [exact Hpgw|]. split; reflexivity.
      * destruct (vpcv1.DeleteSubnet (VPCService s) delete r3) as [err r4]; simp.
        exists [CallGetSubnetPublicGateway get (Some gw, None);
                CallUnsetSubnetPublicGateway unset None;
                CallDeletePublicGateway {| DeletePublicGatewayOptions_ID := Some pgwID |} None;
                CallDeleteSubnet delete err].
        split; [destruct err; cbn; now repeat rewrite <- app_assoc|].
        right; right; left. exists gw, pgwID, err.
        split; [exact Hpgw|]. split; [reflexivity|]. now destruct err.
  - destruct (vpcv1.DeleteSubnet (VPCService s) delete r1) as [err r2]; simp.
    exists [CallGetSubnetPublicGateway get (None, Some ge); CallDeleteSubnet delete err].
    split; [destruct err; cbn; now rewrite <- app_assoc|].
    do 3 right. exists None, (Some ge), err.
    split; [now left|]. split; [reflexivity|]. now destruct err.
  - destruct (vpcv1.DeleteSubnet (VPCService s) delete r1) as [err r2]; simp.
    exists [CallGetSubnetPublicGateway get (None, None); CallDeleteSubnet delete err].
    split; [destruct err; cbn; now rewrite <- app_assoc|].
    do 3 right. exists None, None, err.
    split; [now left|]. split; [reflexivity|]. now destruct err.
Qed.

(** C2, amended. In an invocation of [CreateSubnet] whose create call
    returned a subnet: when the gateway creation call fails, [CreateSubnet]
    returns that error together with the created subnet, and makes no attach
    call; only when gateway creation returns neither a gateway nor an error
    does [CreateSubnet] return the subnet with the outcome of the subnet
    creation alone. *)
Theorem C2_CreateSubnet_returns_gateway_failure : forall s w tr o sn cerr,
  transcript (snd (CreateSubnet s w)) = transcript w ++ tr ->
  In (CallCreateSubnet o (Some sn, cerr)) tr ->
  (forall go g e,
     In (CallCreatePublicGateway go (g, Some e)) tr ->
     fst (CreateSubnet s w) = Done (Some sn, Some e) /\
     (forall ao ar, ~ In (CallSetSubnetPublicGateway ao ar) tr)) /\
  (forall go,
     In (CallCreatePublicGateway go (None, None)) tr ->
     fst (CreateSubnet s w) = Done (Some sn, cerr)).
Proof.
  intros s w tr o sn cerr.
  unfold CreateSubnet, ensureSubnetUnique, getSubnetAddrPrefix,
    createPublicGateWay, attachPublicGateWay.
  run.
  repeat match goal with
         | |- context [match ?x with _ => _ end] =>
             lazymatch x with
             | context [match _ with _ => _ end] => fail
             | _ => destruct x eqn:?; simp
             end
         end;
    intros Htr;
    repeat rewrite <- app_assoc in Htr;
    first [apply app_inv_head in Htr | apply transcript_unchanged in Htr];
    subst tr; cbn [app In]; intros Hin;
    (split; [intros go g' e' Hgw | intros go Hgw]);
    repeat match goal with
           | H : _ \/ _ |- _ => destruct H
           | H : False |- _ => destruct H
           | H : _ = _ :> Call |- _ => first [discriminate H | injection H as ? ?; subst]
           | H : (_, _) = (_, _) |- _ => injection H as ? ?; subst
           | H : Some _ = Some _ |- _ => injection H as ?; subst
           | H : Some _ = None |- _ => discriminate H
           | H : None = Some _ |- _ => discriminate H
           end;
    try (split; [reflexivity|]; intros ao ar Hset; cbn [In] in Hset;
         repeat match goal with
                | H : _ \/ _ |- _ => destruct H
                | H : False |- _ => destruct H
                | H : _ = _ :> Call |- _ => discriminate H
                end);
    try reflexivity.
Qed.

End ClusterScopeFacts.

(** * Properties of the machine scope *)

Section MachineScans.
Import models PowerVSMachineScope.


Lemma ensureInstanceUnique_range_absent : forall l name,
  forallb (fun x => named_otherwise name (ServerName_of x)) l = true ->
  ensureInstanceUnique_range l name = Done (None, None).
Proof.
  induction l as [|x l IH]; intros name Hl; cbn.
  - reflexivity.
  - cbn in Hl. apply andb_true_iff in Hl as [Hx Hl].
    destruct x as [x|]; [|discriminate]. cbn in Hx.
    destruct (ServerName x) as [n|]; [|discriminate].
    apply negb_true_iff in Hx. rewrite Hx. now apply IH.
Qed.

(** A reference returned by the scan is a listed instance of the target
    name, and comes with no error. *)
Lemma ensureInstanceUnique_range_found : forall l name i e,
  ensureInstanceUnique_range l name = Done (Some i, e) ->
  In (Some i) l /\ ServerName i = Some name /\ e = None.
Proof.
  induction l as [|x l IH]; intros name i e H; cbn in H.
  - discriminate.
  - destruct x as [x|]; [|discriminate].
    destruct (ServerName x) as [n|] eqn:Hn; [|discriminate].
    destruct (String.eqb n name) eqn:Heq.
    + injection H as <- <-. apply String.eqb_eq in Heq. subst. auto with datatypes.
    + destruct (IH _ _ _ H) as (? & ? & ?). auto with datatypes.
Qed.

Lemma getImageID_range_absent : forall l name,
  forallb (fun x => named_otherwise name (ImageName_of x)) l = true ->
  getImageID_range l name = Done (None, Some (fmt_Errorf "failed to find an image ID")).
Proof.
  induction l as [|x l IH]; intros name Hl; cbn.
  - reflexivity.
  - cbn in Hl. apply andb_true_iff in Hl as [Hx Hl].
    destruct x as [x|]; [|discriminate]. cbn in Hx.
    destruct (ImageReference_Name x) as [n|]; [|discriminate].
    apply negb_true_iff in Hx. rewrite String.eqb_sym, Hx. now apply IH.
Qed.

Lemma getImageID_range_first : forall pre i post name imageID,
  forallb (fun x => named_otherwise name (ImageName_of x)) pre = true ->
  ImageReference_Name i = Some name ->
  ImageID i = Some imageID ->
  getImageID_range (pre ++ Some i :: post) name = Done (Some imageID, None).
Proof.
  induction pre as [|x pre IH]; intros i post name imageID Hpre Hi Hid; cbn.
  - rewrite Hi, String.eqb_refl, Hid. reflexivity.
  - cbn in Hpre. apply andb_true_iff in Hpre as [Hx Hpre].
    destruct x as [x|]; [|discriminate]. cbn in Hx.
    destruct (ImageReference_Name x) as [n|]; [|discriminate].
    apply negb_true_iff in Hx. rewrite String.eqb_sym, Hx. now apply IH.
Qed.

Lemma getNetworkID_range_absent : forall l name,
  forallb (fun x => named_otherwise name (NetworkName_of x)) l = true ->
  getNetworkID_range l name = Done (None, Some (fmt_Errorf "failed to find a network ID")).
Proof.
  induction l as [|x l IH]; intros name Hl; cbn.
  - reflexivity.
  - cbn in Hl. apply andb_true_iff in Hl as [Hx Hl].
    destruct x as [x|]; [|discriminate]. cbn in Hx.
    destruct (NetworkReference_Name x) as [n|]; [|discriminate].
    apply negb_true_iff in Hx. rewrite String.eqb_sym, Hx. now apply IH.
Qed.

Lemma getNetworkID_range_first : forall pre n post name networkID,
  forallb (fun x => named_otherwise name (NetworkName_of x)) pre = true ->
  NetworkReference_Name n = Some name ->
  NetworkReference_NetworkID n = Some networkID ->
  getNetworkID_range (pre ++ Some n :: post) name = Done (Some networkID, None).
Proof.
  induction pre as [|x pre IH]; intros n post name networkID Hpre Hn Hid; cbn.
  - rewrite Hn, String.eqb_refl, Hid. reflexivity.
  - cbn in Hpre. apply andb_true_iff in Hpre as [Hx Hpre].
    destruct x as [x|]; [|discriminate]. cbn in Hx.
    destruct (NetworkReference_Name x) as [k|]; [|discriminate].
    apply negb_true_iff in Hx. rewrite String.eqb_sym, Hx. now apply IH.
Qed.

End MachineScans.

Ltac break_match :=
  match goal with
  | |- context [match ?x with _ => _ end] =>
      lazymatch x with
      | context [match _ with _ => _ end] => fail
      | _ => destruct x eqn:?; simp
      end
  end.

Ltac clear_cases :=
  repeat match goal with
         | H : _ \/ _ |- _ => destruct H
         | H : False |- _ => destruct H
         | H : _ = _ :> powervs.Call |- _ => first [discriminate H | injection H as; subst]
         | H : (_, _) = (_, _) |- _ => injection H as; subst
         | H : Some _ = Some _ |- _ => injection H as; subst
         | H : Some _ = None |- _ => discriminate H
         | H : None = Some _ |- _ => discriminate H
         | H : Done _ = Done _ |- _ => injection H as; subst
         | H : Fault = Done _ |- _ => discriminate H
         end.

Section MachineScopeFacts.
Import models powervs PowerVSMachineScope.
Context {R : Type}.
Variable ParseFloat : string -> Z -> float64 * option error.
Variable EncodeToString : list byte -> string.
Variable TIMEOUT : Z.
Implicit Types (m : PowerVSMachineScope R) (w : World R Call).

(** C7. A reference that carries an ID resolves to that ID with no call.
    One that carries neither an ID nor a name is refused with no call.  One
    that carries a name only is resolved by listing: the identifier of the
    first listed entry of exactly that name is returned, and resolution
    fails with an error when every listed entry carries another name. *)
Theorem C7_reference_resolution : forall m w ref,
  let cloud := v1alpha4.ServiceInstanceID (v1alpha4.Spec (IBMPowerVSMachine m)) in
  let params := {| timeout := TIMEOUT; CloudInstanceID := cloud |} in
  (forall id,
     v1alpha4.ID ref = Some id ->
     getImageID ref m w = (Done (Some id, None), w) /\
     getNetworkID TIMEOUT ref m w = (Done (Some id, None), w)) /\
  (v1alpha4.ID ref = None ->
   v1alpha4.Name ref = None ->
   getImageID ref m w
     = (Done (None, Some (fmt_Errorf "both ID and Name can't be nil")), w) /\
   getNetworkID TIMEOUT ref m w
     = (Done (None, Some (fmt_Errorf "both ID and Name can't be nil")), w)) /\
  (forall name,
     v1alpha4.ID ref = None ->
     v1alpha4.Name ref = Some name ->
     (forall imgs r',
        ImageClient_GetAll (Clients_ m) cloud (remote w) = ((Some imgs, None), r') ->
        let w' := mkWorld r' (transcript w ++ [CallImageGetAll cloud (Some imgs, None)]) in
        (forallb (fun x => named_otherwise name (ImageName_of x)) (Images_ imgs) = true ->
         getImageID ref m w
           = (Done (None, Some (fmt_Errorf "failed to find an image ID")), w')) /\
        (forall pre i post imageID,
           Images_ imgs = pre ++ Some i :: post ->
           forallb (fun x => named_otherwise name (ImageName_of x)) pre = true ->
           ImageReference_Name i = Some name ->
           ImageID i = Some imageID ->
           getImageID ref m w = (Done (Some imageID, None), w'))) /\
     (forall resp nets r',
        PcloudNetworksGetall (Clients_ m) params cloud (remote w) = ((Some resp, None), r') ->
        Payload resp = Some nets ->
        let w' := mkWorld r' (transcript w ++
                    [CallPcloudNetworksGetall params cloud (Some resp, None)]) in
        (forallb (fun x => named_otherwise name (NetworkName_of x)) (Networks_ nets) = true ->
         getNetworkID TIMEOUT ref m w
           = (Done (None, Some (fmt_Errorf "failed to find a network ID")), w')) /\
        (forall pre n post networkID,
           Networks_ nets = pre ++ Some n :: post ->
           forallb (fun x => named_otherwise name (NetworkName_of x)) pre = true ->
           NetworkReference_Name n = Some name ->
           NetworkReference_NetworkID n = Some networkID ->
           getNetworkID TIMEOUT ref m w = (Done (Some networkID, None), w')))).
Proof.
  intros m w ref cloud params. split; [|split].
  - intros id Hid. unfold getImageID, getNetworkID. rewrite Hid. split; reflexivity.
  - intros Hid Hname. unfold getImageID, getNetworkID. rewrite Hid, Hname.
    split; reflexivity.
  - intros name Hid Hname. split.
    + intros imgs r' Hlist w'; subst w'.
      unfold getImageID, GetImages. rewrite Hid, Hname. run. fold cloud.
      rewrite Hlist. simp. split.
      * intros Hall. now rewrite (getImageID_range_absent _ _ Hall).
      * intros pre i post imageID -> Hpre Hi Himg.
        now rewrite (getImageID_range_first _ _ _ _ _ Hpre Hi Himg).
    + intros resp nets r' Hlist Hpay w'; subst w'.
      unfold getNetworkID, GetNetworks. rewrite Hid, Hname. run. fold cloud. fold params.
      rewrite Hlist. simp. rewrite Hpay. split.
      * intros Hall. now rewrite (getNetworkID_range_absent _ _ Hall).
      * intros pre n post networkID -> Hpre Hn Hnet.
        now rewrite (getNetworkID_range_first _ _ _ _ _ Hpre Hn Hnet).
Qed.

(** What [ensureInstanceUnique] does once the listing call has answered. *)
Lemma ensureInstanceUnique_listed : forall m name w insts r',
  let cloud := v1alpha4.ServiceInstanceID (v1alpha4.Spec (IBMPowerVSMachine m)) in
  InstanceClient_GetAll (Clients_ m) cloud (60 * time_Minute) (remote w)
    = ((Some insts, None), r') ->
  ensureInstanceUnique m name w =
  (ensureInstanceUnique_range (PvmInstances insts) name,
   mkWorld r' (transcript w ++
     [CallInstanceGetAll cloud (60 * time_Minute) (Some insts, None)])).
Proof.
  intros m name w insts r' cloud Hlist. unfold ensureInstanceUnique. run.
  fold cloud. rewrite Hlist. reflexivity.
Qed.

(** C10. An invocation of [CreateMachine] whose create call succeeded
    returns neither a reference nor an error; a reference is returned only
    for an instance of the machine's name found by the listing, which is then
    the only call of the invocation. *)
Theorem C10_CreateMachine_reference_only_when_found : forall m w,
  let run := CreateMachine ParseFloat EncodeToString TIMEOUT m w in
  let cloud := v1alpha4.ServiceInstanceID (v1alpha4.Spec (IBMPowerVSMachine m)) in
  (forall tr p id t rep,
     transcript (snd run) = transcript w ++ tr ->
     In (CallInstanceCreate p id t (rep, None)) tr ->
     fst run = Done (None, None)) /\
  (forall i e,
     fst run = Done (Some i, e) ->
     e = None /\
     ServerName i = Some (v1alpha4.IBMPowerVSMachine_Name (IBMPowerVSMachine m)) /\
     exists insts,
       transcript (snd run)
         = transcript w ++ [CallInstanceGetAll cloud (60 * time_Minute) (Some insts, None)] /\
       In (Some i) (PvmInstances insts)).
Proof.
  intros m w run0 cloud; subst run0. split.
  - intros tr p id t rep.
    unfold CreateMachine, ensureInstanceUnique, GetBootstrapData, getImageID, GetImages,
      getNetworkID, GetNetworks.
    run. repeat break_match; intros Htr;
      repeat rewrite <- app_assoc in Htr;
      first [apply app_inv_head in Htr | apply transcript_unchanged in Htr];
      subst tr; cbn [app In]; intros Hin; clear_cases; reflexivity.
  - intros i e.
    unfold CreateMachine, ensureInstanceUnique, GetBootstrapData, getImageID, GetImages,
      getNetworkID, GetNetworks.
    run. fold cloud. repeat break_match; intros Hres; clear_cases.
    match goal with
    | H : ensureInstanceUnique_range _ _ = Done (Some _, _) |- _ =>
        apply ensureInstanceUnique_range_found in H; destruct H as (Hin & Hname & _)
    end.
    split; [reflexivity|]. split; [exact Hname|]. eauto.
Qed.

(** C3, amended. When the listing shows no instance of the machine's name
    and the bootstrap secret is retrieved, a [Memory] or [Processors] that
    does not parse makes [CreateMachine] return the conversion error of that
    field; the listing of instances and the fetch of the secret are the calls
    made before it, and no image listing, network listing or create call
    follows.  When both fields parse, a create call carries the two parsed
    values as its [Memory] and [Processors]. *)
Theorem C3_CreateMachine_parse_failure_follows_scan :
  forall m w insts r1 secretName sec r2 value,
  let s := v1alpha4.Spec (IBMPowerVSMachine m) in
  let cloud := v1alpha4.ServiceInstanceID s in
  let key := {| types.Namespace := clusterv1.Namespace (Machine m);
                types.Name := secretName |} in
  let run := CreateMachine ParseFloat EncodeToString TIMEOUT m w in
  InstanceClient_GetAll (Clients_ m) cloud (60 * time_Minute) (remote w)
    = ((Some insts, None), r1) ->
  forallb (fun x => named_otherwise (v1alpha4.IBMPowerVSMachine_Name (IBMPowerVSMachine m))
                      (ServerName_of x)) (PvmInstances insts) = true ->
  clusterv1.DataSecretName (clusterv1.Bootstrap_ (clusterv1.Spec (Machine m)))
    = Some secretName ->
  client_Get (Clients_ m) key r1 = ((sec, None), r2) ->
  corev1.lookup (corev1.Data sec) "value" = Some value ->
  let w' := mkWorld r2 (transcript w ++
              [CallInstanceGetAll cloud (60 * time_Minute) (Some insts, None);
               CallClientGet key (sec, None)]) in
  (snd (ParseFloat (v1alpha4.Memory s) 64) <> None ->
   run = (Done (None, Some (fmt_Errorf
            ("failed to convert memory(" ++ v1alpha4.Memory s ++ ") to float64")%string)),
          w')) /\
  (snd (ParseFloat (v1alpha4.Memory s) 64) = None ->
   snd (ParseFloat (v1alpha4.Processors s) 64) <> None ->
   run = (Done (None, Some (fmt_Errorf
            ("failed to convert Processors(" ++ v1alpha4.Processors s
             ++ ") to float64")%string)),
          w')) /\
  (forall memory cores tr p id t rep,
     ParseFloat (v1alpha4.Memory s) 64 = (memory, None) ->
     ParseFloat (v1alpha4.Processors s) 64 = (cores, None) ->
     transcript (snd run) = transcript w ++ tr ->
     In (CallInstanceCreate p id t rep) tr ->
     exists body,
       Body p = Some body /\ Memory body = Some memory /\ Processors body = Some cores).
Proof.
  intros m w insts r1 secretName sec r2 value s cloud key run0 Hlist Hnone Hname Hget Hval w'.
  subst run0 w'. split; [|split].
  - intros Hmem. unfold CreateMachine. unfold bind at 1.
    rewrite (ensureInstanceUnique_listed _ _ _ _ _ Hlist).
    rewrite (ensureInstanceUnique_range_absent _ _ Hnone).
    unfold GetBootstrapData. rewrite Hname. run. fold key. rewrite Hget. simp.
    rewrite Hval. fold s.
    destruct (ParseFloat (v1alpha4.Memory s) 64) as [mem [e|]]; [|now destruct Hmem].
    now rewrite <- app_assoc.
  - intros Hmem Hcores. unfold CreateMachine. unfold bind at 1.
    rewrite (ensureInstanceUnique_listed _ _ _ _ _ Hlist).
    rewrite (ensureInstanceUnique_range_absent _ _ Hnone).
    unfold GetBootstrapData. rewrite Hname. run. fold key. rewrite Hget. simp.
    rewrite Hval. fold s.
    destruct (ParseFloat (v1alpha4.Memory s) 64) as [mem [e|]]; [discriminate Hmem|].
    destruct (ParseFloat (v1alpha4.Processors s) 64) as [cores [e|]]; [|now destruct Hcores].
    now rewrite <- app_assoc.
  - intros memory cores tr p id t rep Hmem Hcores.
    unfold CreateMachine, ensureInstanceUnique, GetBootstrapData, getImageID, GetImages,
      getNetworkID, GetNetworks, CreateMachine_params.
    run. fold s. rewrite Hmem, Hcores.
    repeat break_match; intros Htr;
      repeat rewrite <- app_assoc in Htr;
      first [apply app_inv_head in Htr | apply transcript_unchanged in Htr];
      subst tr; cbn [app In]; intros Hin; clear_cases;
      eexists; repeat split.
Qed.





End MachineScopeFacts.


(** * Concrete runs *)

Example ParseFloat_8 : FakePowerVS.ParseFloat "8" 64 = (8%float, None).
Proof. reflexivity. Qed.

Example ParseFloat_quarter : FakePowerVS.ParseFloat "0.25" 64 = (0.25%float, None).
Proof. reflexivity. Qed.

Example ParseFloat_abc :
  FakePowerVS.ParseFloat "abc" 64
  = (0%float,
     Some (errors_New ("strconv.ParseFloat: parsing " ++ String "034" "abc"
                       ++ String "034" ": invalid syntax")%string)).
Proof. reflexivity. Qed.

Example EncodeToString_hello :
  FakePowerVS.EncodeToString [x68; x65; x6c; x6c; x6f] = "aGVsbG8=".
Proof. reflexivity. Qed.

Example EncodeToString_Man : FakePowerVS.EncodeToString [x4d; x61; x6e] = "TWFu".
Proof. reflexivity. Qed.

Example Error_of_wrapped :
  Error (errors_Wrapped (errors_New "timeout") "Error when deleting subnet ")
  = "Error when deleting subnet : timeout".
Proof. reflexivity. Qed.



Lemma C8_scan_witness :
  ClusterScope.ensureVPCUnique (FakeVPC.scope None None) "demo-vpc"
    (FakeVPC.world FakeVPC.crowded)
  = (Done (Some (FakeVPC.vpc "r006-b" "demo-vpc"), None),
     mkWorld FakeVPC.crowded
       [vpcv1.CallListVpcs vpcv1.Build_ListVpcsOptions
          (Some {| vpcv1.Vpcs := FakeVPC.vpcs FakeVPC.crowded |}, None)]) /\
  ClusterScope.ensureVPCUnique (FakeVPC.scope None None) "DEMO-VPC"
    (FakeVPC.world FakeVPC.crowded)
  = (Done (None, None),
     mkWorld FakeVPC.crowded
       [vpcv1.CallListVpcs vpcv1.Build_ListVpcsOptions
          (Some {| vpcv1.Vpcs := FakeVPC.vpcs FakeVPC.crowded |}, None)]) /\
  ClusterScope.ensureFIPUnique (FakeVPC.scope None None) "demo-control-plane"
    (FakeVPC.world FakeVPC.crowded)
  = (Done (Some (FakeVPC.fip "fip-b" "demo-control-plane"), None),
     mkWorld FakeVPC.crowded
       [vpcv1.CallListFloatingIps vpcv1.Build_ListFloatingIpsOptions
          (Some {| vpcv1.FloatingIps := FakeVPC.fips FakeVPC.crowded |}, None)]) /\
  ClusterScope.ensureFIPUnique (FakeVPC.scope None None) "demo"
    (FakeVPC.world FakeVPC.crowded)
  = (Done (None, None),
     mkWorld FakeVPC.crowded
       [vpcv1.CallListFloatingIps vpcv1.Build_ListFloatingIpsOptions
          (Some {| vpcv1.FloatingIps := FakeVPC.fips FakeVPC.crowded |}, None)]).
Proof.
  pose proof (C8_scan_returns_first_match_or_absent (FakeVPC.scope None None) "demo-vpc"
                (FakeVPC.world FakeVPC.crowded)) as [HV _].
  pose proof (C8_scan_returns_first_match_or_absent (FakeVPC.scope None None) "DEMO-VPC"
                (FakeVPC.world FakeVPC.crowded)) as [HV' _].
  pose proof (C8_scan_returns_first_match_or_absent (FakeVPC.scope None None)
                "demo-control-plane" (FakeVPC.world FakeVPC.crowded)) as [_ HF].
  pose proof (C8_scan_returns_first_match_or_absent (FakeVPC.scope None None) "demo"
                (FakeVPC.world FakeVPC.crowded)) as [_ HF'].
  split; [|split; [|split]].
  - exact (proj1 (HV _ _ eq_refl) [FakeVPC.vpc "r006-a" "Demo-VPC"] _
             [FakeVPC.vpc "r006-c" "demo-vpc"] eq_refl eq_refl eq_refl).
  - exact (proj2 (HV' _ _ eq_refl) eq_refl).
  - exact (proj1 (HF _ _ eq_refl) [FakeVPC.fip "fip-a" "Demo-control-plane"] _
             [FakeVPC.fip "fip-c" "demo-control-plane"] eq_refl eq_refl eq_refl).
  - exact (proj2 (HF' _ _ eq_refl) eq_refl).
Defined.

Lemma C6_DeleteFloatingIP_witness :
  ClusterScope.DeleteFloatingIP (FakeVPC.scope (Some "") None) (FakeVPC.world FakeVPC.crowded)
  = (Done None, FakeVPC.world FakeVPC.crowded) /\
  ClusterScope.DeleteFloatingIP (FakeVPC.scope (Some "fip-b") None)
    (FakeVPC.world FakeVPC.crowded)
  = (Done None,
     mkWorld (FakeVPC.with_fips [FakeVPC.fip "fip-a" "Demo-control-plane";
                                 FakeVPC.fip "fip-c" "demo-control-plane"] FakeVPC.crowded)
       [vpcv1.CallDeleteFloatingIP {| vpcv1.DeleteFloatingIPOptions_ID := Some "fip-b" |}
          None]).
Proof.
  split.
  - exact (proj1 (C6_DeleteFloatingIP_by_recorded_id (FakeVPC.scope (Some "") None)
                    (FakeVPC.world FakeVPC.crowded) "" eq_refl) eq_refl).
  - refine (proj2 (C6_DeleteFloatingIP_by_recorded_id (FakeVPC.scope (Some "fip-b") None)
                     (FakeVPC.world FakeVPC.crowded) "fip-b" eq_refl) _).
    discriminate.
Defined.

Lemma C9_DeleteFloatingIP_witness :
  ClusterScope.DeleteFloatingIP (FakeVPC.scope None None) (FakeVPC.world FakeVPC.crowded)
  = (Fault, FakeVPC.world FakeVPC.crowded) /\
  ClusterScope.DeleteFloatingIP (FakeVPC.scope (Some "") None) (FakeVPC.world FakeVPC.crowded)
  = (Done None, FakeVPC.world FakeVPC.crowded).
Proof.
  split.
  - exact (proj1 (C9_DeleteFloatingIP_dereferences_FIPID (FakeVPC.scope None None)
                    (FakeVPC.world FakeVPC.crowded)) eq_refl).
  - exact (proj2 (proj2 (C9_DeleteFloatingIP_dereferences_FIPID
                           (FakeVPC.scope (Some "") None)
                           (FakeVPC.world FakeVPC.crowded))) eq_refl).
Defined.

(** The subnet is created, the gateway creation is refused, and
    [CreateSubnet] returns the refusal next to the subnet. *)
Lemma C2_counterexample :
  ClusterScope.CreateSubnet (FakeVPC.scope None None) (FakeVPC.world FakeVPC.gateway_quota)
  = (Done (Some (FakeVPC.new_subnet "demo-subnet" "10.240.0.0/18"),
           Some (errors_New "quota exceeded")),
     mkWorld
       (FakeVPC.with_subnets [FakeVPC.new_subnet "demo-subnet" "10.240.0.0/18"]
          FakeVPC.gateway_quota)
       [vpcv1.CallListSubnets vpcv1.Build_ListSubnetsOptions
          (Some {| vpcv1.Subnets := [] |}, None);
        vpcv1.CallListVPCAddressPrefixes {| vpcv1.VPCID := Some "r006-demo-vpc" |}
          (Some {| vpcv1.AddressPrefixes :=
                     [FakeVPC.prefix "us-south-1" "10.240.0.0/18"] |}, None);
        vpcv1.CallCreateSubnet FakeVPC.subnet_request
          (Some (FakeVPC.new_subnet "demo-subnet" "10.240.0.0/18"), None);
        vpcv1.CallCreatePublicGateway FakeVPC.gateway_request
          (None, Some (errors_New "quota exceeded"))]).
Proof. reflexivity. Qed.

Lemma C2_CreateSubnet_witness :
  fst (ClusterScope.CreateSubnet (FakeVPC.scope None None)
         (FakeVPC.world FakeVPC.gateway_quota))
  = Done (Some (FakeVPC.new_subnet "demo-subnet" "10.240.0.0/18"),
          Some (errors_New "quota exceeded")) /\
  fst (ClusterScope.CreateSubnet FakeVPC.no_gateway_scope (FakeVPC.world FakeVPC.ready))
  = Done (Some (FakeVPC.new_subnet "demo-subnet" "10.240.0.0/18"), None).
Proof.
  split.
  - assert (Hsubnet :
      In (vpcv1.CallCreateSubnet FakeVPC.subnet_request
            (Some (FakeVPC.new_subnet "demo-subnet" "10.240.0.0/18"), None))
         (transcript (snd (ClusterScope.CreateSubnet (FakeVPC.scope None None)
                             (FakeVPC.world FakeVPC.gateway_quota)))))
      by (cbv; do 2 right; left; reflexivity).
    assert (Hgateway :
      In (vpcv1.CallCreatePublicGateway FakeVPC.gateway_request
            (None, Some (errors_New "quota exceeded")))
         (transcript (snd (ClusterScope.CreateSubnet (FakeVPC.scope None None)
                             (FakeVPC.world FakeVPC.gateway_quota)))))
      by (cbv; do 3 right; left; reflexivity).
    exact (proj1 (proj1 (C2_CreateSubnet_returns_gateway_failure (FakeVPC.scope None None)
                           (FakeVPC.world FakeVPC.gateway_quota) _ _ _ _ eq_refl Hsubnet)
                    _ _ _ Hgateway)).
  - assert (Hsubnet :
      In (vpcv1.CallCreateSubnet FakeVPC.subnet_request
            (Some (FakeVPC.new_subnet "demo-subnet" "10.240.0.0/18"), None))
         (transcript (snd (ClusterScope.CreateSubnet FakeVPC.no_gateway_scope
                             (FakeVPC.world FakeVPC.ready)))))
      by (cbv; do 2 right; left; reflexivity).
    assert (Hgateway :
      In (vpcv1.CallCreatePublicGateway FakeVPC.gateway_request (None, None))
         (transcript (snd (ClusterScope.CreateSubnet FakeVPC.no_gateway_scope
                             (FakeVPC.world FakeVPC.ready)))))
      by (cbv; do 3 right; left; reflexivity).
    exact (proj2 (C2_CreateSubnet_returns_gateway_failure FakeVPC.no_gateway_scope
                    (FakeVPC.world FakeVPC.ready) _ _ _ _ eq_refl Hsubnet)
             _ Hgateway).
Defined.

(** With [Memory] set to [abc]: the instance listing and the secret fetch
    are made before the conversion error is returned; and when an instance of
    the machine's name is listed, it is returned and no error is. *)
Lemma C3_counterexample :
  snd (FakePowerVS.ParseFloat "abc" 64) <> None /\
  FakePowerVS.CreateMachine (FakePowerVS.scope "abc" "0.25")
    (FakePowerVS.world (FakePowerVS.remote_with []))
  = (Done (None, Some (errors_New "failed to convert memory(abc) to float64")),
     mkWorld (FakePowerVS.remote_with [])
       [powervs.CallInstanceGetAll "svc-1" (60 * time_Minute)
          (Some {| models.PvmInstances := [] |}, None);
        powervs.CallClientGet
          {| types.Namespace := "default"; types.Name := "demo-0-bootstrap" |}
          (FakePowerVS.bootstrap_secret, None)]) /\
  fst (FakePowerVS.CreateMachine (FakePowerVS.scope "abc" "0.25")
         (FakePowerVS.world
            (FakePowerVS.remote_with [Some (FakePowerVS.new_instance (Some "demo-0"))])))
  = Done (Some (FakePowerVS.new_instance (Some "demo-0")), None).
Proof.
  split; [discriminate|]. split; reflexivity.
Qed.

Lemma C3_CreateMachine_witness :
  fst (FakePowerVS.CreateMachine (FakePowerVS.scope "abc" "0.25")
         (FakePowerVS.world (FakePowerVS.remote_with [])))
  = Done (None, Some (errors_New "failed to convert memory(abc) to float64")) /\
  fst (FakePowerVS.CreateMachine (FakePowerVS.scope "8" "a quarter")
         (FakePowerVS.world (FakePowerVS.remote_with [])))
  = Done (None, Some (errors_New "failed to convert Processors(a quarter) to float64")) /\
  (forall p id t rep,
     In (powervs.CallInstanceCreate p id t rep)
        (transcript (snd (FakePowerVS.CreateMachine (FakePowerVS.scope "8" "0.25")
                            (FakePowerVS.world (FakePowerVS.remote_with []))))) ->
     exists body,
       powervs.Body p = Some body /\
       models.Memory body = Some 8%float /\ models.Processors body = Some 0.25%float).
Proof.
  split; [|split].
  - refine (f_equal fst
      (proj1 (C3_CreateMachine_parse_failure_follows_scan
                FakePowerVS.ParseFloat FakePowerVS.EncodeToString FakePowerVS.TIMEOUT
                (FakePowerVS.scope "abc" "0.25")
                (FakePowerVS.world (FakePowerVS.remote_with []))
                _ _ _ _ _ _ eq_refl eq_refl eq_refl eq_refl eq_refl) _)).
    discriminate.
  - refine (f_equal fst
      (proj1 (proj2 (C3_CreateMachine_parse_failure_follows_scan
                FakePowerVS.ParseFloat FakePowerVS.EncodeToString FakePowerVS.TIMEOUT
                (FakePowerVS.scope "8" "a quarter")
                (FakePowerVS.world (FakePowerVS.remote_with []))
                _ _ _ _ _ _ eq_refl eq_refl eq_refl eq_refl eq_refl)) eq_refl _)).
    discriminate.
  - intros p id t rep Hin.
    exact (proj2 (proj2 (C3_CreateMachine_parse_failure_follows_scan
                FakePowerVS.ParseFloat FakePowerVS.EncodeToString FakePowerVS.TIMEOUT
                (FakePowerVS.scope "8" "0.25")
                (FakePowerVS.world (FakePowerVS.remote_with []))
                _ _ _ _ _ _ eq_refl eq_refl eq_refl eq_refl eq_refl))
             8%float 0.25%float _ p id t rep eq_refl eq_refl eq_refl Hin).
Defined.

Lemma C4_DeleteSubnet_witness :
  fst (ClusterScope.DeleteSubnet (FakeVPC.scope None (Some "subnet-demo-subnet"))
         (FakeVPC.world FakeVPC.attached)) = Done None /\
  transcript (snd (ClusterScope.DeleteSubnet (FakeVPC.scope None (Some "subnet-demo-subnet"))
                     (FakeVPC.world FakeVPC.attached)))
  = [vpcv1.CallGetSubnetPublicGateway
       {| vpcv1.GetSubnetPublicGatewayOptions_ID := Some "subnet-demo-subnet" |}
       (Some FakeVPC.new_gateway, None);
     vpcv1.CallUnsetSubnetPublicGateway
       {| vpcv1.UnsetSubnetPublicGatewayOptions_ID := Some "subnet-demo-subnet" |} None;
     vpcv1.CallDeletePublicGateway
       {| vpcv1.DeletePublicGatewayOptions_ID := Some "pgw-1" |} None;
     vpcv1.CallDeleteSubnet
       {| vpcv1.DeleteSubnetOptions_ID := Some "subnet-demo-subnet" |} None].
Proof.
  assert (Hgw : forall gw e r,
    vpcv1.GetSubnetPublicGateway
      (ClusterScope.VPCService (FakeVPC.scope None (Some "subnet-demo-subnet")))
      {| vpcv1.GetSubnetPublicGatewayOptions_ID := Some "subnet-demo-subnet" |}
      (remote (FakeVPC.world FakeVPC.attached)) = ((Some gw, e), r) ->
    vpcv1.PublicGateway_ID gw <> None).
  { intros gw e r H. cbv in H. injection H as <- _ _. discriminate. }
  destruct (C4_DeleteSubnet_order (FakeVPC.scope None (Some "subnet-demo-subnet"))
              (FakeVPC.world FakeVPC.attached) "subnet-demo-subnet" eq_refl Hgw)
    as (tr & Htr & Hcases).
  assert (Hlen : length tr = 4) by exact (eq_sym (f_equal (@length _) Htr)).
  destruct Hcases as [(gw & e & -> & _) | [(gw & pgwID & e & _ & -> & _) |
                     [(gw & pgwID & err & Hid & -> & Hres) | (pgw & gerr & err & _ & -> & _)]]];
    try discriminate Hlen.
  cbv in Htr.
  injection Htr as <- <- <-.
  split; [exact Hres | reflexivity].
Defined.


Lemma C7_resolution_witness :
  PowerVSMachineScope.getImageID (FakePowerVS.by_id "img-1") (FakePowerVS.scope "8" "0.25")
    (FakePowerVS.world (FakePowerVS.remote_with []))
  = (Done (Some "img-1", None), FakePowerVS.world (FakePowerVS.remote_with [])) /\
  PowerVSMachineScope.getNetworkID FakePowerVS.TIMEOUT
    {| v1alpha4.ID := None; v1alpha4.Name := None |} (FakePowerVS.scope "8" "0.25")
    (FakePowerVS.world (FakePowerVS.remote_with []))
  = (Done (None, Some (errors_New "both ID and Name can't be nil")),
     FakePowerVS.world (FakePowerVS.remote_with [])) /\
  PowerVSMachineScope.getImageID (FakePowerVS.by_name "ubuntu-20.04")
    (FakePowerVS.scope "8" "0.25") (FakePowerVS.world (FakePowerVS.remote_with []))
  = (Done (Some "img-42", None),
     mkWorld (FakePowerVS.remote_with [])
       [powervs.CallImageGetAll "svc-1"
          (Some {| models.Images_ := [Some FakePowerVS.ubuntu] |}, None)]) /\
  PowerVSMachineScope.getImageID (FakePowerVS.by_name "Ubuntu-20.04")
    (FakePowerVS.scope "8" "0.25") (FakePowerVS.world (FakePowerVS.remote_with []))
  = (Done (None, Some (errors_New "failed to find an image ID")),
     mkWorld (FakePowerVS.remote_with [])
       [powervs.CallImageGetAll "svc-1"
          (Some {| models.Images_ := [Some FakePowerVS.ubuntu] |}, None)]) /\
  PowerVSMachineScope.getNetworkID FakePowerVS.TIMEOUT (FakePowerVS.by_name "capi-net")
    (FakePowerVS.scope "8" "0.25") (FakePowerVS.world (FakePowerVS.remote_with []))
  = (Done (Some "net-7", None),
     mkWorld (FakePowerVS.remote_with [])
       [powervs.CallPcloudNetworksGetall
          {| powervs.timeout := FakePowerVS.TIMEOUT; powervs.CloudInstanceID := "svc-1" |}
          "svc-1"
          (Some {| powervs.Payload :=
                     Some {| models.Networks_ := [Some FakePowerVS.capi_net] |} |}, None)]) /\
  PowerVSMachineScope.getNetworkID FakePowerVS.TIMEOUT (FakePowerVS.by_name "other-net")
    (FakePowerVS.scope "8" "0.25") (FakePowerVS.world (FakePowerVS.remote_with []))
  = (Done (None, Some (errors_New "failed to find a network ID")),
     mkWorld (FakePowerVS.remote_with [])
       [powervs.CallPcloudNetworksGetall
          {| powervs.timeout := FakePowerVS.TIMEOUT; powervs.CloudInstanceID := "svc-1" |}
          "svc-1"
          (Some {| powervs.Payload :=
                     Some {| models.Networks_ := [Some FakePowerVS.capi_net] |} |}, None)]).
Proof.
  pose (m := FakePowerVS.scope "8" "0.25").
  pose (w := FakePowerVS.world (FakePowerVS.remote_with [])).
  split; [|split; [|split; [|split; [|split]]]].
  - exact (proj1 (proj1 (C7_reference_resolution FakePowerVS.TIMEOUT m w
                           (FakePowerVS.by_id "img-1")) "img-1" eq_refl)).
  - exact (proj2 (proj1 (proj2 (C7_reference_resolution FakePowerVS.TIMEOUT m w
                                  {| v1alpha4.ID := None; v1alpha4.Name := None |}))
                    eq_refl eq_refl)).
  - exact (proj2 (proj1 (proj2 (proj2 (C7_reference_resolution FakePowerVS.TIMEOUT m w
                                         (FakePowerVS.by_name "ubuntu-20.04")))
                           "ubuntu-20.04" eq_refl eq_refl) _ _ eq_refl)
             [] FakePowerVS.ubuntu [] "img-42" eq_refl eq_refl eq_refl eq_refl).
  - exact (proj1 (proj1 (proj2 (proj2 (C7_reference_resolution FakePowerVS.TIMEOUT m w
                                         (FakePowerVS.by_name "Ubuntu-20.04")))
                           "Ubuntu-20.04" eq_refl eq_refl) _ _ eq_refl)
             eq_refl).
  - exact (proj2 (proj2 (proj2 (proj2 (C7_reference_resolution FakePowerVS.TIMEOUT m w
                                         (FakePowerVS.by_name "capi-net")))
                           "capi-net" eq_refl eq_refl) _ _ _ eq_refl eq_refl)
             [] FakePowerVS.capi_net [] "net-7" eq_refl eq_refl eq_refl eq_refl).
  - exact (proj1 (proj2 (proj2 (proj2 (C7_reference_resolution FakePowerVS.TIMEOUT m w
                                         (FakePowerVS.by_name "other-net")))
                           "other-net" eq_refl eq_refl) _ _ _ eq_refl eq_refl)
             eq_refl).
Defined.

Lemma C10_CreateMachine_witness :
  fst (FakePowerVS.CreateMachine (FakePowerVS.scope "8" "0.25")
         (FakePowerVS.world (FakePowerVS.remote_with [])))
  = Done (None, None) /\
  FakePowerVS.instances
    (remote (snd (FakePowerVS.CreateMachine (FakePowerVS.scope "8" "0.25")
                    (FakePowerVS.world (FakePowerVS.remote_with [])))))
  = [Some (FakePowerVS.new_instance (Some "demo-0"))] /\
  models.ServerName (FakePowerVS.new_instance (Some "demo-0")) = Some "demo-0".
Proof.
  pose (m := FakePowerVS.scope "8" "0.25").
  split; [|split; [reflexivity|]].
  - assert (Hin :
      In (powervs.CallInstanceCreate
            (PowerVSMachineScope.CreateMachine_params m (Some "img-42") (Some "net-7")
               8%float 0.25%float "aGVsbG8=")
            "svc-1" time_Hour
            (Some [Some {| models.PVMInstance_PvmInstanceID := Some "pvm-1" |}], None))
         (transcript (snd (FakePowerVS.CreateMachine m
                             (FakePowerVS.world (FakePowerVS.remote_with []))))))
      by (cbv; do 4 right; left; reflexivity).
    exact (proj1 (C10_CreateMachine_reference_only_when_found
                    FakePowerVS.ParseFloat FakePowerVS.EncodeToString FakePowerVS.TIMEOUT
                    m (FakePowerVS.world (FakePowerVS.remote_with [])))
             _ _ _ _ _ eq_refl Hin).
  - exact (proj1 (proj2 (proj2 (C10_CreateMachine_reference_only_when_found
                    FakePowerVS.ParseFloat FakePowerVS.EncodeToString FakePowerVS.TIMEOUT
                    m (FakePowerVS.world
                         (FakePowerVS.remote_with
                            [Some (FakePowerVS.new_instance (Some "demo-0"))])))
                   (FakePowerVS.new_instance (Some "demo-0")) None eq_refl))).
Defined.

(** * Further properties of the cluster scope *)

Ltac vpc_cases :=
  repeat match goal with
         | H : _ \/ _ |- _ => destruct H
         | H : False |- _ => destruct H
         | H : _ = _ :> vpcv1.Call |- _ => first [discriminate H | injection H as; subst]
         | H : (_, _) = (_, _) |- _ => injection H as; subst
         | H : Some _ = Some _ |- _ => injection H as; subst
         | H : Some _ = None |- _ => discriminate H
         | H : None = Some _ |- _ => discriminate H
         | H : Done _ = Done _ |- _ => injection H as; subst
         | H : Fault = Done _ |- _ => discriminate H
         | H : Done _ = Fault |- _ => discriminate H
         end.

Section ClusterScopeMore.
Import vpcv1 ClusterScope.
Context {R : Type}.
Implicit Types (s : ClusterScope R) (w : World R Call) (name : string).

Lemma ensureSubnetUnique_range_first : forall pre v post name,
  forallb (fun x => named_otherwise name (Subnet_Name x)) pre = true ->
  Subnet_Name v = Some name ->
  ensureSubnetUnique_range (pre ++ v :: post) name = Done (Some v, None).
Proof.
  induction pre as [|x pre IH]; intros v post name Hpre Hv; cbn.
  - rewrite Hv, String.eqb_refl. reflexivity.
  - cbn in Hpre. apply andb_true_iff in Hpre as [Hx Hpre].
    unfold named_otherwise in Hx.
    destruct (Subnet_Name x) as [n|]; [|discriminate].
    apply negb_true_iff in Hx. rewrite Hx. now apply IH.
Qed.

Lemma ensureSubnetUnique_range_absent : forall l name,
  forallb (fun x => named_otherwise name (Subnet_Name x)) l = true ->
  ensureSubnetUnique_range l name = Done (None, None).
Proof.
  induction l as [|x l IH]; intros name Hl; cbn.
  - reflexivity.
  - cbn in Hl. apply andb_true_iff in Hl as [Hx Hl].
    unfold named_otherwise in Hx.
    destruct (Subnet_Name x) as [n|]; [|discriminate].
    apply negb_true_iff in Hx. rewrite Hx. now apply IH.
Qed.

Lemma getSubnetAddrPrefix_range_first : forall pre p post vpcID zone cidr,
  forallb (fun x => named_otherwise zone (ZoneName_of x)) pre = true ->
  ZoneName_of p = Some zone ->
  AddressPrefix_CIDR p = Some cidr ->
  getSubnetAddrPrefix_range (pre ++ p :: post) vpcID zone = Done (cidr, None).
Proof.
  induction pre as [|x pre IH]; intros p post vpcID zone cidr Hpre Hp Hcidr; cbn.
  - unfold ZoneName_of in Hp. destruct (AddressPrefix_Zone p) as [z|]; [|discriminate].
    rewrite Hp, String.eqb_refl, Hcidr. reflexivity.
  - cbn in Hpre. apply andb_true_iff in Hpre as [Hx Hpre].
    unfold named_otherwise, ZoneName_of in Hx.
    destruct (AddressPrefix_Zone x) as [z|]; [|discriminate].
    destruct (ZoneReference_Name z) as [n|]; [|discriminate].
    apply negb_true_iff in Hx. rewrite Hx. now apply IH.
Qed.

Lemma getSubnetAddrPrefix_range_absent : forall l vpcID zone,
  forallb (fun x => named_otherwise zone (ZoneName_of x)) l = true ->
  getSubnetAddrPrefix_range l vpcID zone
  = Done ("", Some (fmt_Errorf
                      ("not found a valid CIDR for VPC " ++ vpcID ++ " in zone " ++ zone)%string)).
Proof.
  induction l as [|x l IH]; intros vpcID zone Hl; cbn.
  - reflexivity.
  - cbn in Hl. apply andb_true_iff in Hl as [Hx Hl].
    unfold named_otherwise, ZoneName_of in Hx.
    destruct (AddressPrefix_Zone x) as [z|]; [|discriminate].
    destruct (ZoneReference_Name z) as [n|]; [|discriminate].
    apply negb_true_iff in Hx. rewrite Hx. now apply IH.
Qed.

Lemma ensureSubnetUnique_listed : forall s name w coll r',
  ListSubnets (VPCService s) Build_ListSubnetsOptions (remote w) = ((Some coll, None), r') ->
  ensureSubnetUnique s name w =
  (ensureSubnetUnique_range (Subnets coll) name,
   mkWorld r' (transcript w ++ [CallListSubnets Build_ListSubnetsOptions (Some coll, None)])).
Proof.
  intros s name w coll r' Hlist. unfold ensureSubnetUnique. run.
  rewrite Hlist. reflexivity.
Qed.

(** X1. [ReserveFIP] looks for a floating IP named after the cluster,
    [<name>-control-plane]: the first listed one of that name is returned
    after the listing alone; when every listed one carries another name, one
    create call follows, for that name in the resource group and zone of the
    cluster, and its reply is returned as it is. *)
Theorem ReserveFIP_adopts_or_creates : forall s w coll r1,
  let cluster := IBMVPCCluster s in
  let fipName := (infrav1.Name cluster ++ "-control-plane")%string in
  let listed := CallListFloatingIps Build_ListFloatingIpsOptions (Some coll, None) in
  let options := {|
    FloatingIPPrototype_ := Some {|
      FloatingIPPrototype_Name := Some fipName;
      FloatingIPPrototype_ResourceGroup := Some {|
        ResourceGroupIdentity_ID :=
          Some (infrav1.Spec_ResourceGroup (infrav1.Spec cluster)) |};
      FloatingIPPrototype_Zone := Some {|
        ZoneIdentity_Name := Some (infrav1.Spec_Zone (infrav1.Spec cluster)) |} |} |} in
  ListFloatingIps (VPCService s) Build_ListFloatingIpsOptions (remote w)
    = ((Some coll, None), r1) ->
  (forall pre f post,
     FloatingIps coll = pre ++ f :: post ->
     forallb (fun x => named_otherwise fipName (FloatingIP_Name x)) pre = true ->
     FloatingIP_Name f = Some fipName ->
     ReserveFIP s w = (Done (Some f, None), mkWorld r1 (transcript w ++ [listed]))) /\
  (forallb (fun x => named_otherwise fipName (FloatingIP_Name x)) (FloatingIps coll) = true ->
   ReserveFIP s w =
   (Done (fst (CreateFloatingIP (VPCService s) options r1)),
    mkWorld (snd (CreateFloatingIP (VPCService s) options r1))
      (transcript w ++
         [listed;
          CallCreateFloatingIP options (fst (CreateFloatingIP (VPCService s) options r1))]))).
Proof.
  intros s w coll r1 cluster fipName listed options Hlist. split.
  - intros pre f post Hl Hpre Hf. unfold ReserveFIP. unfold bind at 1.
    rewrite (ensureFIPUnique_listed _ _ _ _ _ Hlist). fold cluster fipName.
    rewrite Hl, (ensureFIPUnique_range_first _ _ _ _ Hpre Hf). reflexivity.
  - intros Hall. unfold ReserveFIP. unfold bind at 1.
    rewrite (ensureFIPUnique_listed _ _ _ _ _ Hlist). fold cluster fipName.
    rewrite (ensureFIPUnique_range_absent _ _ Hall). run. fold cluster fipName options.
    destruct (CreateFloatingIP (VPCService s) options r1) as [reply r2]. simp.
    subst listed. now rewrite <- app_assoc.
Qed.

(** X2. A listing that fails stops the create operations of the cluster
    scope: [CreateVPC], [ReserveFIP] and [CreateSubnet] return the error of
    the listing as it is, with no resource, and make no other call. *)
Theorem cluster_listing_error_is_returned : forall s w,
  (forall x e r1,
     ListVpcs (VPCService s) Build_ListVpcsOptions (remote w) = ((x, Some e), r1) ->
     CreateVPC s w =
     (Done (None, Some e),
      mkWorld r1 (transcript w ++ [CallListVpcs Build_ListVpcsOptions (x, Some e)]))) /\
  (forall x e r1,
     ListFloatingIps (VPCService s) Build_ListFloatingIpsOptions (remote w)
       = ((x, Some e), r1) ->
     ReserveFIP s w =
     (Done (None, Some e),
      mkWorld r1 (transcript w ++
        [CallListFloatingIps Build_ListFloatingIpsOptions (x, Some e)]))) /\
  (forall x e r1,
     ListSubnets (VPCService s) Build_ListSubnetsOptions (remote w) = ((x, Some e), r1) ->
     CreateSubnet s w =
     (Done (None, Some e),
      mkWorld r1 (transcript w ++ [CallListSubnets Build_ListSubnetsOptions (x, Some e)]))).
Proof.
  intros s w. split; [|split]; intros x e r1 Hlist.
  - unfold CreateVPC, ensureVPCUnique. run. now rewrite Hlist.
  - unfold ReserveFIP, ensureFIPUnique. run. now rewrite Hlist.
  - unfold CreateSubnet, ensureSubnetUnique. run. now rewrite Hlist.
Qed.

(** X3. [CreateSubnet] adopts a listed subnet named [<name>-subnet]: the
    first one of that name is returned with no error after the listing
    alone, so without looking up an address prefix or creating anything. *)
Theorem CreateSubnet_adopts_listed : forall s w coll r1,
  let subnetName := (infrav1.Name (IBMVPCCluster s) ++ "-subnet")%string in
  ListSubnets (VPCService s) Build_ListSubnetsOptions (remote w) = ((Some coll, None), r1) ->
  forallb (fun x => named (Subnet_Name x)) (Subnets coll) = true ->
  existsb (fun x => names subnetName (Subnet_Name x)) (Subnets coll) = true ->
  exists sn,
    In sn (Subnets coll) /\ Subnet_Name sn = Some subnetName /\
    CreateSubnet s w =
    (Done (Some sn, None),
     mkWorld r1 (transcript w ++ [CallListSubnets Build_ListSubnetsOptions (Some coll, None)])).
Proof.
  intros s w coll r1 subnetName Hlist Hnamed Hex.
  destruct (first_match_split Subnet_Name subnetName _ Hnamed Hex)
    as (pre & v & post & Hl & Hpre & Hv).
  exists v. split; [rewrite Hl; auto with datatypes|]. split; [exact Hv|].
  unfold CreateSubnet. cbv zeta. unfold bind at 1.
  rewrite (ensureSubnetUnique_listed _ _ _ _ _ Hlist). fold subnetName.
  rewrite Hl, (ensureSubnetUnique_range_first _ _ _ _ Hpre Hv). reflexivity.
Qed.

(** X4. When no subnet of the name is listed and no address prefix of the
    network lies in the zone of the cluster, [CreateSubnet] returns the
    error [not found a valid CIDR for VPC <id> in zone <zone>] and no subnet,
    after the two listings and without any create call. *)
Theorem CreateSubnet_without_prefix : forall s w subnets r1 prefixes r2,
  let cluster := IBMVPCCluster s in
  let vpcID := infrav1.VPC_ID (infrav1.Status_VPC (infrav1.Status cluster)) in
  let zone := infrav1.Spec_Zone (infrav1.Spec cluster) in
  ListSubnets (VPCService s) Build_ListSubnetsOptions (remote w)
    = ((Some subnets, None), r1) ->
  forallb (fun x => named_otherwise (infrav1.Name cluster ++ "-subnet")%string
                      (Subnet_Name x)) (Subnets subnets) = true ->
  ListVPCAddressPrefixes (VPCService s) {| VPCID := Some vpcID |} r1
    = ((Some prefixes, None), r2) ->
  forallb (fun x => named_otherwise zone (ZoneName_of x)) (AddressPrefixes prefixes) = true ->
  CreateSubnet s w =
  (Done (None, Some (fmt_Errorf
           ("not found a valid CIDR for VPC " ++ vpcID ++ " in zone " ++ zone)%string)),
   mkWorld r2 (transcript w ++
     [CallListSubnets Build_ListSubnetsOptions (Some subnets, None);
      CallListVPCAddressPrefixes {| VPCID := Some vpcID |} (Some prefixes, None)])).
Proof.
  intros s w subnets r1 prefixes r2 cluster vpcID zone Hlist Hnone Hpre Hzone.
  unfold CreateSubnet. cbv zeta. unfold bind at 1.
  rewrite (ensureSubnetUnique_listed _ _ _ _ _ Hlist). fold cluster.
  rewrite (ensureSubnetUnique_range_absent _ _ Hnone).
  unfold getSubnetAddrPrefix. run. fold vpcID zone. rewrite Hpre. simp.
  rewrite (getSubnetAddrPrefix_range_absent _ _ _ Hzone).
  now rewrite <- app_assoc.
Qed.

End ClusterScopeMore.

Ltac break_all :=
  repeat match goal with
         | |- context [match ?x with _ => _ end] =>
             lazymatch x with
             | context [match _ with _ => _ end] => fail
             | _ => destruct x eqn:?; simp
             end
         end.

(** Closes [transcript w' = transcript w ++ ?tr /\ map f ?tr = firstn ?n l]
    once the invocation has been run to one of its ends. *)
Ltac name_calls :=
  first [ exists []; split; [symmetry; apply app_nil_r|]
        | eexists; split; [repeat rewrite <- app_assoc; reflexivity|] ];
  first [ exists 0; reflexivity | exists 1; reflexivity | exists 2; reflexivity
        | exists 3; reflexivity | exists 4; reflexivity | exists 5; reflexivity
        | exists 6; reflexivity ].

Section ClusterScopeOrder.
Import vpcv1 ClusterScope.
Context {R : Type}.
Implicit Types (s : ClusterScope R) (w : World R Call) (name : string).

(** X5. The calls of one [CreateSubnet] are an initial part of: list the
    subnets, list the address prefixes, create the subnet, create the public
    gateway, attach it.  So no call is made twice, nothing is created before
    both listings, and no gateway is created or attached before the subnet. *)
Theorem CreateSubnet_call_order : forall s w,
  exists tr,
    transcript (snd (CreateSubnet s w)) = transcript w ++ tr /\
    exists n, map vpcv1_method_of tr = firstn n CreateSubnet_calls.
Proof.
  intros s w.
  unfold CreateSubnet, ensureSubnetUnique, getSubnetAddrPrefix,
    createPublicGateWay, attachPublicGateWay.
  run. break_all; name_calls.
Qed.

(** X6. When [CreateSubnet] attaches a gateway, it attaches the gateway that
    the gateway creation returned to the subnet that the subnet creation
    returned, by their identifiers; when the attachment fails its error is
    returned and the reference of the created subnet is not, and when it
    succeeds the subnet is returned with the outcome of its creation. *)
Theorem CreateSubnet_attaches_created_gateway : forall s w tr ao ar,
  transcript (snd (CreateSubnet s w)) = transcript w ++ tr ->
  In (CallSetSubnetPublicGateway ao ar) tr ->
  exists o sn cerr go gw subnetID pgwID,
    In (CallCreateSubnet o (Some sn, cerr)) tr /\
    In (CallCreatePublicGateway go (Some gw, None)) tr /\
    Subnet_ID sn = Some subnetID /\
    PublicGateway_ID gw = Some pgwID /\
    ao = {| SetSubnetPublicGatewayOptions_ID := Some subnetID;
            PublicGatewayIdentity_ := Some {| PublicGatewayIdentity_ID := Some pgwID |} |} /\
    fst (CreateSubnet s w) =
    Done (match snd ar with
          | Some e => (None, Some e)
          | None => (Some sn, cerr)
          end).
Proof.
  intros s w tr ao ar.
  unfold CreateSubnet, ensureSubnetUnique, getSubnetAddrPrefix,
    createPublicGateWay, attachPublicGateWay.
  run. break_all; intros Htr;
    repeat rewrite <- app_assoc in Htr;
    first [apply app_inv_head in Htr | apply transcript_unchanged in Htr];
    subst tr; cbn [app In]; intros Hin; vpc_cases; cbn [snd] in *; vpc_cases;
    do 7 eexists;
    (split; [do 2 right; left; reflexivity|]);
    (split; [do 3 right; left; reflexivity|]);
    (split; [eassumption|]); (split; [eassumption|]); split; reflexivity.
Qed.

(** X7. [DeleteSubnet] dereferences before it calls: with a nil recorded
    subnet identifier it panics before any call, and when the gateway it
    found carries no identifier it panics after the lookup, with nothing
    unset or deleted. *)
Theorem DeleteSubnet_nil_identifiers : forall s w,
  let recorded :=
    infrav1.Subnet_ID (infrav1.Status_Subnet (infrav1.Status (IBMVPCCluster s))) in
  (recorded = None -> DeleteSubnet s w = (Fault, w)) /\
  (forall subnetID gw r1,
     recorded = Some subnetID ->
     let get := {| GetSubnetPublicGatewayOptions_ID := Some subnetID |} in
     GetSubnetPublicGateway (VPCService s) get (remote w) = ((Some gw, None), r1) ->
     PublicGateway_ID gw = None ->
     DeleteSubnet s w =
     (Fault, mkWorld r1 (transcript w ++ [CallGetSubnetPublicGateway get (Some gw, None)]))).
Proof.
  intros s w recorded; subst recorded. split.
  - intros Hid. unfold DeleteSubnet. run. now rewrite Hid.
  - intros subnetID gw r1 Hid get Hget Hgw. unfold DeleteSubnet. run.
    rewrite Hid. fold get. rewrite Hget. simp. now rewrite Hgw.
Qed.

(** X8. When the create call of [CreateVPC] fails, its error is returned
    with no network and no security-group rule is asked for; and when it
    answers with a network that carries no default security group,
    [CreateVPC] panics after the network has been created. *)
Theorem CreateVPC_create_call_outcomes : forall s w coll r1,
  let spec := infrav1.Spec (IBMVPCCluster s) in
  let options := {|
    CreateVPCOptions_ResourceGroup :=
      Some {| ResourceGroupIdentity_ID := Some (infrav1.Spec_ResourceGroup spec) |};
    CreateVPCOptions_Name := Some (infrav1.Spec_VPC spec) |} in
  let listed := CallListVpcs Build_ListVpcsOptions (Some coll, None) in
  ListVpcs (VPCService s) Build_ListVpcsOptions (remote w) = ((Some coll, None), r1) ->
  forallb (fun x => named_otherwise (infrav1.Spec_VPC spec) (VPC_Name x)) (Vpcs coll) = true ->
  (forall x e r2,
     vpcv1.CreateVPC (VPCService s) options r1 = ((x, Some e), r2) ->
     CreateVPC s w =
     (Done (None, Some e),
      mkWorld r2 (transcript w ++ [listed; CallCreateVPC options (x, Some e)]))) /\
  (forall v r2,
     vpcv1.CreateVPC (VPCService s) options r1 = ((Some v, None), r2) ->
     VPC_DefaultSecurityGroup v = None ->
     CreateVPC s w =
     (Fault, mkWorld r2 (transcript w ++ [listed; CallCreateVPC options (Some v, None)]))).
Proof.
  intros s w coll r1 spec options listed Hlist Hnone. split.
  - intros x e r2 Hcreate. unfold CreateVPC. unfold bind at 1.
    rewrite (ensureVPCUnique_listed _ _ _ _ _ Hlist). fold spec.
    rewrite (ensureVPCUnique_range_absent _ _ Hnone). run. fold options.
    rewrite Hcreate. simp. subst listed. now rewrite <- app_assoc.
  - intros v r2 Hcreate Hsg. unfold CreateVPC. unfold bind at 1.
    rewrite (ensureVPCUnique_listed _ _ _ _ _ Hlist). fold spec.
    rewrite (ensureVPCUnique_range_absent _ _ Hnone). run. fold options.
    rewrite Hcreate. simp. rewrite Hsg. subst listed. now rewrite <- app_assoc.
Qed.

(** X9. On the creation path of [CreateSubnet] the create request carries
    the CIDR of the first listed address prefix that lies in the zone of the
    cluster, with the name [<name>-subnet], the recorded network identifier
    and the zone; the request follows the two listings directly. *)
Theorem CreateSubnet_request : forall s w subnets r1 prefixes r2 pre p post cidr,
  let cluster := IBMVPCCluster s in
  let vpcID := infrav1.VPC_ID (infrav1.Status_VPC (infrav1.Status cluster)) in
  let zone := infrav1.Spec_Zone (infrav1.Spec cluster) in
  let subnetName := (infrav1.Name cluster ++ "-subnet")%string in
  let options := {|
    SubnetPrototype_ := Some {|
      SubnetPrototype_Ipv4CIDRBlock := Some cidr;
      SubnetPrototype_Name := Some subnetName;
      SubnetPrototype_VPC := Some {| VPCIdentity_ID := Some vpcID |};
      SubnetPrototype_Zone := Some {| ZoneIdentity_Name := Some zone |} |} |} in
  ListSubnets (VPCService s) Build_ListSubnetsOptions (remote w)
    = ((Some subnets, None), r1) ->
  forallb (fun x => named_otherwise subnetName (Subnet_Name x)) (Subnets subnets) = true ->
  ListVPCAddressPrefixes (VPCService s) {| VPCID := Some vpcID |} r1
    = ((Some prefixes, None), r2) ->
  AddressPrefixes prefixes = pre ++ p :: post ->
  forallb (fun x => named_otherwise zone (ZoneName_of x)) pre = true ->
  ZoneName_of p = Some zone ->
  AddressPrefix_CIDR p = Some cidr ->
  exists rest,
    transcript (snd (CreateSubnet s w)) =
    transcript w ++
      [CallListSubnets Build_ListSubnetsOptions (Some subnets, None);
       CallListVPCAddressPrefixes {| VPCID := Some vpcID |} (Some prefixes, None);
       CallCreateSubnet options (fst (vpcv1.CreateSubnet (VPCService s) options r2))]
      ++ rest.
Proof.
  intros s w subnets r1 prefixes r2 pre p post cidr cluster vpcID zone subnetName options
    Hlist Hnone Hprefixes Hsplit Hpre Hp Hcidr.
  unfold CreateSubnet. cbv zeta. unfold bind at 1.
  rewrite (ensureSubnetUnique_listed _ _ _ _ _ Hlist). fold cluster subnetName.
  rewrite (ensureSubnetUnique_range_absent _ _ Hnone).
  unfold getSubnetAddrPrefix, createPublicGateWay, attachPublicGateWay. run.
  fold vpcID zone. rewrite Hprefixes. simp.
  rewrite Hsplit, (getSubnetAddrPrefix_range_first _ _ _ _ _ _ Hpre Hp Hcidr).
  simp. fold options.
  destruct (vpcv1.CreateSubnet (VPCService s) options r2) as [[sn cerr] r3]. simp.
  break_all;
    (eexists; repeat rewrite <- app_assoc; cbn [app]; reflexivity).
Qed.

End ClusterScopeOrder.

(** * Further properties of the machine scope *)

Section MachineScopeMore.
Import models powervs PowerVSMachineScope.
Context {R : Type}.
Variable ParseFloat : string -> Z -> float64 * option error.
Variable EncodeToString : list byte -> string.
Variable TIMEOUT : Z.
Implicit Types (m : PowerVSMachineScope R) (w : World R Call).

(** An identifier that the image scan returns is the one of a listed image
    of exactly the name looked for; an error comes with no identifier. *)
Lemma getImageID_range_found : forall l name x e,
  getImageID_range l name = Done (x, e) ->
  (e = None ->
   exists i, In (Some i) l /\ ImageReference_Name i = Some name /\
             ImageID i = x /\ x <> None) /\
  (e <> None -> x = None).
Proof.
  induction l as [|img l IH]; intros name x e H; cbn in H.
  - injection H as <- <-. split; [discriminate | reflexivity].
  - destruct img as [i|]; [|discriminate].
    destruct (ImageReference_Name i) as [n|] eqn:Hn; [|discriminate].
    destruct (String.eqb name n) eqn:Heq.
    + destruct (ImageID i) as [id|] eqn:Hid; [|discriminate].
      injection H as <- <-. apply String.eqb_eq in Heq. subst n. split.
      * intros _. exists i. rewrite Hid. repeat split; auto with datatypes. discriminate.
      * intros He. now destruct He.
    + destruct (IH _ _ _ H) as [Hok Herr]. split; [|exact Herr].
      intros He. destruct (Hok He) as (j & Hin & Hj). exists j. auto with datatypes.
Qed.

Lemma getNetworkID_range_found : forall l name x e,
  getNetworkID_range l name = Done (x, e) ->
  (e = None ->
   exists n, In (Some n) l /\ NetworkReference_Name n = Some name /\
             NetworkReference_NetworkID n = x /\ x <> None) /\
  (e <> None -> x = None).
Proof.
  induction l as [|nw l IH]; intros name x e H; cbn in H.
  - injection H as <- <-. split; [discriminate | reflexivity].
  - destruct nw as [i|]; [|discriminate].
    destruct (NetworkReference_Name i) as [n|] eqn:Hn; [|discriminate].
    destruct (String.eqb name n) eqn:Heq.
    + destruct (NetworkReference_NetworkID i) as [id|] eqn:Hid; [|discriminate].
      injection H as <- <-. apply String.eqb_eq in Heq. subst n. split.
      * intros _. exists i. rewrite Hid. repeat split; auto with datatypes. discriminate.
      * intros He. now destruct He.
    + destruct (IH _ _ _ H) as [Hok Herr]. split; [|exact Herr].
      intros He. destruct (Hok He) as (j & Hin & Hj). exists j. auto with datatypes.
Qed.

(** X10. [GetBootstrapData] never panics and makes at most one call, the
    fetch of the secret that the machine names, in the namespace of the
    machine.  Whenever it returns an error the data is the empty string;
    when it returns none, the data is the encoding of the [value] entry of
    the fetched secret. *)
Theorem GetBootstrapData_result : forall m w,
  exists data err tr,
    GetBootstrapData EncodeToString m w
      = (Done (data, err), mkWorld (remote (snd (GetBootstrapData EncodeToString m w)))
                             (transcript w ++ tr)) /\
    (err <> None -> data = "") /\
    (tr = [] \/
     exists secretName reply,
       clusterv1.DataSecretName (clusterv1.Bootstrap_ (clusterv1.Spec (Machine m)))
         = Some secretName /\
       tr = [CallClientGet {| types.Namespace := clusterv1.Namespace (Machine m);
                              types.Name := secretName |} reply]) /\
    (err = None ->
     exists key sec value,
       tr = [CallClientGet key (sec, None)] /\
       corev1.lookup (corev1.Data sec) "value" = Some value /\
       data = EncodeToString value).
Proof.
  intros m w. unfold GetBootstrapData. run.
  destruct (clusterv1.DataSecretName _) as [secretName|] eqn:Hname.
  - destruct (client_Get _ _ _) as [[sec [e|]] r1] eqn:Hget; simp.
    + do 3 eexists. split; [reflexivity|]. split; [reflexivity|].
      split; [right; eauto | discriminate].
    + destruct (corev1.lookup _ _) as [value|] eqn:Hval.
      * do 3 eexists. split; [reflexivity|]. split; [intros H; now destruct H|].
        split; [right; eauto|]. intros _. do 3 eexists. split; [reflexivity|]. split; [exact Hval | reflexivity].
      * do 3 eexists. split; [reflexivity|]. split; [reflexivity|].
        split; [right; eauto | discriminate].
  - exists "", (Some (errors_New
      "error retrieving bootstrap data: linked Machine's bootstrap.dataSecretName is nil")), [].
    split; [destruct w; cbn; now rewrite app_nil_r|].
    split; [reflexivity|]. split; [now left | discriminate].
Qed.

(** X11. The calls of one [CreateMachine] are an initial part of: list the
    instances, fetch the bootstrap secret, list the images when the image is
    given by name only, list the networks when the network is given by name
    only, create the instance.  So nothing is created before the listing of
    instances, the secret and both references are dealt with, and no call is
    made twice. *)
Theorem CreateMachine_call_order : forall m w,
  exists tr,
    transcript (snd (CreateMachine ParseFloat EncodeToString TIMEOUT m w))
      = transcript w ++ tr /\
    exists n, map powervs_method_of tr = firstn n (CreateMachine_calls (IBMPowerVSMachine m)).
Proof.
  intros m w.
  unfold CreateMachine, ensureInstanceUnique, GetBootstrapData, getImageID, GetImages,
    getNetworkID, GetNetworks, CreateMachine_calls, resolution_calls.
  run. break_all; name_calls.
Qed.

End MachineScopeMore.

Section MachineScopeRequest.
Import models powervs PowerVSMachineScope.
Context {R : Type}.
Variable ParseFloat : string -> Z -> float64 * option error.
Variable EncodeToString : list byte -> string.
Variable TIMEOUT : Z.
Implicit Types (m : PowerVSMachineScope R) (w : World R Call).

(** X12. The request of a create call that [CreateMachine] makes: it goes
    to the service instance of the machine with a one-hour timeout, names
    the server after the machine, carries its key, processor type and system
    type, and as user data the encoding of the [value] entry of the secret
    fetched in the same invocation.  An image or network given by ID is sent
    as given; one given by name only is sent as the identifier of a listed
    entry of exactly that name. *)
Theorem CreateMachine_request : forall m w tr p id t rep,
  let s := v1alpha4.Spec (IBMPowerVSMachine m) in
  transcript (snd (CreateMachine ParseFloat EncodeToString TIMEOUT m w)) = transcript w ++ tr ->
  In (CallInstanceCreate p id t rep) tr ->
  id = v1alpha4.ServiceInstanceID s /\ t = time_Hour /\
  exists body,
    Body p = Some body /\
    PVMInstanceCreate_ServerName body
      = Some (v1alpha4.IBMPowerVSMachine_Name (IBMPowerVSMachine m)) /\
    KeyPairName body = v1alpha4.SSHKey s /\
    ProcType body = Some (v1alpha4.ProcType s) /\
    SysType body = v1alpha4.SysType s /\
    (exists key sec value,
       In (CallClientGet key (sec, None)) tr /\
       corev1.lookup (corev1.Data sec) "value" = Some value /\
       UserData body = EncodeToString value) /\
    match v1alpha4.ID (v1alpha4.Image s) with
    | Some i => PVMInstanceCreate_ImageID body = Some i
    | None =>
        exists cloud imgs img,
          In (CallImageGetAll cloud (Some imgs, None)) tr /\
          In (Some img) (Images_ imgs) /\
          ImageReference_Name img = v1alpha4.Name (v1alpha4.Image s) /\
          PVMInstanceCreate_ImageID body = ImageID img /\
          ImageID img <> None
    end /\
    match v1alpha4.ID (v1alpha4.Network s) with
    | Some n => PVMInstanceCreate_Networks body = [Some {| NetworkID := Some n |}]
    | None =>
        exists params auth resp nets nw,
          In (CallPcloudNetworksGetall params auth (Some resp, None)) tr /\
          Payload resp = Some nets /\
          In (Some nw) (Networks_ nets) /\
          NetworkReference_Name nw = v1alpha4.Name (v1alpha4.Network s) /\
          PVMInstanceCreate_Networks body
            = [Some {| NetworkID := NetworkReference_NetworkID nw |}] /\
          NetworkReference_NetworkID nw <> None
    end.
Proof.
  intros m w tr p id t rep s. subst s.
  unfold CreateMachine, ensureInstanceUnique, GetBootstrapData, getImageID, GetImages,
    getNetworkID, GetNetworks, CreateMachine_params, errors_Wrap.
  run. break_all; intros Htr;
    repeat rewrite <- app_assoc in Htr;
    first [apply app_inv_head in Htr | apply transcript_unchanged in Htr];
    subst tr; cbn [app In]; intros Hin; clear_cases;
    (split; [reflexivity|]); (split; [reflexivity|]);
    eexists; (split; [reflexivity|]); cbn;
    (split; [reflexivity|]); (split; [reflexivity|]);
    (split; [reflexivity|]); (split; [reflexivity|]);
    (split; [do 3 eexists; split; [right; left; reflexivity|];
             split; [eassumption | reflexivity]|]);
    repeat match goal with
           | H : getImageID_range _ _ = Done (_, None) |- _ =>
               apply getImageID_range_found in H; destruct H as [H _];
               destruct (H eq_refl) as (? & ? & ? & ? & ?); clear H
           | H : getNetworkID_range _ _ = Done (_, None) |- _ =>
               apply getNetworkID_range_found in H; destruct H as [H _];
               destruct (H eq_refl) as (? & ? & ? & ? & ?); clear H
           end;
    split;
    try reflexivity;
    try (do 3 eexists; split; [do 2 right; left; reflexivity|];
         split; [eassumption|]; split; [eassumption|];
         split; [symmetry; eassumption | congruence]);
    try (do 5 eexists; split; [right; right; left; reflexivity|];
         split; [eassumption|]; split; [eassumption|]; split; [eassumption|];
         split; [f_equal; f_equal; f_equal; symmetry; eassumption | congruence]);
    try (do 5 eexists; split; [right; right; right; left; reflexivity|];
         split; [eassumption|]; split; [eassumption|]; split; [eassumption|];
         split; [f_equal; f_equal; f_equal; symmetry; eassumption | congruence]).
Qed.

(** X13. A failure while resolving the image or the network ends
    [CreateMachine] with that failure under the prefix
    [error getting image ID: ] or [error getting network ID: ], and no
    create call: a listing that failed gives its own message, a listing
    with no entry of the name gives [failed to find ...]. *)
Theorem CreateMachine_resolution_failure : forall m w tr,
  let s := v1alpha4.Spec (IBMPowerVSMachine m) in
  let run := CreateMachine ParseFloat EncodeToString TIMEOUT m w in
  transcript (snd run) = transcript w ++ tr ->
  (forall cloud x e,
     In (CallImageGetAll cloud (x, Some e)) tr ->
     fst run = Done (None, Some (fmt_Errorf ("error getting image ID: " ++ Error e)%string)) /\
     created_instances tr = 0) /\
  (forall cloud imgs name,
     In (CallImageGetAll cloud (Some imgs, None)) tr ->
     v1alpha4.Name (v1alpha4.Image s) = Some name ->
     forallb (fun x => named_otherwise name (ImageName_of x)) (Images_ imgs) = true ->
     fst run = Done (None, Some (fmt_Errorf
                 "error getting image ID: failed to find an image ID")) /\
     created_instances tr = 0) /\
  (forall params auth x e,
     In (CallPcloudNetworksGetall params auth (x, Some e)) tr ->
     fst run = Done (None, Some (fmt_Errorf ("error getting network ID: " ++ Error e)%string)) /\
     created_instances tr = 0) /\
  (forall params auth resp nets name,
     In (CallPcloudNetworksGetall params auth (Some resp, None)) tr ->
     Payload resp = Some nets ->
     v1alpha4.Name (v1alpha4.Network s) = Some name ->
     forallb (fun x => named_otherwise name (NetworkName_of x)) (Networks_ nets) = true ->
     fst run = Done (None, Some (fmt_Errorf
                 "error getting network ID: failed to find a network ID")) /\
     created_instances tr = 0).
Proof.
  intros m w tr s run0; subst s run0.
  unfold CreateMachine, ensureInstanceUnique, GetBootstrapData, getImageID, GetImages,
    getNetworkID, GetNetworks, errors_Wrap.
  run. break_all; intros Htr;
    repeat rewrite <- app_assoc in Htr;
    first [apply app_inv_head in Htr | apply transcript_unchanged in Htr];
    subst tr; cbn [app In];
    (split; [intros ? ? ? Hin
            |split; [intros ? ? ? Hin Hname Hall
                    |split; [intros ? ? ? ? Hin
                            |intros ? ? ? ? ? Hin Hpay Hname Hall]]]);
    clear_cases;
    repeat match goal with
           | H1 : Payload ?r = Some _, H2 : Payload ?r = Some _ |- _ =>
               rewrite H1 in H2; injection H2 as; subst
           end;
    repeat match goal with
           | Ha : forallb _ (Images_ ?l) = true,
             H : getImageID_range (Images_ ?l) _ = _ |- _ =>
               rewrite (getImageID_range_absent _ _ Ha) in H
           | Ha : forallb _ (Networks_ ?l) = true,
             H : getNetworkID_range (Networks_ ?l) _ = _ |- _ =>
               rewrite (getNetworkID_range_absent _ _ Ha) in H
           end;
    clear_cases; try discriminate; try congruence; split; reflexivity.
Qed.

(** X14. A listing that comes back with neither a result nor an error is
    not guarded against: with a networks reply that has no payload
    [GetNetworks] returns nil and nil and [getNetworkID] then panics, and
    with an images reply that is nil [getImageID] panics. *)
Theorem resolution_panics_on_empty_reply : forall m w name ref,
  let cloud := v1alpha4.ServiceInstanceID (v1alpha4.Spec (IBMPowerVSMachine m)) in
  let params := {| timeout := TIMEOUT; CloudInstanceID := cloud |} in
  v1alpha4.ID ref = None ->
  v1alpha4.Name ref = Some name ->
  (forall resp r',
     PcloudNetworksGetall (Clients_ m) params cloud (remote w) = ((Some resp, None), r') ->
     Payload resp = None ->
     let w' := mkWorld r' (transcript w ++
                 [CallPcloudNetworksGetall params cloud (Some resp, None)]) in
     GetNetworks TIMEOUT m w = (Done (None, None), w') /\
     getNetworkID TIMEOUT ref m w = (Fault, w')) /\
  (forall r',
     ImageClient_GetAll (Clients_ m) cloud (remote w) = ((None, None), r') ->
     getImageID ref m w =
     (Fault, mkWorld r' (transcript w ++ [CallImageGetAll cloud (None, None)]))).
Proof.
  intros m w name ref cloud params Hid Hname. split.
  - intros resp r' Hcall Hpay w'; subst w'. unfold getNetworkID, GetNetworks.
    rewrite Hid, Hname. run. fold cloud. fold params. rewrite Hcall. simp.
    rewrite Hpay. split; reflexivity.
  - intros r' Hcall. unfold getImageID, GetImages. rewrite Hid, Hname. run. fold cloud.
    now rewrite Hcall.
Qed.

(** X15. [CreateMachine] stops at the first step that fails: a failed
    listing of instances is returned as it is after that call alone, and a
    machine with no bootstrap secret name gets the error of
    [GetBootstrapData] after the listing, before any parsing, resolution or
    create call. *)
Theorem CreateMachine_stops_early : forall m w,
  let s := v1alpha4.Spec (IBMPowerVSMachine m) in
  let cloud := v1alpha4.ServiceInstanceID s in
  let run := CreateMachine ParseFloat EncodeToString TIMEOUT m w in
  (forall x e r1,
     InstanceClient_GetAll (Clients_ m) cloud (60 * time_Minute) (remote w)
       = ((x, Some e), r1) ->
     run = (Done (None, Some e),
            mkWorld r1 (transcript w ++
              [CallInstanceGetAll cloud (60 * time_Minute) (x, Some e)]))) /\
  (forall insts r1,
     InstanceClient_GetAll (Clients_ m) cloud (60 * time_Minute) (remote w)
       = ((Some insts, None), r1) ->
     forallb (fun x => named_otherwise (v1alpha4.IBMPowerVSMachine_Name (IBMPowerVSMachine m))
                         (ServerName_of x)) (PvmInstances insts) = true ->
     clusterv1.DataSecretName (clusterv1.Bootstrap_ (clusterv1.Spec (Machine m))) = None ->
     run = (Done (None, Some (errors_New
              "error retrieving bootstrap data: linked Machine's bootstrap.dataSecretName is nil")),
            mkWorld r1 (transcript w ++
              [CallInstanceGetAll cloud (60 * time_Minute) (Some insts, None)]))).
Proof.
  intros m w s cloud run0; subst run0. split.
  - intros x e r1 Hlist. unfold CreateMachine, ensureInstanceUnique. run.
    fold s cloud. now rewrite Hlist.
  - intros insts r1 Hlist Hnone Hname. unfold CreateMachine. unfold bind at 1.
    rewrite (ensureInstanceUnique_listed _ _ _ _ _ Hlist).
    rewrite (ensureInstanceUnique_range_absent _ _ Hnone).
    unfold GetBootstrapData. rewrite Hname. reflexivity.
Qed.

End MachineScopeRequest.

(** * Properties of the admission webhook *)

Section WebhookNames.
Import v1beta2.

Lemma found_get_In : forall found name, found_get found name = true <-> In name found.
Proof.
  intros found name. unfold found_get. rewrite existsb_exists. split.
  - intros (x & Hin & Heq). apply String.eqb_eq in Heq. now subst.
  - intros Hin. exists name. split; [exact Hin | apply String.eqb_refl].
Qed.

(** The errors gathered so far are kept, in front. *)
Lemma LoadBalancerNames_range_acc : forall lbs i found errs,
  validateIBMPowerVSClusterLoadBalancerNames_range lbs i found errs
  = errs ++ validateIBMPowerVSClusterLoadBalancerNames_range lbs i found [].
Proof.
  induction lbs as [|lb lbs IH]; intros i found errs; cbn.
  - now rewrite app_nil_r.
  - destruct (found_get found (VPCLoadBalancerSpec_Name lb)).
    + rewrite IH. rewrite (IH _ _ [_]). now rewrite app_assoc.
    + apply IH.
Qed.

Lemma LoadBalancerNames_range_nil : forall lbs i found,
  validateIBMPowerVSClusterLoadBalancerNames_range lbs i found [] = [] <->
  NoDup (map VPCLoadBalancerSpec_Name lbs) /\
  (forall n, In n (map VPCLoadBalancerSpec_Name lbs) -> ~ In n found).
Proof.
  induction lbs as [|lb lbs IH]; intros i found; cbn.
  - split; [intros _; split; [constructor | now intros n []] | reflexivity].
  - destruct (found_get found (VPCLoadBalancerSpec_Name lb)) eqn:Hget.
    + rewrite LoadBalancerNames_range_acc. split; [discriminate|].
      intros [_ Hfresh]. apply found_get_In in Hget.
      now destruct (Hfresh _ (or_introl eq_refl)).
    + rewrite IH. split.
      * intros [Hnd Hfresh]. split.
        -- constructor; [|exact Hnd]. intros Hin. apply (Hfresh _ Hin). now left.
        -- intros n [<- | Hin] Hf.
           ++ apply found_get_In in Hf. congruence.
           ++ apply (Hfresh _ Hin). now right.
      * intros [Hnd Hfresh]. inversion Hnd as [|x l Hnotin Hnd']; subst. split; [exact Hnd'|].
        intros n Hin [<- | Hf]; [contradiction|].
        apply (Hfresh n); [now right | exact Hf].
Qed.

(** Which errors the loop reports: one for each entry whose name was stored
    before or is carried by an earlier entry, at the index of that entry. *)
Lemma LoadBalancerNames_range_In : forall lbs i found e,
  In e (validateIBMPowerVSClusterLoadBalancerNames_range lbs i found []) <->
  exists k lb,
    nth_error lbs k = Some lb /\
    (In (VPCLoadBalancerSpec_Name lb) found \/
     exists j lb', j < k /\ nth_error lbs j = Some lb' /\
                   VPCLoadBalancerSpec_Name lb' = VPCLoadBalancerSpec_Name lb) /\
    e = field_Duplicate ["spec"; Sprintf_index "loadbalancers" (i + k)]
          (BadName (VPCLoadBalancerSpec_Name lb)).
Proof.
  induction lbs as [|lb lbs IH]; intros i found e; cbn.
  - split; [intros [] | intros (k & x & H & _)]. now destruct k.
  - assert (Hrest :
      In e (validateIBMPowerVSClusterLoadBalancerNames_range lbs (S i)
              (VPCLoadBalancerSpec_Name lb :: found) []) <->
      exists k x,
        nth_error lbs k = Some x /\
        (In (VPCLoadBalancerSpec_Name x) found \/
         exists j x', j < S k /\ nth_error (lb :: lbs) j = Some x' /\
                      VPCLoadBalancerSpec_Name x' = VPCLoadBalancerSpec_Name x) /\
        e = field_Duplicate ["spec"; Sprintf_index "loadbalancers" (i + S k)]
              (BadName (VPCLoadBalancerSpec_Name x))).
    { rewrite IH. split; intros (k & x & Hk & Hrep & He); exists k, x;
        (split; [exact Hk|]); (split; [|now rewrite <- ?plus_n_Sm in *]).
      - destruct Hrep as [[Heq | Hin] | (j & x' & Hj & Hx' & Heq)].
        + right. exists 0, lb. split; [lia|]. split; [reflexivity | exact Heq].
        + now left.
        + right. exists (S j), x'. split; [lia|]. split; [exact Hx' | exact Heq].
      - destruct Hrep as [Hin | (j & x' & Hj & Hx' & Heq)].
        + left. now right.
        + destruct j as [|j]; cbn in Hx'.
          * injection Hx' as <-. left. now left.
          * right. exists j, x'. split; [lia|]. split; [exact Hx' | exact Heq]. }
    destruct (found_get found (VPCLoadBalancerSpec_Name lb)) eqn:Hget.
    + rewrite LoadBalancerNames_range_acc, in_app_iff, Hrest. cbn [app In]. split.
      * intros [[<- | []] | (k & x & Hk & Hrep & He)].
        -- exists 0, lb. split; [reflexivity|]. split; [left; now apply found_get_In|].
           now rewrite Nat.add_0_r.
        -- exists (S k), x. split; [exact Hk|]. split; [exact Hrep | exact He].
      * intros (k & x & Hk & Hrep & He). destruct k as [|k]; cbn in Hk.
        -- injection Hk as <-. left. left. now rewrite Nat.add_0_r in He.
        -- right. exists k, x. split; [exact Hk|]. split; [exact Hrep | exact He].
    + rewrite Hrest. split.
      * intros (k & x & Hk & Hrep & He). exists (S k), x.
        split; [exact Hk|]. split; [exact Hrep | exact He].
      * intros (k & x & Hk & Hrep & He). destruct k as [|k]; cbn in Hk.
        -- injection Hk as <-. destruct Hrep as [Hin | (j & x' & Hj & _)]; [|lia].
           apply found_get_In in Hin. congruence.
        -- exists k, x. split; [exact Hk|]. split; [exact Hrep | exact He].
Qed.

(** X16. [validateIBMPowerVSClusterLoadBalancerNames] reports nothing
    exactly when the names of the load balancers are pairwise different. *)
Theorem LoadBalancerNames_accepted_iff_distinct : forall r,
  validateIBMPowerVSClusterLoadBalancerNames r = [] <->
  NoDup (map VPCLoadBalancerSpec_Name (LoadBalancers (Spec r))).
Proof.
  intros r. unfold validateIBMPowerVSClusterLoadBalancerNames.
  rewrite LoadBalancerNames_range_nil. split; [now intros [H _] | intros H].
  split; [exact H | now intros n _ []].
Qed.

(** X17. What [validateIBMPowerVSClusterLoadBalancerNames] reports: a
    duplicate error at [spec.loadbalancers[i]] for exactly the indices [i]
    whose load balancer carries the name of an earlier one; the first
    load balancer of a name is never reported. *)
Theorem LoadBalancerNames_reports_repeats : forall r e,
  In e (validateIBMPowerVSClusterLoadBalancerNames r) <->
  exists i j lb lb',
    j < i /\
    nth_error (LoadBalancers (Spec r)) i = Some lb /\
    nth_error (LoadBalancers (Spec r)) j = Some lb' /\
    VPCLoadBalancerSpec_Name lb' = VPCLoadBalancerSpec_Name lb /\
    e = field_Duplicate ["spec"; Sprintf_index "loadbalancers" i]
          (BadName (VPCLoadBalancerSpec_Name lb)).
Proof.
  intros r e. unfold validateIBMPowerVSClusterLoadBalancerNames.
  rewrite LoadBalancerNames_range_In. cbn [In plus]. split.
  - intros (k & lb & Hk & [[] | (j & lb' & Hj & Hlb' & Heq)] & He).
    exists k, j, lb, lb'. auto.
  - intros (i & j & lb & lb' & Hj & Hi & Hlb' & Heq & He).
    exists i, lb. split; [exact Hi|]. split; [|exact He]. right. eauto.
Qed.

End WebhookNames.

Section WebhookSubnets.
Import v1beta2.

Lemma VPCSubnetNames_range_acc : forall subnets i found errs,
  validateIBMPowerVSClusterVPCSubnetNames_range subnets i found errs
  = match validateIBMPowerVSClusterVPCSubnetNames_range subnets i found [] with
    | Done more => Done (errs ++ more)
    | Fault => Fault
    end.
Proof.
  induction subnets as [|sn subnets IH]; intros i found errs; cbn.
  - now rewrite app_nil_r.
  - destruct (Subnet_Name sn) as [name|]; [|reflexivity].
    destruct (found_get found name).
    + rewrite IH. rewrite (IH _ _ [_]).
      destruct (validateIBMPowerVSClusterVPCSubnetNames_range _ _ _ []); [|reflexivity].
      now rewrite app_assoc.
    + apply IH.
Qed.

Lemma VPCSubnetNames_range_Fault : forall subnets i found errs,
  validateIBMPowerVSClusterVPCSubnetNames_range subnets i found errs = Fault <->
  existsb (fun sn => negb (named (Subnet_Name sn))) subnets = true.
Proof.
  induction subnets as [|sn subnets IH]; intros i found errs; cbn.
  - split; discriminate.
  - destruct (Subnet_Name sn) as [name|]; cbn; [apply IH | tauto].
Qed.

Lemma VPCSubnetNames_range_named : forall ns subnets i found,
  map Subnet_Name subnets = map Some ns ->
  exists errs,
    validateIBMPowerVSClusterVPCSubnetNames_range subnets i found [] = Done errs /\
    (errs = [] <-> NoDup ns /\ (forall n, In n ns -> ~ In n found)).
Proof.
  induction ns as [|name ns IH]; intros [|sn subnets] i found Hmap;
    try discriminate Hmap; cbn.
  - exists []. split; [reflexivity|].
    split; [intros _; split; [constructor | now intros n []] | reflexivity].
  - cbn in Hmap. injection Hmap as Hname Hmap. rewrite Hname.
    destruct (IH subnets (S i) (name :: found) Hmap) as (errs & Hrun & Hiff).
    destruct (found_get found name) eqn:Hget.
    + rewrite VPCSubnetNames_range_acc, Hrun. eexists. split; [reflexivity|].
      split; [discriminate|]. intros [_ Hfresh]. apply found_get_In in Hget.
      now destruct (Hfresh _ (or_introl eq_refl)).
    + exists errs. split; [exact Hrun|]. rewrite Hiff. split.
      * intros [Hnd Hfresh]. split.
        -- constructor; [|exact Hnd]. intros Hin. apply (Hfresh _ Hin). now left.
        -- intros n [<- | Hin] Hf.
           ++ apply found_get_In in Hf. congruence.
           ++ apply (Hfresh _ Hin). now right.
      * intros [Hnd Hfresh]. inversion Hnd as [|x l Hnotin Hnd']; subst. split; [exact Hnd'|].
        intros n Hin [<- | Hf]; [contradiction|].
        apply (Hfresh n); [now right | exact Hf].
Qed.

(** X18. [validateIBMPowerVSClusterVPCSubnetNames] panics exactly when a
    subnet carries no name; when every subnet carries one, it reports
    nothing exactly when the names are pairwise different. *)
Theorem VPCSubnetNames_result : forall r,
  (validateIBMPowerVSClusterVPCSubnetNames r = Fault <->
   existsb (fun sn => negb (named (Subnet_Name sn))) (VPCSubnets (Spec r)) = true) /\
  (forall ns,
     map Subnet_Name (VPCSubnets (Spec r)) = map Some ns ->
     exists errs,
       validateIBMPowerVSClusterVPCSubnetNames r = Done errs /\
       (errs = [] <-> NoDup ns)).
Proof.
  intros r. unfold validateIBMPowerVSClusterVPCSubnetNames. split.
  - apply VPCSubnetNames_range_Fault.
  - intros ns Hmap.
    destruct (VPCSubnetNames_range_named ns _ 0 [] Hmap) as (errs & Hrun & Hiff).
    exists errs. split; [exact Hrun|]. rewrite Hiff.
    split; [now intros [H _] | intros H; split; [exact H | now intros n _ []]].
Qed.

End WebhookSubnets.

Section WebhookValidation.
Import v1beta2.
Variable ParseBool : string -> bool * option error.
Variable CreateInfrastructureAnnotation : string.
Variable validateIBMPowerVSNetworkReference :
  IBMPowerVSResourceReference -> bool * option Error.

(** X19. The prerequisites of infrastructure creation are not looked at,
    and nothing is reported, when the cluster has no annotation, when the
    create-infra annotation is absent, and when its value parses to false
    or does not parse at all: the error noted for a value that is not a
    boolean is dropped with it. *)
Theorem CreateInfraPrereq_skipped : forall r,
  (Annotations r = [] \/
   map_lookup (Annotations r) CreateInfrastructureAnnotation = None \/
   exists value,
     map_lookup (Annotations r) CreateInfrastructureAnnotation = Some value /\
     fst (ParseBool value) = false) ->
  validateIBMPowerVSClusterCreateInfraPrereq ParseBool CreateInfrastructureAnnotation r
  = Done [].
Proof.
  intros r H. unfold validateIBMPowerVSClusterCreateInfraPrereq.
  destruct (Nat.eqb (length (Annotations r)) 0) eqn:Hlen; [reflexivity|].
  destruct H as [Hnil | [Hnone | (value & Hsome & Hfalse)]].
  - rewrite Hnil in Hlen. discriminate.
  - now rewrite Hnone.
  - rewrite Hsome. destruct (ParseBool value) as [b err]. cbn in Hfalse. now subst b.
Qed.

(** X20. With the create-infra annotation parsed to true: validation panics
    when the cluster has no VPC reference; otherwise, the subnets carrying
    names, it reports nothing exactly when the zone, the region of the VPC
    and the resource group are set and the names of the subnets and of the
    load balancers are pairwise different. *)
Theorem CreateInfraPrereq_checked : forall r value,
  map_lookup (Annotations r) CreateInfrastructureAnnotation = Some value ->
  ParseBool value = (true, None) ->
  (VPC (Spec r) = None ->
   validateIBMPowerVSClusterCreateInfraPrereq ParseBool CreateInfrastructureAnnotation r
   = Fault) /\
  (forall vpc ns,
     VPC (Spec r) = Some vpc ->
     map Subnet_Name (VPCSubnets (Spec r)) = map Some ns ->
     exists errs,
       validateIBMPowerVSClusterCreateInfraPrereq ParseBool CreateInfrastructureAnnotation r
       = Done errs /\
       (errs = [] <->
        Zone (Spec r) <> None /\ Region vpc <> None /\ ResourceGroup (Spec r) <> None /\
        NoDup ns /\
        NoDup (map VPCLoadBalancerSpec_Name (LoadBalancers (Spec r))))).
Proof.
  intros r value Hsome Hparse.
  assert (Hlen : Nat.eqb (length (Annotations r)) 0 = false).
  { destruct (Annotations r); [discriminate Hsome | reflexivity]. }
  unfold validateIBMPowerVSClusterCreateInfraPrereq. rewrite Hlen, Hsome, Hparse. cbn [negb].
  split.
  - intros Hvpc. now rewrite Hvpc.
  - intros vpc ns Hvpc Hmap. rewrite Hvpc.
    destruct (proj2 (VPCSubnetNames_result r) ns Hmap) as (errs & Hrun & Hiff).
    rewrite Hrun. eexists. split; [reflexivity|].
    rewrite <- Hiff, <- LoadBalancerNames_accepted_iff_distinct.
    destruct (Zone (Spec r)), (Region vpc), (ResourceGroup (Spec r)); cbn [app];
      (split;
       [ intros H; try discriminate H;
         apply app_eq_nil in H; destruct H as [H1 H2];
         repeat split; try discriminate; assumption
       | intros (Hz & Hr & Hg & He & Hl);
         try (now destruct Hz); try (now destruct Hr); try (now destruct Hg);
         now rewrite He, Hl ]).
Qed.

(** X21. [validateIBMPowerVSCluster] never gives warnings; it accepts
    exactly when the network reference gives no error and the prerequisites
    report nothing, and otherwise rejects with an invalid-object error for
    the cluster's name that lists the network error first.  [ValidateCreate]
    and [ValidateUpdate] are that validation, whatever the old object, and
    [ValidateDelete] accepts every cluster. *)
Theorem validateIBMPowerVSCluster_result : forall r warnings err,
  let validate :=
    validateIBMPowerVSCluster ParseBool CreateInfrastructureAnnotation
      validateIBMPowerVSNetworkReference in
  let network := validateIBMPowerVSClusterNetwork validateIBMPowerVSNetworkReference r in
  validate r = Done (warnings, err) ->
  warnings = [] /\
  (exists errs,
     validateIBMPowerVSClusterCreateInfraPrereq ParseBool CreateInfrastructureAnnotation r
     = Done errs /\
     let all := match network with Some e => e :: errs | None => errs end in
     match err with
     | None => all = []
     | Some (NewInvalid kind name reported) =>
         kind = {| Group := "infrastructure.cluster.x-k8s.io"; Kind := "IBMPowerVSCluster" |}
         /\ name = Name r /\ reported = all /\ all <> []
     end) /\
  ValidateCreate ParseBool CreateInfrastructureAnnotation
    validateIBMPowerVSNetworkReference r = validate r /\
  (forall (Object : Type) (old : Object),
     ValidateUpdate ParseBool CreateInfrastructureAnnotation
       validateIBMPowerVSNetworkReference r old = validate r) /\
  ValidateDelete r = Done ([], None).
Proof.
  intros r warnings err validate network Hrun.
  assert (Hrest :
    ValidateCreate ParseBool CreateInfrastructureAnnotation
      validateIBMPowerVSNetworkReference r = validate r /\
    (forall (Object : Type) (old : Object),
       ValidateUpdate ParseBool CreateInfrastructureAnnotation
         validateIBMPowerVSNetworkReference r old = validate r) /\
    ValidateDelete r = Done ([], None)) by (repeat split).
  enough (Hmain : warnings = [] /\
    exists errs,
      validateIBMPowerVSClusterCreateInfraPrereq ParseBool CreateInfrastructureAnnotation r
      = Done errs /\
      let all := match network with Some e => e :: errs | None => errs end in
      match err with
      | None => all = []
      | Some (NewInvalid kind name reported) =>
          kind = {| Group := "infrastructure.cluster.x-k8s.io"; Kind := "IBMPowerVSCluster" |}
          /\ name = Name r /\ reported = all /\ all <> []
      end) by (destruct Hmain; auto).
  clear Hrest. subst validate network. revert Hrun.
  unfold validateIBMPowerVSCluster.
  destruct (validateIBMPowerVSClusterCreateInfraPrereq _ _ r) as [errs|]; [|discriminate].
  destruct (validateIBMPowerVSClusterNetwork _ r) as [e|]; cbn [app length Nat.eqb].
  - intros [= <- <-]. split; [reflexivity|].
    exists errs. split; [reflexivity|]. cbn. repeat split. discriminate.
  - destruct errs as [|e errs]; cbn [length Nat.eqb]; intros [= <- <-];
      (split; [reflexivity|]);
      eexists; (split; [reflexivity|]); cbn; repeat split. discriminate.
Qed.

End WebhookValidation.

(** * Properties of the user details *)

Section UserDetails.
Import pkg.

Lemma substring_whole : forall s, String.substring 0 (String.length s) s = s.
Proof.
  induction s as [|c s IH]; cbn; [reflexivity | now rewrite IH].
Qed.

(** X22. The token handed to the parser: an access token that starts with
    [Bearer] loses its first seven bytes, whatever the seventh is; the token
    [Bearer] alone, six bytes long, makes the slice panic; any other token
    is handed over as it is. *)
Theorem bluemixToken_strips_seven_bytes : forall config,
  (forall c rest,
     IAMAccessToken config = ("Bearer" ++ String c rest)%string ->
     bluemixToken config = Done rest) /\
  (IAMAccessToken config = "Bearer" -> bluemixToken config = Fault) /\
  (strings_HasPrefix (IAMAccessToken config) "Bearer" = false ->
   bluemixToken config = Done (IAMAccessToken config)).
Proof.
  intros config. unfold bluemixToken. split; [|split].
  - intros c rest ->. cbn. unfold slice_from. cbn.
    now rewrite Nat.sub_0_r, substring_whole.
  - intros ->. reflexivity.
  - intros ->. reflexivity.
Qed.

(** Whether [fetchUserDetails] goes on after the parser's answer. *)
Lemma fetchUserDetails_shape : forall parse sess generation res,
  fetchUserDetails parse sess generation = Done res ->
  exists s config token,
    sess = Some s /\ Session_Config s = Some config /\ bluemixToken config = Done token.
Proof.
  intros parse sess generation res. unfold fetchUserDetails.
  destruct sess as [s|]; [|discriminate].
  destruct (Session_Config s) as [config|] eqn:Hc; [|discriminate].
  destruct (bluemixToken config) as [token|] eqn:Ht; [|discriminate].
  intros _. exists s, config, token. auto.
Qed.

(** X23. What [fetchUserDetails] returns, when it returns: a user in every
    case.  With an error, it is the error of the parser, which does not
    mention an invalid key type, and the user is the zero value.  Without
    one, the user carries the strings found under [id], [account.bss] and,
    when present, [email] in the claims of the token, the generation asked
    for, the cloud type [public], and the cloud name [bluemix] or [staging]
    as the issuer contains the IAM address or not. *)
Theorem fetchUserDetails_result : forall parse sess generation res,
  fetchUserDetails parse sess generation = Done res ->
  exists s config token,
    sess = Some s /\ Session_Config s = Some config /\
    bluemixToken config = Done token /\
    ((exists e,
        snd (parse token) = Some e /\
        strings_Contains (Error e) "key is of invalid type" = false /\
        res = (Some User_zero, Some e)) \/
     (exists t claims account iss u,
        fst (parse token) = Some t /\ Token_Claims t = MapClaims claims /\
        res = (Some u, None) /\
        claims_lookup claims "id" = Some (iface_string (ID u)) /\
        claims_lookup claims "account" = Some (iface_map account) /\
        claims_lookup account "bss" = Some (iface_string (Account u)) /\
        claims_lookup claims "iss" = Some (iface_string iss) /\
        (claims_lookup claims "email" = Some (iface_string (Email u)) \/
         claims_lookup claims "email" = None /\ Email u = "") /\
        generation = pkg.generation u /\
        cloudType u = "public" /\
        cloudName u
          = if strings_Contains iss "https://iam.cloud.ibm.com" then "bluemix"
            else "staging")).
Proof.
  intros parse sess generation res Hrun.
  destruct (fetchUserDetails_shape _ _ _ _ Hrun) as (s & config & token & -> & Hc & Ht).
  exists s, config, token. repeat (split; [assumption || reflexivity|]).
  revert Hrun. unfold fetchUserDetails. rewrite Hc, Ht.
  destruct (parse token) as [t err]. cbn [fst snd].
  destruct err as [e|].
  - destruct (strings_Contains (Error e) "key is of invalid type") eqn:Hkey; cbn [negb].
    + destruct t as [t|]; [|discriminate].
      destruct (Token_Claims t) as [claims|] eqn:Hclaims; [|discriminate].
      unfold assert_string, assert_map.
      destruct (claims_lookup claims "email") as [[email| |]|] eqn:Hemail; try discriminate;
        destruct (claims_lookup claims "id") as [[id| |]|] eqn:Hid; try discriminate;
        destruct (claims_lookup claims "account") as [[|account|]|] eqn:Hacc; try discriminate;
        destruct (claims_lookup account "bss") as [[bss| |]|] eqn:Hbss; try discriminate;
        destruct (claims_lookup claims "iss") as [[iss| |]|] eqn:Hiss; try discriminate;
        intros [= <-]; right; do 5 eexists;
        repeat (split; [eassumption || reflexivity|]); cbn; auto 10.
    + intros [= <-]. left. eauto.
  - destruct t as [t|]; [|discriminate].
    destruct (Token_Claims t) as [claims|] eqn:Hclaims; [|discriminate].
    unfold assert_string, assert_map.
    destruct (claims_lookup claims "email") as [[email| |]|] eqn:Hemail; try discriminate;
      destruct (claims_lookup claims "id") as [[id| |]|] eqn:Hid; try discriminate;
      destruct (claims_lookup claims "account") as [[|account|]|] eqn:Hacc; try discriminate;
      destruct (claims_lookup account "bss") as [[bss| |]|] eqn:Hbss; try discriminate;
      destruct (claims_lookup claims "iss") as [[iss| |]|] eqn:Hiss; try discriminate;
      intros [= <-]; right; do 5 eexists;
      repeat (split; [eassumption || reflexivity|]); cbn; auto 10.
Qed.

(** X24. An error of the parser that mentions an invalid key type is
    ignored: [fetchUserDetails] gives the same result for two parsers that
    hand back the same tokens and differ only in such errors.  So the claims
    of a token are used although its signature was not checked. *)
Theorem fetchUserDetails_ignores_key_errors : forall parse parse' sess generation,
  (forall token, fst (parse token) = fst (parse' token)) ->
  (forall token, tolerated (snd (parse token)) = true) ->
  (forall token, tolerated (snd (parse' token)) = true) ->
  fetchUserDetails parse sess generation = fetchUserDetails parse' sess generation.
Proof.
  intros parse parse' sess generation Hsame Htol Htol'. unfold fetchUserDetails.
  destruct sess as [s|]; [|reflexivity].
  destruct (Session_Config s) as [config|]; [|reflexivity].
  destruct (bluemixToken config) as [token|]; [|reflexivity].
  specialize (Hsame token). specialize (Htol token). specialize (Htol' token).
  destruct (parse token) as [t err], (parse' token) as [t' err'].
  cbn [fst snd] in *. subst t'. unfold tolerated in Htol, Htol'.
  destruct err as [e|], err' as [e'|]; rewrite ?Htol, ?Htol'; reflexivity.
Qed.

End UserDetails.

(** * Properties of the constructors *)

Section ConstructorFacts.
Import NewScope.
Context {client_Client logr_Logger patch_Helper clusterv1_Cluster : Type}.
Context {IBMVPCClients core_Authenticator IBMPowerVSCluster IBMPowerVSClient : Type}.
Variable klogr_New : logr_Logger.
Variable patch_NewHelper_cluster :
  infrav1.IBMVPCCluster -> option client_Client -> option patch_Helper * option error.
Variable patch_NewHelper_machine :
  v1alpha4.IBMPowerVSMachine -> option client_Client -> option patch_Helper * option error.
Variable setIBMVPCService :
  IBMVPCClients -> core_Authenticator -> string -> IBMVPCClients * option error.
Variable pkg_NewClient : process Client.
Variable utils_GetRegion : string -> string * option error.
Variable NewIBMPowerVSClient :
  string -> string -> string -> string -> string -> bool ->
  option IBMPowerVSClient * option error.


(** X26. [NewPowerVSMachineScope] checks what it is given before it starts
    a client: the first nil among the client, the machine, the cluster and
    the Power VS machine, in this order, decides the error that is returned,
    whatever the collaborators would do, even if starting the client would
    end the process. *)
Theorem NewPowerVSMachineScope_validates_first :
  forall (params : PowerVSMachineScopeParams (client_Client := client_Client)
                     (logr_Logger := logr_Logger) (clusterv1_Cluster := clusterv1_Cluster)
                     (IBMPowerVSCluster := IBMPowerVSCluster)),
  let new := NewPowerVSMachineScope klogr_New patch_NewHelper_machine pkg_NewClient
               utils_GetRegion NewIBMPowerVSClient in
  (Params_Client params = None ->
   new params = Returned (None, Some (errors_New
                  "client is required when creating a MachineScope"))) /\
  (Params_Client params <> None ->
   Params_Machine params = None ->
   new params = Returned (None, Some (errors_New
                  "machine is required when creating a MachineScope"))) /\
  (Params_Client params <> None ->
   Params_Machine params <> None ->
   Params_Cluster params = None ->
   new params = Returned (None, Some (errors_New
                  "cluster is required when creating a MachineScope"))) /\
  (Params_Client params <> None ->
   Params_Machine params <> None ->
   Params_Cluster params <> None ->
   Params_IBMPowerVSMachine params = None ->
   new params = Returned (None, Some (errors_New
                  "aws machine is required when creating a MachineScope"))).
Proof.
  intros params new; subst new. unfold NewPowerVSMachineScope.
  destruct (Params_Client params), (Params_Machine params), (Params_Cluster params),
    (Params_IBMPowerVSMachine params);
    repeat split; intros; try reflexivity; try congruence; try discriminate.
Qed.

(** X27. What [NewPowerVSMachineScope] gives back when it returns: a scope
    or an error, never both and never neither.  A scope holds the client,
    the machine, the cluster and the Power VS machine it was given, all
    non-nil, and a logger; the Power VS cluster is passed on unchecked.  It
    is only returned after the service instance was found, its region was
    resolved, and the Power VS client and the patch helper were built; a
    failure to build the Power VS client is reported by a fixed message that
    leaves its cause out. *)
Theorem NewPowerVSMachineScope_result :
  forall (params : PowerVSMachineScopeParams (client_Client := client_Client)
                     (logr_Logger := logr_Logger) (clusterv1_Cluster := clusterv1_Cluster)
                     (IBMPowerVSCluster := IBMPowerVSCluster))
         sc err,
  NewPowerVSMachineScope klogr_New patch_NewHelper_machine pkg_NewClient
    utils_GetRegion NewIBMPowerVSClient params = Returned (sc, err) ->
  (sc = None <-> err <> None) /\
  (forall s,
     sc = Some s ->
     Scope_client s = Params_Client params /\ Scope_client s <> None /\
     Scope_Machine s = Params_Machine params /\ Scope_Machine s <> None /\
     Scope_Cluster s = Params_Cluster params /\ Scope_Cluster s <> None /\
     Scope_IBMPowerVSMachine s = Params_IBMPowerVSMachine params /\
     Scope_IBMPowerVSMachine s <> None /\
     Scope_IBMPowerVSCluster s = Params_IBMPowerVSCluster params /\
     Scope_Logger s <> None /\
     exists m client GetInstance resource region config user,
       Params_IBMPowerVSMachine params = Some m /\
       pkg_NewClient = Returned client /\
       ResourceClient client = Some GetInstance /\
       GetInstance (v1alpha4.ServiceInstanceID (v1alpha4.Spec m)) = (resource, None) /\
       utils_GetRegion (RegionID resource) = (region, None) /\
       Client_Session client = Some {| pkg.Session_Config := Some config |} /\
       Client_User client = Some user /\
       NewIBMPowerVSClient (pkg.IAMAccessToken config) (pkg.Account user)
         (v1alpha4.ServiceInstanceID (v1alpha4.Spec m)) region (RegionID resource) true
       = (Scope_IBMPowerVSClient s, None) /\
       patch_NewHelper_machine m (Params_Client params) = (Scope_patchHelper s, None)) /\
  (forall m client GetInstance resource region config user c e,
     Params_Client params <> None -> Params_Machine params <> None ->
     Params_Cluster params <> None ->
     Params_IBMPowerVSMachine params = Some m ->
     pkg_NewClient = Returned client ->
     ResourceClient client = Some GetInstance ->
     GetInstance (v1alpha4.ServiceInstanceID (v1alpha4.Spec m)) = (resource, None) ->
     utils_GetRegion (RegionID resource) = (region, None) ->
     Client_Session client = Some {| pkg.Session_Config := Some config |} ->
     Client_User client = Some user ->
     NewIBMPowerVSClient (pkg.IAMAccessToken config) (pkg.Account user)
       (v1alpha4.ServiceInstanceID (v1alpha4.Spec m)) region (RegionID resource) true
     = (c, Some e) ->
     err = Some (fmt_Errorf "failed to create NewIBMPowerVSClient")).
Proof.
  intros params sc err. unfold NewPowerVSMachineScope.
  destruct (Params_Client params) as [cl|] eqn:Hcl;
    [|intros [= <- <-]; repeat split; intros; congruence].
  destruct (Params_Machine params) as [ma|] eqn:Hma;
    [|intros [= <- <-]; repeat split; intros; congruence].
  destruct (Params_Cluster params) as [cu|] eqn:Hcu;
    [|intros [= <- <-]; repeat split; intros; congruence].
  destruct (Params_IBMPowerVSMachine params) as [m|] eqn:Hm;
    [|intros [= <- <-]; repeat split; intros; congruence].
  destruct pkg_NewClient as [client| |] eqn:Hclient; try discriminate.
  destruct (ResourceClient client) as [GetInstance|] eqn:Hrc; [|discriminate].
  destruct (GetInstance _) as [resource [e|]] eqn:Hget;
    [intros [= <- <-]; repeat split; intros; congruence|].
  destruct (utils_GetRegion _) as [region [e|]] eqn:Hregion;
    [intros [= <- <-]; repeat split; intros; congruence|].
  destruct (Client_Session client) as [[[config|]]|] eqn:Hsess; try discriminate.
  cbn [pkg.Session_Config].
  destruct (Client_User client) as [user|] eqn:Huser; [|discriminate].
  match goal with
  | |- context [NewIBMPowerVSClient ?a ?b ?i ?r ?z ?d] =>
      destruct (NewIBMPowerVSClient a b i r z d) as [c [e|]] eqn:Hnew
  end;
    [intros [= <- <-]; repeat split; intros; congruence|].
  destruct (patch_NewHelper_machine m _) as [helper [e|]] eqn:Hhelper; intros [= <- <-].
  - cbn. repeat split; intros; congruence.
  - split; [split; intros; congruence|]. split.
    + intros s [= <-]. cbn.
      repeat (split; [reflexivity || discriminate|]).
      split; [destruct (Params_Logger params); discriminate|].
      exists m, client, GetInstance, resource, region, config, user. auto 12.
    + intros; congruence.
Qed.

End ConstructorFacts.

(** * More concrete runs *)

Lemma ReserveFIP_witness :
  ClusterScope.ReserveFIP (FakeVPC.scope None None) (FakeVPC.world FakeVPC.crowded)
  = (Done (Some (FakeVPC.fip "fip-b" "demo-control-plane"), None),
     mkWorld FakeVPC.crowded
       [vpcv1.CallListFloatingIps vpcv1.Build_ListFloatingIpsOptions
          (Some {| vpcv1.FloatingIps := FakeVPC.fips FakeVPC.crowded |}, None)]) /\
  fst (ClusterScope.ReserveFIP (FakeVPC.scope None None) (FakeVPC.world FakeVPC.empty))
  = Done (Some (FakeVPC.new_fip "demo-control-plane"), None).
Proof.
  split.
  - exact (proj1 (ReserveFIP_adopts_or_creates (FakeVPC.scope None None)
                    (FakeVPC.world FakeVPC.crowded) _ _ eq_refl)
             [FakeVPC.fip "fip-a" "Demo-control-plane"] _
             [FakeVPC.fip "fip-c" "demo-control-plane"] eq_refl eq_refl eq_refl).
  - exact (f_equal fst
             (proj2 (ReserveFIP_adopts_or_creates (FakeVPC.scope None None)
                       (FakeVPC.world FakeVPC.empty) _ _ eq_refl) eq_refl)).
Defined.

Lemma cluster_listing_error_witness :
  fst (ClusterScope.CreateVPC (FakeVPC.scope None None)
         (FakeVPC.world (FakeVPC.fail_on "ListVpcs" Samples.unavailable FakeVPC.empty)))
  = Done (None, Some Samples.unavailable) /\
  fst (ClusterScope.ReserveFIP (FakeVPC.scope None None)
         (FakeVPC.world (FakeVPC.fail_on "ListFloatingIps" Samples.unavailable FakeVPC.empty)))
  = Done (None, Some Samples.unavailable) /\
  fst (ClusterScope.CreateSubnet (FakeVPC.scope None None)
         (FakeVPC.world (FakeVPC.fail_on "ListSubnets" Samples.unavailable FakeVPC.empty)))
  = Done (None, Some Samples.unavailable).
Proof.
  split; [|split].
  - exact (f_equal fst
      (proj1 (cluster_listing_error_is_returned (FakeVPC.scope None None)
                (FakeVPC.world (FakeVPC.fail_on "ListVpcs" Samples.unavailable FakeVPC.empty)))
         _ _ _ eq_refl)).
  - exact (f_equal fst
      (proj1 (proj2 (cluster_listing_error_is_returned (FakeVPC.scope None None)
                (FakeVPC.world
                   (FakeVPC.fail_on "ListFloatingIps" Samples.unavailable FakeVPC.empty))))
         _ _ _ eq_refl)).
  - exact (f_equal fst
      (proj2 (proj2 (cluster_listing_error_is_returned (FakeVPC.scope None None)
                (FakeVPC.world
                   (FakeVPC.fail_on "ListSubnets" Samples.unavailable FakeVPC.empty))))
         _ _ _ eq_refl)).
Defined.

Lemma CreateSubnet_adopts_witness :
  exists sn,
    In sn [FakeVPC.new_subnet "demo-subnet" "10.240.0.0/18"] /\
    vpcv1.Subnet_Name sn = Some "demo-subnet" /\
    ClusterScope.CreateSubnet (FakeVPC.scope None None) (FakeVPC.world FakeVPC.attached)
    = (Done (Some sn, None),
       mkWorld FakeVPC.attached
         [vpcv1.CallListSubnets vpcv1.Build_ListSubnetsOptions
            (Some {| vpcv1.Subnets := [FakeVPC.new_subnet "demo-subnet" "10.240.0.0/18"] |},
             None)]).
Proof.
  exact (CreateSubnet_adopts_listed (FakeVPC.scope None None) (FakeVPC.world FakeVPC.attached)
           _ _ eq_refl eq_refl eq_refl).
Defined.

Lemma CreateSubnet_without_prefix_witness :
  fst (ClusterScope.CreateSubnet (FakeVPC.scope None None) (FakeVPC.world FakeVPC.empty))
  = Done (None, Some (errors_New
            "not found a valid CIDR for VPC r006-demo-vpc in zone us-south-1")) /\
  fst (ClusterScope.CreateSubnet (FakeVPC.scope None None)
         (FakeVPC.world
            (FakeVPC.with_prefixes [FakeVPC.prefix "us-south-2" "10.240.64.0/18"]
               FakeVPC.empty)))
  = Done (None, Some (errors_New
            "not found a valid CIDR for VPC r006-demo-vpc in zone us-south-1")).
Proof.
  split.
  - exact (f_equal fst
      (CreateSubnet_without_prefix (FakeVPC.scope None None) (FakeVPC.world FakeVPC.empty)
         _ _ _ _ eq_refl eq_refl eq_refl eq_refl)).
  - exact (f_equal fst
      (CreateSubnet_without_prefix (FakeVPC.scope None None)
         (FakeVPC.world
            (FakeVPC.with_prefixes [FakeVPC.prefix "us-south-2" "10.240.64.0/18"]
               FakeVPC.empty))
         _ _ _ _ eq_refl eq_refl eq_refl eq_refl)).
Defined.

Lemma CreateSubnet_attaches_witness :
  exists o sn cerr go gw,
    In (vpcv1.CallCreateSubnet o (Some sn, cerr))
       (transcript (snd (ClusterScope.CreateSubnet (FakeVPC.scope None None)
                           (FakeVPC.world FakeVPC.ready)))) /\
    In (vpcv1.CallCreatePublicGateway go (Some gw, None))
       (transcript (snd (ClusterScope.CreateSubnet (FakeVPC.scope None None)
                           (FakeVPC.world FakeVPC.ready)))) /\
    vpcv1.Subnet_ID sn = Some "subnet-demo-subnet" /\
    vpcv1.PublicGateway_ID gw = Some "pgw-1" /\
    fst (ClusterScope.CreateSubnet (FakeVPC.scope None None) (FakeVPC.world FakeVPC.ready))
    = Done (Some sn, cerr).
Proof.
  assert (Hin :
    In (vpcv1.CallSetSubnetPublicGateway
          {| vpcv1.SetSubnetPublicGatewayOptions_ID := Some "subnet-demo-subnet";
             vpcv1.PublicGatewayIdentity_ :=
               Some {| vpcv1.PublicGatewayIdentity_ID := Some "pgw-1" |} |}
          (Some FakeVPC.new_gateway, None))
       (transcript (snd (ClusterScope.CreateSubnet (FakeVPC.scope None None)
                           (FakeVPC.world FakeVPC.ready)))))
    by (cbv; do 4 right; left; reflexivity).
  destruct (CreateSubnet_attaches_created_gateway (FakeVPC.scope None None)
              (FakeVPC.world FakeVPC.ready) _ _ _ eq_refl Hin)
    as (o & sn & cerr & go & gw & sid & gid & Hs & Hg & Hsid & Hgid & Hao & Hres).
  injection Hao as <- <-.
  exists o, sn, cerr, go, gw. auto.
Defined.

Lemma DeleteSubnet_nil_witness :
  ClusterScope.DeleteSubnet (FakeVPC.scope None None) (FakeVPC.world FakeVPC.attached)
  = (Fault, FakeVPC.world FakeVPC.attached) /\
  ClusterScope.DeleteSubnet (FakeVPC.scope None (Some "subnet-demo-subnet"))
    (FakeVPC.world Samples.anonymous_gateway)
  = (Fault,
     mkWorld Samples.anonymous_gateway
       [vpcv1.CallGetSubnetPublicGateway
          {| vpcv1.GetSubnetPublicGatewayOptions_ID := Some "subnet-demo-subnet" |}
          (Some {| vpcv1.PublicGateway_ID := None |}, None)]).
Proof.
  split.
  - exact (proj1 (DeleteSubnet_nil_identifiers (FakeVPC.scope None None)
                    (FakeVPC.world FakeVPC.attached)) eq_refl).
  - exact (proj2 (DeleteSubnet_nil_identifiers
                    (FakeVPC.scope None (Some "subnet-demo-subnet"))
                    (FakeVPC.world Samples.anonymous_gateway))
             "subnet-demo-subnet" _ _ eq_refl eq_refl eq_refl).
Defined.

Lemma CreateVPC_create_call_witness :
  fst (ClusterScope.CreateVPC (FakeVPC.scope None None)
         (FakeVPC.world (FakeVPC.fail_on "CreateVPC" Samples.unavailable FakeVPC.empty)))
  = Done (None, Some Samples.unavailable) /\
  fst (ClusterScope.CreateVPC Samples.bare_vpc_scope (FakeVPC.world FakeVPC.empty)) = Fault.
Proof.
  split.
  - exact (f_equal fst
      (proj1 (CreateVPC_create_call_outcomes (FakeVPC.scope None None)
                (FakeVPC.world (FakeVPC.fail_on "CreateVPC" Samples.unavailable FakeVPC.empty))
                _ _ eq_refl eq_refl) _ _ _ eq_refl)).
  - exact (f_equal fst
      (proj2 (CreateVPC_create_call_outcomes Samples.bare_vpc_scope
                (FakeVPC.world FakeVPC.empty) _ _ eq_refl eq_refl) _ _ eq_refl eq_refl)).
Defined.

Lemma CreateSubnet_request_witness :
  exists rest,
    transcript (snd (ClusterScope.CreateSubnet (FakeVPC.scope None None)
                       (FakeVPC.world
                          (FakeVPC.with_prefixes
                             [FakeVPC.prefix "us-south-2" "10.240.64.0/18";
                              FakeVPC.prefix "us-south-1" "10.240.0.0/18";
                              FakeVPC.prefix "us-south-1" "10.240.128.0/18"]
                             FakeVPC.empty))))
    = [vpcv1.CallListSubnets vpcv1.Build_ListSubnetsOptions
         (Some {| vpcv1.Subnets := [] |}, None);
       vpcv1.CallListVPCAddressPrefixes {| vpcv1.VPCID := Some "r006-demo-vpc" |}
         (Some {| vpcv1.AddressPrefixes :=
                    [FakeVPC.prefix "us-south-2" "10.240.64.0/18";
                     FakeVPC.prefix "us-south-1" "10.240.0.0/18";
                     FakeVPC.prefix "us-south-1" "10.240.128.0/18"] |}, None);
       vpcv1.CallCreateSubnet FakeVPC.subnet_request
         (Some (FakeVPC.new_subnet "demo-subnet" "10.240.0.0/18"), None)] ++ rest.
Proof.
  exact (CreateSubnet_request (FakeVPC.scope None None)
           (FakeVPC.world
              (FakeVPC.with_prefixes
                 [FakeVPC.prefix "us-south-2" "10.240.64.0/18";
                  FakeVPC.prefix "us-south-1" "10.240.0.0/18";
                  FakeVPC.prefix "us-south-1" "10.240.128.0/18"]
                 FakeVPC.empty))
           _ _ _ _
           [FakeVPC.prefix "us-south-2" "10.240.64.0/18"]
           (FakeVPC.prefix "us-south-1" "10.240.0.0/18")
           [FakeVPC.prefix "us-south-1" "10.240.128.0/18"]
           "10.240.0.0/18" eq_refl eq_refl eq_refl eq_refl eq_refl eq_refl eq_refl).
Defined.

Lemma CreateMachine_request_witness :
  exists p rep body,
    In (powervs.CallInstanceCreate p "svc-1" time_Hour rep)
       (transcript (snd (FakePowerVS.CreateMachine
                           (FakePowerVS.scope_of "8" "0.25" (FakePowerVS.by_id "img-1")
                              (FakePowerVS.by_name "capi-net"))
                           (FakePowerVS.world (FakePowerVS.remote_with []))))) /\
    powervs.Body p = Some body /\
    models.PVMInstanceCreate_ServerName body = Some "demo-0" /\
    models.PVMInstanceCreate_ImageID body = Some "img-1" /\
    models.KeyPairName body = "key-1".
Proof.
  pose (m := FakePowerVS.scope_of "8" "0.25" (FakePowerVS.by_id "img-1")
               (FakePowerVS.by_name "capi-net")).
  assert (Hin :
    In (powervs.CallInstanceCreate
          (PowerVSMachineScope.CreateMachine_params m (Some "img-1") (Some "net-7")
             8%float 0.25%float "aGVsbG8=")
          "svc-1" time_Hour
          (Some [Some {| models.PVMInstance_PvmInstanceID := Some "pvm-1" |}], None))
       (transcript (snd (FakePowerVS.CreateMachine m
                           (FakePowerVS.world (FakePowerVS.remote_with []))))))
    by (cbv; do 3 right; left; reflexivity).
  destruct (CreateMachine_request FakePowerVS.ParseFloat FakePowerVS.EncodeToString
              FakePowerVS.TIMEOUT m (FakePowerVS.world (FakePowerVS.remote_with []))
              _ _ _ _ _ eq_refl Hin)
    as (_ & _ & body & Hbody & Hname & Hkey & _ & _ & _ & Himage & _).
  do 3 eexists. split; [exact Hin|]. split; [exact Hbody|]. auto.
Defined.

Lemma CreateMachine_resolution_failure_witness :
  fst (FakePowerVS.CreateMachine (FakePowerVS.scope "8" "0.25")
         (FakePowerVS.world
            (FakePowerVS.fail_on "ImageClient.GetAll" Samples.unavailable
               (FakePowerVS.remote_with []))))
  = Done (None, Some (errors_New "error getting image ID: service unavailable")) /\
  fst (FakePowerVS.CreateMachine
         (FakePowerVS.scope_of "8" "0.25" (FakePowerVS.by_name "fedora")
            (FakePowerVS.by_name "capi-net"))
         (FakePowerVS.world (FakePowerVS.remote_with [])))
  = Done (None, Some (errors_New "error getting image ID: failed to find an image ID")) /\
  fst (FakePowerVS.CreateMachine (FakePowerVS.scope "8" "0.25")
         (FakePowerVS.world
            (FakePowerVS.fail_on "PcloudNetworksGetall" Samples.unavailable
               (FakePowerVS.remote_with []))))
  = Done (None, Some (errors_New "error getting network ID: service unavailable")) /\
  fst (FakePowerVS.CreateMachine
         (FakePowerVS.scope_of "8" "0.25" (FakePowerVS.by_name "ubuntu-20.04")
            (FakePowerVS.by_name "other-net"))
         (FakePowerVS.world (FakePowerVS.remote_with [])))
  = Done (None, Some (errors_New "error getting network ID: failed to find a network ID")).
Proof.
  split; [|split; [|split]].
  - refine (proj1 (proj1 (CreateMachine_resolution_failure FakePowerVS.ParseFloat
                            FakePowerVS.EncodeToString FakePowerVS.TIMEOUT
                            (FakePowerVS.scope "8" "0.25")
                            (FakePowerVS.world
                               (FakePowerVS.fail_on "ImageClient.GetAll" Samples.unavailable
                                  (FakePowerVS.remote_with [])))
                            _ eq_refl) "svc-1" None Samples.unavailable _)).
    cbv. do 2 right. left. reflexivity.
  - refine (proj1 (proj1 (proj2 (CreateMachine_resolution_failure FakePowerVS.ParseFloat
                            FakePowerVS.EncodeToString FakePowerVS.TIMEOUT
                            (FakePowerVS.scope_of "8" "0.25" (FakePowerVS.by_name "fedora")
                               (FakePowerVS.by_name "capi-net"))
                            (FakePowerVS.world (FakePowerVS.remote_with []))
                            _ eq_refl)) "svc-1"
                     {| models.Images_ := [Some FakePowerVS.ubuntu] |} "fedora"
                     _ eq_refl eq_refl)).
    cbv. do 2 right. left. reflexivity.
  - refine (proj1 (proj1 (proj2 (proj2 (CreateMachine_resolution_failure
                            FakePowerVS.ParseFloat
                            FakePowerVS.EncodeToString FakePowerVS.TIMEOUT
                            (FakePowerVS.scope "8" "0.25")
                            (FakePowerVS.world
                               (FakePowerVS.fail_on "PcloudNetworksGetall" Samples.unavailable
                                  (FakePowerVS.remote_with [])))
                            _ eq_refl)))
                     {| powervs.timeout := FakePowerVS.TIMEOUT;
                        powervs.CloudInstanceID := "svc-1" |}
                     "svc-1" None Samples.unavailable _)).
    cbv. do 3 right. left. reflexivity.
  - refine (proj1 (proj2 (proj2 (proj2 (CreateMachine_resolution_failure
                            FakePowerVS.ParseFloat
                            FakePowerVS.EncodeToString FakePowerVS.TIMEOUT
                            (FakePowerVS.scope_of "8" "0.25"
                               (FakePowerVS.by_name "ubuntu-20.04")
                               (FakePowerVS.by_name "other-net"))
                            (FakePowerVS.world (FakePowerVS.remote_with []))
                            _ eq_refl)))
                     {| powervs.timeout := FakePowerVS.TIMEOUT;
                        powervs.CloudInstanceID := "svc-1" |}
                     "svc-1"
                     {| powervs.Payload :=
                          Some {| models.Networks_ := [Some FakePowerVS.capi_net] |} |}
                     {| models.Networks_ := [Some FakePowerVS.capi_net] |} "other-net"
                     _ eq_refl eq_refl eq_refl)).
    cbv. do 3 right. left. reflexivity.
Defined.

Lemma resolution_panics_witness :
  PowerVSMachineScope.GetNetworks FakePowerVS.TIMEOUT Samples.empty_reply_scope
    (FakePowerVS.world (FakePowerVS.remote_with []))
  = (Done (None, None),
     mkWorld (FakePowerVS.remote_with [])
       [powervs.CallPcloudNetworksGetall
          {| powervs.timeout := FakePowerVS.TIMEOUT; powervs.CloudInstanceID := "svc-1" |}
          "svc-1" (Some {| powervs.Payload := None |}, None)]) /\
  fst (PowerVSMachineScope.getNetworkID FakePowerVS.TIMEOUT (FakePowerVS.by_name "capi-net")
         Samples.empty_reply_scope (FakePowerVS.world (FakePowerVS.remote_with [])))
  = Fault /\
  fst (PowerVSMachineScope.getImageID (FakePowerVS.by_name "ubuntu-20.04")
         Samples.empty_reply_scope (FakePowerVS.world (FakePowerVS.remote_with [])))
  = Fault.
Proof.
  pose proof (resolution_panics_on_empty_reply FakePowerVS.TIMEOUT
                Samples.empty_reply_scope (FakePowerVS.world (FakePowerVS.remote_with []))
                "capi-net" (FakePowerVS.by_name "capi-net") eq_refl eq_refl) as [Hnet _].
  pose proof (resolution_panics_on_empty_reply FakePowerVS.TIMEOUT
                Samples.empty_reply_scope (FakePowerVS.world (FakePowerVS.remote_with []))
                "ubuntu-20.04" (FakePowerVS.by_name "ubuntu-20.04") eq_refl eq_refl)
    as [_ Himg].
  split; [|split].
  - exact (proj1 (Hnet _ _ eq_refl eq_refl)).
  - exact (f_equal fst (proj2 (Hnet _ _ eq_refl eq_refl))).
  - exact (f_equal fst (Himg _ eq_refl)).
Defined.

Lemma CreateMachine_stops_early_witness :
  fst (FakePowerVS.CreateMachine (FakePowerVS.scope "8" "0.25")
         (FakePowerVS.world
            (FakePowerVS.fail_on "InstanceClient.GetAll" Samples.unavailable
               (FakePowerVS.remote_with []))))
  = Done (None, Some Samples.unavailable) /\
  PowerVSMachineScope.CreateMachine FakePowerVS.ParseFloat FakePowerVS.EncodeToString
    FakePowerVS.TIMEOUT Samples.secretless_scope
    (FakePowerVS.world (FakePowerVS.remote_with []))
  = (Done (None, Some (errors_New
       "error retrieving bootstrap data: linked Machine's bootstrap.dataSecretName is nil")),
     mkWorld (FakePowerVS.remote_with [])
       [powervs.CallInstanceGetAll "svc-1" (60 * time_Minute)
          (Some {| models.PvmInstances := [] |}, None)]).
Proof.
  split.
  - exact (f_equal fst
      (proj1 (CreateMachine_stops_early FakePowerVS.ParseFloat FakePowerVS.EncodeToString
                FakePowerVS.TIMEOUT (FakePowerVS.scope "8" "0.25")
                (FakePowerVS.world
                   (FakePowerVS.fail_on "InstanceClient.GetAll" Samples.unavailable
                      (FakePowerVS.remote_with []))))
         _ _ _ eq_refl)).
  - exact (proj2 (CreateMachine_stops_early FakePowerVS.ParseFloat FakePowerVS.EncodeToString
                    FakePowerVS.TIMEOUT Samples.secretless_scope
                    (FakePowerVS.world (FakePowerVS.remote_with [])))
             _ _ eq_refl eq_refl eq_refl).
Defined.

Lemma VPCSubnetNames_witness :
  v1beta2.validateIBMPowerVSClusterVPCSubnetNames
    (Samples.powervs_cluster [] Samples.us_south
       [Samples.subnet "a"; {| v1beta2.Subnet_Name := None |}] [])
  = Fault /\
  exists errs,
    v1beta2.validateIBMPowerVSClusterVPCSubnetNames
      (Samples.powervs_cluster [] Samples.us_south
         [Samples.subnet "a"; Samples.subnet "b"] [])
    = Done errs /\
    (errs = [] <-> NoDup ["a"; "b"]).
Proof.
  split.
  - exact (proj2 (proj1 (VPCSubnetNames_result
                           (Samples.powervs_cluster [] Samples.us_south
                              [Samples.subnet "a"; {| v1beta2.Subnet_Name := None |}] [])))
             eq_refl).
  - exact (proj2 (VPCSubnetNames_result
                    (Samples.powervs_cluster [] Samples.us_south
                       [Samples.subnet "a"; Samples.subnet "b"] []))
             ["a"; "b"] eq_refl).
Defined.

Lemma CreateInfraPrereq_skipped_witness :
  v1beta2.validateIBMPowerVSClusterCreateInfraPrereq Samples.ParseBool Samples.create_infra
    (Samples.powervs_cluster [(Samples.create_infra, "maybe")] None [] [])
  = Done [] /\
  v1beta2.validateIBMPowerVSClusterCreateInfraPrereq Samples.ParseBool Samples.create_infra
    (Samples.powervs_cluster [("other", "true")] None [] [])
  = Done [].
Proof.
  split.
  - apply CreateInfraPrereq_skipped. right. right. exists "maybe". split; reflexivity.
  - apply CreateInfraPrereq_skipped. right. left. reflexivity.
Defined.

Lemma CreateInfraPrereq_checked_witness :
  v1beta2.validateIBMPowerVSClusterCreateInfraPrereq Samples.ParseBool Samples.create_infra
    (Samples.powervs_cluster [(Samples.create_infra, "true")] None [] [])
  = Fault /\
  exists errs,
    v1beta2.validateIBMPowerVSClusterCreateInfraPrereq Samples.ParseBool Samples.create_infra
      (Samples.powervs_cluster [(Samples.create_infra, "true")] Samples.us_south
         [Samples.subnet "a"; Samples.subnet "b"] [Samples.lb "x"; Samples.lb "x"])
    = Done errs /\
    (errs = [] <->
     Some "dal10" <> None /\ Some "us-south" <> None /\
     Some {| v1beta2.IBMPowerVSResourceReference_ID := Some "rg-1";
             v1beta2.IBMPowerVSResourceReference_Name := None |} <> None /\
     NoDup ["a"; "b"] /\ NoDup ["x"; "x"]).
Proof.
  split.
  - exact (proj1 (CreateInfraPrereq_checked Samples.ParseBool Samples.create_infra
                    (Samples.powervs_cluster [(Samples.create_infra, "true")] None [] [])
                    "true" eq_refl eq_refl) eq_refl).
  - exact (proj2 (CreateInfraPrereq_checked Samples.ParseBool Samples.create_infra
                    (Samples.powervs_cluster [(Samples.create_infra, "true")]
                       Samples.us_south [Samples.subnet "a"; Samples.subnet "b"]
                       [Samples.lb "x"; Samples.lb "x"])
                    "true" eq_refl eq_refl)
             {| v1beta2.Region := Some "us-south" |} ["a"; "b"] eq_refl eq_refl).
Defined.

Lemma validateIBMPowerVSCluster_witness :
  exists reported,
    v1beta2.validateIBMPowerVSCluster Samples.ParseBool Samples.create_infra
      Samples.validateNetwork
      (Samples.powervs_cluster [(Samples.create_infra, "true")] Samples.us_south
         [Samples.subnet "a"; Samples.subnet "a"] [])
    = Done ([], Some (v1beta2.NewInvalid
                        {| v1beta2.Group := "infrastructure.cluster.x-k8s.io";
                           v1beta2.Kind := "IBMPowerVSCluster" |}
                        "demo" reported)) /\
    reported <> [] /\
    v1beta2.ValidateCreate Samples.ParseBool Samples.create_infra Samples.validateNetwork
      (Samples.powervs_cluster [(Samples.create_infra, "true")] Samples.us_south
         [Samples.subnet "a"; Samples.subnet "a"] [])
    = Done ([], Some (v1beta2.NewInvalid
                        {| v1beta2.Group := "infrastructure.cluster.x-k8s.io";
                           v1beta2.Kind := "IBMPowerVSCluster" |}
                        "demo" reported)).
Proof.
  eexists.
  assert (Hrun :
    v1beta2.validateIBMPowerVSCluster Samples.ParseBool Samples.create_infra
      Samples.validateNetwork
      (Samples.powervs_cluster [(Samples.create_infra, "true")] Samples.us_south
         [Samples.subnet "a"; Samples.subnet "a"] [])
    = Done ([], Some (v1beta2.NewInvalid
                        {| v1beta2.Group := "infrastructure.cluster.x-k8s.io";
                           v1beta2.Kind := "IBMPowerVSCluster" |}
                        "demo" _))) by reflexivity.
  pose proof (validateIBMPowerVSCluster_result Samples.ParseBool Samples.create_infra
                Samples.validateNetwork _ _ _ Hrun) as H.
  cbv zeta in H.
  destruct H as (_ & (errs & _ & _ & _ & Hall & Hne) & Hcreate & _).
  split; [exact Hrun|]. split.
  - rewrite Hall. exact Hne.
  - rewrite Hcreate. exact Hrun.
Defined.

Lemma bluemixToken_witness :
  pkg.bluemixToken {| pkg.IAMAccessToken := "Bearer abc"; pkg.BluemixAPIKey := "key" |}
  = Done "abc" /\
  pkg.bluemixToken {| pkg.IAMAccessToken := "Bearer-abc"; pkg.BluemixAPIKey := "key" |}
  = Done "abc" /\
  pkg.bluemixToken {| pkg.IAMAccessToken := "Bearer"; pkg.BluemixAPIKey := "key" |}
  = Fault /\
  pkg.bluemixToken {| pkg.IAMAccessToken := "abc"; pkg.BluemixAPIKey := "key" |}
  = Done "abc".
Proof.
  split; [|split; [|split]].
  - exact (proj1 (bluemixToken_strips_seven_bytes
                    {| pkg.IAMAccessToken := "Bearer abc"; pkg.BluemixAPIKey := "key" |})
             " "%char "abc" eq_refl).
  - exact (proj1 (bluemixToken_strips_seven_bytes
                    {| pkg.IAMAccessToken := "Bearer-abc"; pkg.BluemixAPIKey := "key" |})
             "-"%char "abc" eq_refl).
  - exact (proj1 (proj2 (bluemixToken_strips_seven_bytes
                    {| pkg.IAMAccessToken := "Bearer"; pkg.BluemixAPIKey := "key" |}))
             eq_refl).
  - exact (proj2 (proj2 (bluemixToken_strips_seven_bytes
                    {| pkg.IAMAccessToken := "abc"; pkg.BluemixAPIKey := "key" |}))
             eq_refl).
Defined.

Lemma fetchUserDetails_witness :
  exists res s config token,
    pkg.fetchUserDetails Samples.parse (Samples.session "Bearer header.claims.sig") 2
    = Done res /\
    Samples.session "Bearer header.claims.sig" = Some s /\
    pkg.Session_Config s = Some config /\
    pkg.bluemixToken config = Done token.
Proof.
  assert (Hrun :
    pkg.fetchUserDetails Samples.parse (Samples.session "Bearer header.claims.sig") 2
    = Done (Some {| pkg.ID := "IBMid-1"; pkg.Email := "user@example.com";
                    pkg.Account := "acct-9"; pkg.cloudName := "bluemix";
                    pkg.cloudType := "public"; pkg.generation := 2 |}, None))
    by reflexivity.
  destruct (fetchUserDetails_result Samples.parse _ _ _ Hrun)
    as (s & config & token & Hs & Hc & Ht & _).
  exists (Some {| pkg.ID := "IBMid-1"; pkg.Email := "user@example.com";
                  pkg.Account := "acct-9"; pkg.cloudName := "bluemix";
                  pkg.cloudType := "public"; pkg.generation := 2 |}, None),
         s, config, token.
  auto.
Defined.

Lemma fetchUserDetails_ignores_key_errors_witness :
  pkg.fetchUserDetails Samples.parse_accepted (Samples.session "Bearer header.claims.sig") 2
  = pkg.fetchUserDetails Samples.parse_quietly (Samples.session "Bearer header.claims.sig") 2.
Proof.
  apply fetchUserDetails_ignores_key_errors.
  - intros token. unfold Samples.parse_accepted, Samples.parse_quietly.
    destruct (String.eqb token "header.claims.sig"), (String.eqb token "quiet"); reflexivity.
  - intros token. unfold Samples.parse_accepted.
    destruct (String.eqb token "header.claims.sig"), (String.eqb token "quiet"); reflexivity.
  - intros token. unfold Samples.parse_quietly.
    destruct (String.eqb token "header.claims.sig"), (String.eqb token "quiet"); reflexivity.
Defined.


Lemma NewPowerVSMachineScope_validates_first_witness :
  NewScope.NewPowerVSMachineScope (patch_Helper := string) (IBMPowerVSClient := string)
    "klogr" Samples.helper_for_machine NewScope.Exited Samples.region_of
    Samples.powervs_client
    (Samples.machine_params None None None None)
  = NewScope.Returned
      (None, Some (errors_New "client is required when creating a MachineScope")) /\
  NewScope.NewPowerVSMachineScope (patch_Helper := string) (IBMPowerVSClient := string)
    "klogr" Samples.helper_for_machine NewScope.Exited Samples.region_of
    Samples.powervs_client
    (Samples.machine_params (Some "client") None None None)
  = NewScope.Returned
      (None, Some (errors_New "machine is required when creating a MachineScope")) /\
  NewScope.NewPowerVSMachineScope (patch_Helper := string) (IBMPowerVSClient := string)
    "klogr" Samples.helper_for_machine NewScope.Exited Samples.region_of
    Samples.powervs_client
    (Samples.machine_params (Some "client") (Some Samples.demo_machine) None None)
  = NewScope.Returned
      (None, Some (errors_New "cluster is required when creating a MachineScope")) /\
  NewScope.NewPowerVSMachineScope (patch_Helper := string) (IBMPowerVSClient := string)
    "klogr" Samples.helper_for_machine NewScope.Exited Samples.region_of
    Samples.powervs_client
    (Samples.machine_params (Some "client") (Some Samples.demo_machine) (Some "cluster")
       None)
  = NewScope.Returned
      (None, Some (errors_New "aws machine is required when creating a MachineScope")).
Proof.
  split; [|split; [|split]].
  - exact (proj1 (NewPowerVSMachineScope_validates_first "klogr" Samples.helper_for_machine
                    NewScope.Exited Samples.region_of Samples.powervs_client
                    (Samples.machine_params None None None None))
             eq_refl).
  - refine (proj1 (proj2 (NewPowerVSMachineScope_validates_first "klogr"
                    Samples.helper_for_machine
                    NewScope.Exited Samples.region_of Samples.powervs_client
                    (Samples.machine_params (Some "client") None None None)))
             _ eq_refl).
    discriminate.
  - refine (proj1 (proj2 (proj2 (NewPowerVSMachineScope_validates_first "klogr"
                    Samples.helper_for_machine
                    NewScope.Exited Samples.region_of Samples.powervs_client
                    (Samples.machine_params (Some "client") (Some Samples.demo_machine)
                       None None))))
             _ _ eq_refl); discriminate.
  - refine (proj2 (proj2 (proj2 (NewPowerVSMachineScope_validates_first "klogr"
                    Samples.helper_for_machine
                    NewScope.Exited Samples.region_of Samples.powervs_client
                    (Samples.machine_params (Some "client") (Some Samples.demo_machine)
                       (Some "cluster") None))))
             _ _ _ eq_refl); discriminate.
Defined.

Lemma NewPowerVSMachineScope_witness :
  (exists s,
     NewScope.NewPowerVSMachineScope "klogr" Samples.helper_for_machine
       (NewScope.Returned Samples.pkg_client) Samples.region_of Samples.powervs_client
       (Samples.machine_params (Some "client") (Some Samples.demo_machine) (Some "cluster")
          (Some Samples.demo_powervs_machine))
     = NewScope.Returned (Some s, None) /\
     NewScope.Scope_Machine s = Some Samples.demo_machine /\
     NewScope.Scope_IBMPowerVSMachine s = Some Samples.demo_powervs_machine /\
     NewScope.Scope_IBMPowerVSCluster s = None /\
     NewScope.Scope_Logger s <> None) /\
  NewScope.NewPowerVSMachineScope "klogr" Samples.helper_for_machine
    (NewScope.Returned Samples.pkg_client) Samples.region_of Samples.refused_powervs_client
    (Samples.machine_params (Some "client") (Some Samples.demo_machine) (Some "cluster")
       (Some Samples.demo_powervs_machine))
  = NewScope.Returned (None, Some (errors_New "failed to create NewIBMPowerVSClient")).
Proof.
  split.
  - eexists.
    assert (Hrun :
      NewScope.NewPowerVSMachineScope "klogr" Samples.helper_for_machine
        (NewScope.Returned Samples.pkg_client) Samples.region_of Samples.powervs_client
        (Samples.machine_params (Some "client") (Some Samples.demo_machine) (Some "cluster")
           (Some Samples.demo_powervs_machine))
      = NewScope.Returned (Some _, None)) by reflexivity.
    destruct (NewPowerVSMachineScope_result _ _ _ _ _ _ _ _ Hrun) as (_ & Hs & _).
    destruct (Hs _ eq_refl) as (_ & _ & Hm & _ & _ & _ & Hp & _ & Hc & Hl & _).
    split; [exact Hrun|]. split; [exact Hm|]. split; [exact Hp|]. split; [exact Hc | exact Hl].
  - assert (Hrun : exists sc err,
      NewScope.NewPowerVSMachineScope "klogr" Samples.helper_for_machine
        (NewScope.Returned Samples.pkg_client) Samples.region_of
        Samples.refused_powervs_client
        (Samples.machine_params (Some "client") (Some Samples.demo_machine) (Some "cluster")
           (Some Samples.demo_powervs_machine))
      = NewScope.Returned (sc, err)) by (do 2 eexists; reflexivity).
    destruct Hrun as (sc & err & Hrun). rewrite Hrun.
    destruct (NewPowerVSMachineScope_result _ _ _ _ _ _ _ _ Hrun) as (Hiff & _ & Hfail).
    assert (Herr : err = Some (fmt_Errorf "failed to create NewIBMPowerVSClient")).
    { apply (Hfail Samples.demo_powervs_machine Samples.pkg_client
               (fun _ => ({| NewScope.RegionID := "dal10" |}, None))
               {| NewScope.RegionID := "dal10" |} "dal"
               {| pkg.IAMAccessToken := "token"; pkg.BluemixAPIKey := "key" |}
               {| pkg.ID := "IBMid-1"; pkg.Email := ""; pkg.Account := "acct-9";
                  pkg.cloudName := "bluemix"; pkg.cloudType := "public";
                  pkg.generation := 2 |}
               None (errors_New "bad credentials"));
        (discriminate || reflexivity). }
    rewrite Herr in *. do 2 f_equal. apply Hiff. discriminate.
Defined.
